(** * code-documentator: the path filter, the tree walk and the three passes

    A shallow embedding of [app.py] and [appStructure.py].

    Python [str] values are Rocq [string]s; one [ascii] stands for one code
    point below 256.  The operating system is seen through the calls the
    program makes: [os.path.isfile], [open(...).read()], [os.getcwd()] and
    the clock are parameters, and the directory tree under the start path
    is a finite tree of names.  The layout library is seen through its
    constructors; the one that can raise, [Paragraph], is a parameter
    too. *)

From Stdlib Require Import ZArith Ascii DecimalString.
From stdpp Require Import base option list strings gmap sorting.

Local Open Scope Z_scope.
Local Open Scope stdpp_scope.

(** ** Python's [str] methods *)

Module Py.

Definition chr (n : N) : ascii := ascii_of_N n.
Definition ord (c : ascii) : N := N_of_ascii c.

Definition len (s : string) : Z := Z.of_nat (String.length s).

(** [s.startswith(p)] *)
Fixpoint startswith (s p : string) : bool :=
  match p, s with
  | "", _ => true
  | String _ _, "" => false
  | String b p', String a s' => Ascii.eqb a b && startswith s' p'
  end.

(** [s.endswith(p)] *)
Fixpoint endswith (s p : string) : bool :=
  String.eqb s p ||
  match s with
  | "" => false
  | String _ s' => endswith s' p
  end.

(** [s.split(sep)] for a one-character separator *)
Fixpoint split (sep : ascii) (s : string) : list string :=
  match s with
  | "" => [""]
  | String c s' =>
      if Ascii.eqb c sep then "" :: split sep s'
      else match split sep s' with
           | [] => [String c ""]
           | w :: ws => String c w :: ws
           end
  end.

(** [sep.join(l)] *)
Fixpoint join (sep : string) (l : list string) : string :=
  match l with
  | [] => ""
  | x :: l' =>
      match l' with
      | [] => x
      | _ :: _ => x +:+ sep +:+ join sep l'
      end
  end.

(** [sep * n] *)
Fixpoint repeat_str (s : string) (n : nat) : string :=
  match n with
  | O => ""
  | S k => s +:+ repeat_str s k
  end.

(** [s.rfind(c)] for a one-character needle; [-1] when absent *)
Fixpoint rfind (c : ascii) (s : string) : Z :=
  match s with
  | "" => -1
  | String a s' =>
      let r := rfind c s' in
      if 0 <=? r then r + 1 else if Ascii.eqb a c then 0 else -1
  end.

Fixpoint drop (n : nat) (s : string) : string :=
  match n, s with
  | O, _ => s
  | S _, "" => ""
  | S k, String _ s' => drop k s'
  end.

Fixpoint take (n : nat) (s : string) : string :=
  match n, s with
  | O, _ => ""
  | S _, "" => ""
  | S k, String a s' => String a (take k s')
  end.

(** [s[i:j]], [s[i:]] and [s[:j]] for indices that are not negative *)
Definition slice (i j : Z) (s : string) : string :=
  take (Z.to_nat (j - i)) (drop (Z.to_nat i) s).
Definition slice_from (i : Z) (s : string) : string := drop (Z.to_nat i) s.
Definition slice_to (j : Z) (s : string) : string := take (Z.to_nat j) s.

(** [c.lower()] on the code points below 256: [A-Z] and the upper-case
    letters of the Latin-1 supplement (all of [0xC0..0xDE] except the
    multiplication sign) move up by 32. *)
Definition lower_char (c : ascii) : ascii :=
  let n := ord c in
  if ((65 <=? n) && (n <=? 90) ||
      (192 <=? n) && (n <=? 222) && negb (n =? 215))%N
  then chr (n + 32) else c.

Fixpoint lower (s : string) : string :=
  match s with
  | "" => ""
  | String c s' => String (lower_char c) (lower s')
  end.

(** The line boundaries of [str.splitlines] below 256. *)
Definition is_linebreak (c : ascii) : bool :=
  let n := ord c in
  ((n =? 10) || (n =? 11) || (n =? 12) || (n =? 13) ||
   (n =? 28) || (n =? 29) || (n =? 30) || (n =? 133))%N.

Definition LF : ascii := chr 10.
Definition CR : ascii := chr 13.

(** [s.splitlines()]: [prev_cr] records that the previous character was a
    carriage return, whose following line feed ends no second line. *)
Fixpoint splitlines_go (prev_cr : bool) (s : string) : list string :=
  match s with
  | "" => []
  | String c s' =>
      if prev_cr && Ascii.eqb c LF then splitlines_go false s'
      else if is_linebreak c then "" :: splitlines_go (Ascii.eqb c CR) s'
      else match splitlines_go false s' with
           | [] => [String c ""]
           | l :: ls => String c l :: ls
           end
  end.
Definition splitlines (s : string) : list string := splitlines_go false s.

(** [str(n)] for a natural number *)
Definition str_of_nat (n : nat) : string :=
  NilEmpty.string_of_uint (Nat.to_uint n).

(** [s.rjust(w)] *)
Definition rjust (w : nat) (s : string) : string :=
  repeat_str " " (w - String.length s) +:+ s.

(** [f"{n:4d}"]: the width is a minimum *)
Definition format_4d (n : nat) : string := rjust 4 (str_of_nat n).

(** [s.replace(old, '')] scanning left to right; [skip] counts the
    characters of a match that are still to be dropped. *)
Fixpoint remove_go (old : string) (skip : nat) (s : string) : string :=
  match s with
  | "" => ""
  | String a s' =>
      match skip with
      | S k => remove_go old k s'
      | O =>
          if startswith s old
          then remove_go old (String.length old - 1) s'
          else String a (remove_go old 0 s')
      end
  end.
Definition remove (old s : string) : string :=
  if String.eqb old "" then s else remove_go old 0 s.

(** [s.count(c)] for a one-character needle *)
Fixpoint count (c : ascii) (s : string) : nat :=
  match s with
  | "" => O
  | String a s' => (if Ascii.eqb a c then 1 else 0) + count c s'
  end.

End Py.

(** ** [posixpath] *)

Module posixpath.

Definition isabs (s : string) : bool := Py.startswith s "/".

(** [join(a, b)] *)
Definition join (a b : string) : string :=
  if Py.startswith b "/" then b
  else if String.eqb a "" || Py.endswith a "/" then a +:+ b
  else a +:+ "/" +:+ b.

(** [join(a, *p)] *)
Definition join_all (a : string) (p : list string) : string :=
  fold_left join p a.

(** The number [normpath] calls [initial_slashes]: POSIX keeps one or two
    leading slashes and treats three or more as one. *)
Definition initial_slashes (path : string) : nat :=
  if Py.startswith path "/" then
    if Py.startswith path "//" && negb (Py.startswith path "///")
    then 2%nat else 1%nat
  else 0%nat.

Definition is_nil {A} (l : list A) : bool :=
  match l with [] => true | _ :: _ => false end.

(** One turn of the loop over [comps] in [normpath]. *)
Definition normpath_step (initial : nat) (new_comps : list string)
    (comp : string) : list string :=
  if bool_decide (comp = "" \/ comp = ".") then new_comps
  else if bool_decide (comp <> "..")
          || (Nat.eqb initial 0 && is_nil new_comps)
          || (negb (is_nil new_comps)
              && bool_decide (last new_comps = Some ".."))
  then new_comps ++ [comp]
  else if negb (is_nil new_comps) then removelast new_comps
  else new_comps.

Definition normpath_comps (path : string) : list string :=
  fold_left (normpath_step (initial_slashes path)) (Py.split "/" path) [].

Definition normpath (path : string) : string :=
  if String.eqb path "" then "."
  else
    let path' :=
      Py.repeat_str "/" (initial_slashes path)
      +:+ Py.join "/" (normpath_comps path) in
    if String.eqb path' "" then "." else path'.

Fixpoint all_dots (s : string) : bool :=
  match s with
  | "" => true
  | String c s' => Ascii.eqb c "." && all_dots s'
  end.

(** [splitext(p)]: the extension starts at the last dot of the last
    component, unless only dots come before it in that component. *)
Definition splitext (p : string) : string * string :=
  let sepIndex := Py.rfind "/" p in
  let dotIndex := Py.rfind "." p in
  if sepIndex <? dotIndex then
    if all_dots (Py.slice (sepIndex + 1) dotIndex p) then (p, "")
    else (Py.slice_to dotIndex p, Py.slice_from dotIndex p)
  else (p, "").

Definition basename (p : string) : string :=
  Py.slice_from (Py.rfind "/" p + 1) p.

Section cwd.
(** [os.getcwd()] *)
Variable cwd : string.

Definition abspath (path : string) : string :=
  normpath (if isabs path then path else join cwd path).

Fixpoint commonprefix (l1 l2 : list string) : list string :=
  match l1, l2 with
  | x :: l1', y :: l2' =>
      if String.eqb x y then x :: commonprefix l1' l2' else []
  | _, _ => []
  end.

(** [relpath(path, start)]; [None] stands for the [ValueError] raised on
    an empty [path]. *)
Definition relpath (path start : string) : option string :=
  if String.eqb path "" then None
  else
    let start_list :=
      filter (fun x => x <> "") (Py.split "/" (abspath start)) in
    let path_list :=
      filter (fun x => x <> "") (Py.split "/" (abspath path)) in
    let i := length (commonprefix start_list path_list) in
    let rel_list :=
      replicate (length start_list - i) ".." ++ drop i path_list in
    match rel_list with
    | [] => Some "."
    | x :: xs => Some (join_all x xs)
    end.
End cwd.

End posixpath.

(** The names a directory listing can hold: not empty, not [.] or [..], and
    without a separator. *)
Definition valid_name (n : string) : bool :=
  negb (String.eqb n "") && negb (String.eqb n ".")
  && negb (String.eqb n "..") && Nat.eqb (Py.count "/" n) 0.


(** ** The document blocks handed to the layout library *)

Inductive style : Type :=
| Title | Heading2 | Heading3
| CodeHeader | StructureHeader | DirItem | FileItem | SummaryItem | Code.

(** A directive of a [TableStyle]: its name, the two corner cells and the
    remaining arguments. *)
Inductive style_arg : Type :=
| Color (name : string)
| Name (s : string)
| Number (n : Z).

Definition table_command : Type :=
  string * (Z * Z) * (Z * Z) * list style_arg.

(** The heights of the [Spacer]s are [0.5], [0.3] and [0.2 * inch]; the
    model keeps the number of tenths of an inch. *)
Inductive flowable : Type :=
| Paragraph (text : string) (st : style)
| Preformatted (text : string) (st : style)
| Spacer (width : Z) (height_tenths_of_inch : Z)
| PageBreak
| Table (data : list (list string)) (table_style : list table_command).

(** [Paragraph(text, style)]: the constructor parses [text] as markup and
    raises [ValueError] on a text it cannot parse, a file name such as
    [a<b.js] for one.  [parses text st] tells whether it returns; [None]
    is the exception.  The other constructors keep their arguments as
    they are and always return. *)
Definition paragraph (parses : string -> style -> bool)
    (text : string) (st : style) : option flowable :=
  if parses text st then Some (Paragraph text st) else None.

(** ** The directory tree and [os.walk] *)

(** What [os.scandir] lists.  [File] is any entry that is not a directory
    (a regular file, a broken link, a socket, ...).  [Dir name None] is an
    entry that counts as a directory but that [os.walk] does not yield: a
    link to a directory, or a directory that cannot be listed. *)
#[local] Unset Elimination Schemes.
Inductive node : Type :=
| File (name : string)
| Dir (name : string) (listing : option (list node)).
#[local] Set Elimination Schemes.

Definition node_name (n : node) : string :=
  match n with File s => s | Dir s _ => s end.

Definition is_dir (n : node) : bool :=
  match n with Dir _ _ => true | File _ => false end.

Definition dir_names (es : list node) : list string :=
  node_name <$> filter (fun n => is_dir n) es.

Definition file_names (es : list node) : list string :=
  node_name <$> filter (fun n => negb (is_dir n)) es.

(** The directory entry called [d], as [os.walk] reaches it through
    [join(top, d)]. *)
Fixpoint find_dir (d : string) (es : list node) : option node :=
  match es with
  | [] => None
  | c :: es' =>
      if is_dir c && String.eqb (node_name c) d then Some c
      else find_dir d es'
  end.

(** One [(root, dirs, files)] triple of the generator. *)
Definition walk_entry : Type := string * list string * list string.

(** [os.walk(top)], top down.  The loop body of every caller either leaves
    [dirs] alone or assigns [dirs[:] = ...] before the generator resumes;
    [prune root dirs] is the list the generator then finds in [dirs], and
    the yielded triple is recorded with it.  Errors of [scandir] are
    swallowed ([onerror] is not given) and links are not followed. *)
Fixpoint walk (prune : string -> list string -> list string)
    (top : string) (n : node) : list walk_entry :=
  match n with
  | File _ => []
  | Dir _ None => []
  | Dir _ (Some es) =>
      let dirs := prune top (dir_names es) in
      (top, dirs, file_names es) ::
      flat_map
        (fun d =>
           (fix lookup (l : list node) : list walk_entry :=
              match l with
              | [] => []
              | c :: l' =>
                  if is_dir c && String.eqb (node_name c) d
                  then walk prune (posixpath.join top d) c
                  else lookup l'
              end) es)
        dirs
  end.

(** [scandir('')] fails, so walking the empty path yields nothing. *)
Definition os_walk (prune : string -> list string -> list string)
    (top : string) (tree : node) : list walk_entry :=
  if String.eqb top "" then [] else walk prune top tree.

Definition keep_dirs (root : string) (dirs : list string) : list string := dirs.

(** A loop whose body can raise: [None] is the exception leaving the loop. *)
Fixpoint foldM {A S : Type} (f : S -> A -> option S) (l : list A) (s : S)
    : option S :=
  match l with
  | [] => Some s
  | x :: l' => s' ← f s x; foldM f l' s'
  end.

(** [sorted(files)] on strings: Python compares code point by code point. *)
Definition sorted_names (files : list string) : list string :=
  merge_sort String.le files.

(** The order of [(ext, count)] tuples. *)
Definition item_le (a b : string * nat) : Prop :=
  if String.eqb a.1 b.1 then (a.2 <= b.2)%nat else String.le a.1 b.1.

#[global] Instance item_le_dec : RelDecision item_le.
Proof. intros a b. unfold item_le. destruct (String.eqb a.1 b.1); apply _. Defined.

Definition sorted_items (items : list (string * nat)) : list (string * nat) :=
  merge_sort item_le items.

(** ** The structure listing, shared text of both source files *)

Section structure.
Variable cwd : string.
Variable should_include : string -> bool.
Variable parses : string -> style -> bool.

(** [dirs[:] = [d for d in dirs if should_include(os.path.join(root, d))]] *)
Definition prune_dirs (root : string) (dirs : list string) : list string :=
  filter (fun d => should_include (posixpath.join root d)) dirs.

Definition keep_files (root : string) (files : list string) : list string :=
  filter (fun f => should_include (posixpath.join root f)) files.

(** The body of the loop of [generate_directory_structure]. *)
Definition structure_step (startpath : string) (structure : list flowable)
    (e : walk_entry) : option (list flowable) :=
  let '(root, _, files0) := e in
  let files := keep_files root files0 in
  let level := Py.count "/" (Py.remove startpath root) in
  let indent := Py.repeat_str (Py.repeat_str " " 4) level in
  rel_path ← posixpath.relpath cwd root startpath;
  let display_path :=
    if String.eqb rel_path "."
    then posixpath.basename (posixpath.abspath cwd startpath) +:+ "/"
    else posixpath.basename root +:+ "/" in
  dir_item ← paragraph parses (indent +:+ display_path) DirItem;
  let structure := structure ++ [dir_item] in
  let subindent := Py.repeat_str (Py.repeat_str " " 4) (level + 1) in
  foldM
    (fun structure f =>
       file_item ← paragraph parses (subindent +:+ f) FileItem;
       Some (structure ++ [file_item]))
    files structure.

Definition structure_pass (startpath : string) (tree : node)
    : option (list flowable) :=
  header ← paragraph parses "Project Directory Structure" StructureHeader;
  foldM (structure_step startpath)
    (os_walk prune_dirs startpath tree) [header].

End structure.

(** ** [app.py] *)

Module App.

Definition VALID_EXTENSIONS : list string :=
  [".js"; ".ts"; ".json"; ".html"; ".css"; ".jsx"; ".vue"; ".scss"; ".md";
   ".geojson"].
Definition EXCLUDE_DIRS : list string :=
  ["node_modules"; ".git"; "dist"; "build"; "coverage"].

Section passes.
(** [os.path.isfile] *)
Variable isfile : string -> bool.
(** [open(file_path, 'r', encoding='utf-8').read()]: the text, or [str(e)]
    of the exception *)
Variable read_text : string -> string + string.
(** whether [Paragraph(text, style)] returns *)
Variable parses : string -> style -> bool.
(** [os.getcwd()] *)
Variable cwd : string.
(** [datetime.now()] as the cover page and the summary format it *)
Variable cover_date : string.
Variable summary_time : string.

Definition should_include (path : string) : bool :=
  let path_parts := Py.split "/" (posixpath.normpath path) in
  if existsb (fun part => bool_decide (part ∈ EXCLUDE_DIRS)) path_parts
  then false
  else if isfile path
  then bool_decide (Py.lower (posixpath.splitext path).2 ∈ VALID_EXTENSIONS)
  else true.

Definition numbered_line (i : nat) (line : string) : string :=
  Py.format_4d (i + 1) +:+ " | " +:+ line.

Definition formatted_lines (content : string) : list string :=
  imap numbered_line (Py.splitlines content).

Definition format_code (content filename : string) : string :=
  Py.join (String Py.LF "") (formatted_lines content).

Definition generate_directory_structure (startpath : string) (tree : node)
    : option (list flowable) :=
  structure_pass cwd should_include parses startpath tree.

(** The [try] ... [except Exception as e] around the read. *)
Definition read_content (file_path : string) : string :=
  match read_text file_path with
  | inl content => content
  | inr e => "Error reading file: " +:+ e
  end.

(** The body of the inner loop of [generate_file_contents]. *)
Definition content_step (root_dir root : string)
    (st : list flowable * nat) (filename : string)
    : option (list flowable * nat) :=
  let '(contents, file_count) := st in
  let file_path := posixpath.join root filename in
  rel_path ← posixpath.relpath cwd file_path root_dir;
  let content := read_content file_path in
  let file_count := (file_count + 1)%nat in
  let contents := contents ++ [PageBreak] in
  header ← paragraph parses ("File: " +:+ rel_path) CodeHeader;
  let contents := contents ++ [header] in
  let code := format_code content filename in
  Some (contents ++ [Preformatted code Code], file_count).

Definition content_dir (root_dir : string) (st : list flowable * nat)
    (e : walk_entry) : option (list flowable * nat) :=
  let '(root, _, files0) := e in
  let files := keep_files should_include root files0 in
  foldM (content_step root_dir root) (sorted_names files) st.

Definition generate_file_contents (root_dir : string) (tree : node)
    : option (list flowable * nat) :=
  foldM (content_dir root_dir)
    (os_walk (prune_dirs should_include) root_dir tree) ([], 0%nat).

(** The first loop of [generate_project_summary]. *)
Definition count_directories (root_dir : string) (tree : node) : nat :=
  fold_left (fun dir_count (_ : walk_entry) => (dir_count + 1)%nat)
    (os_walk (prune_dirs should_include) root_dir tree) 0%nat.

(** The body of the inner loop of the second one. *)
Definition tally_file (root : string) (ext_counts : gmap string nat)
    (filename : string) : gmap string nat :=
  if should_include (posixpath.join root filename) then
    let ext := Py.lower (posixpath.splitext filename).2 in
    <[ext := (default 0%nat (ext_counts !! ext) + 1)%nat]> ext_counts
  else ext_counts.

Definition tally_dir (ext_counts : gmap string nat) (e : walk_entry)
    : gmap string nat :=
  let '(root, _, files) := e in
  fold_left (tally_file root) files ext_counts.

Definition count_extensions (root_dir : string) (tree : node)
    : gmap string nat :=
  fold_left tally_dir (os_walk keep_dirs root_dir tree) ∅.

Definition file_type_row (item : string * nat) : list string :=
  let '(ext, count) := item in
  [if String.eqb ext "" then "No Extension" else ext; Py.str_of_nat count].

Definition file_type_data (ext_counts : gmap string nat)
    : list (list string) :=
  ["File Type"; "Count"]
  :: (file_type_row <$> sorted_items (map_to_list ext_counts)).

Definition file_type_style : list table_command :=
  [ ("BACKGROUND", (0, 0), (-1, 0), [Color "lightblue"]);
    ("TEXTCOLOR", (0, 0), (-1, 0), [Color "black"]);
    ("ALIGN", (0, 0), (-1, -1), [Name "CENTER"]);
    ("FONTNAME", (0, 0), (-1, 0), [Name "Helvetica-Bold"]);
    ("FONTSIZE", (0, 0), (-1, 0), [Number 10]);
    ("BOTTOMPADDING", (0, 0), (-1, 0), [Number 12]);
    ("BACKGROUND", (0, 1), (-1, -1), [Color "beige"]);
    ("GRID", (0, 0), (-1, -1), [Number 1; Color "black"]) ].

Definition generate_project_summary (root_dir : string) (tree : node)
    (file_count : nat) : option (list flowable) :=
  header ← paragraph parses "Project Documentation Summary" StructureHeader;
  let summary := [header; Spacer 1 3] in
  root_item ←
    paragraph parses ("Project Root: " +:+ posixpath.abspath cwd root_dir)
      SummaryItem;
  time_item ←
    paragraph parses ("Generated on: " +:+ summary_time) SummaryItem;
  let summary := summary ++ [root_item; time_item] in
  let dir_count := count_directories root_dir tree in
  dirs_item ←
    paragraph parses ("Total Directories: " +:+ Py.str_of_nat dir_count)
      SummaryItem;
  files_item ←
    paragraph parses ("Total Files Documented: " +:+ Py.str_of_nat file_count)
      SummaryItem;
  let summary := summary ++ [dirs_item; files_item; Spacer 1 2] in
  let ext_counts := count_extensions root_dir tree in
  Some (summary ++ [Table (file_type_data ext_counts) file_type_style]).

(** The story [generate_pdf] hands to [doc.build]. *)
Definition generate_pdf (root_dir : string) (tree : node)
    : option (list flowable) :=
  title ← paragraph parses "Project Documentation" Title;
  let story := [title; Spacer 1 5] in
  project ←
    paragraph parses
      ("Project: " +:+ posixpath.basename (posixpath.abspath cwd root_dir))
      Heading2;
  date ← paragraph parses ("Generated on: " +:+ cover_date) Heading3;
  let story := story ++ [project; date; PageBreak] in
  structure ← generate_directory_structure root_dir tree;
  let story := story ++ structure ++ [PageBreak] in
  '(file_contents, file_count) ← generate_file_contents root_dir tree;
  let story := story ++ file_contents in
  let story := story ++ [PageBreak] in
  summary ← generate_project_summary root_dir tree file_count;
  Some (story ++ summary).

End passes.
End App.

(** ** [appStructure.py] *)

Module AppStructure.

Definition VALID_EXTENSIONS : list string :=
  [".js"; ".ts"; ".json"; ".html"; ".css"; ".jsx"; ".vue"; ".scss"; ".md"].
Definition EXCLUDE_DIRS : list string :=
  ["node_modules"; ".git"; "dist"; "build"; "coverage"].

Section passes.
Variable isfile : string -> bool.
Variable parses : string -> style -> bool.
Variable cwd : string.

Definition should_include (path : string) : bool :=
  let path_parts := Py.split "/" path in
  if existsb (fun excl => bool_decide (excl ∈ path_parts)) EXCLUDE_DIRS
  then false
  else if isfile path
  then bool_decide (Py.lower (posixpath.splitext path).2 ∈ VALID_EXTENSIONS)
  else true.

Definition generate_directory_structure (startpath : string) (tree : node)
    : option (list flowable) :=
  structure_pass cwd should_include parses startpath tree.

End passes.
End AppStructure.

(** ** Vocabulary of the statements *)

(** Induction on a tree whose listings are lists of trees. *)
Section node_induction.
Variable P : node -> Prop.
Hypothesis HFile : forall name, P (File name).
Hypothesis HSkip : forall name, P (Dir name None).
Hypothesis HDir : forall name es, Forall P es -> P (Dir name (Some es)).

Fixpoint node_induction (n : node) : P n :=
  match n with
  | File name => HFile name
  | Dir name None => HSkip name
  | Dir name (Some es) =>
      HDir name es
        ((fix all (l : list node) : Forall P l :=
            match l with
            | [] => @List.Forall_nil _ P
            | c :: l' => @List.Forall_cons _ P c l' (node_induction c) (all l')
            end) es)
  end.
End node_induction.

(** The walk below the entry [d] of a listing. *)
Definition sub_walk (prune : string -> list string -> list string)
    (top : string) (es : list node) (d : string) : list walk_entry :=
  match find_dir d es with
  | Some c => walk prune (posixpath.join top d) c
  | None => []
  end.


(** Every name in every listing of the tree is one a directory can hold. *)
Fixpoint valid_tree (n : node) : bool :=
  match n with
  | File _ => true
  | Dir _ None => true
  | Dir _ (Some es) =>
      (fix all (l : list node) : bool :=
         match l with
         | [] => true
         | c :: l' => valid_name (node_name c) && valid_tree c && all l'
         end) es
  end.

(** The directory reached from [top] by descending through [names]: its
    path, as [os.walk] builds it, and its listing. *)
Fixpoint locate (top : string) (tree : node) (names : list string)
    : option (string * list node) :=
  match tree with
  | Dir _ (Some es) =>
      match names with
      | [] => Some (top, es)
      | d :: names' =>
          c ← find_dir d es; locate (posixpath.join top d) c names'
      end
  | _ => None
  end.

(** The file system agrees with the tree: no directory entry is a regular
    file for [os.path.isfile]. *)
Definition dirs_not_files (isfile : string -> bool) (top : string)
    (tree : node) : bool :=
  forallb
    (fun e : walk_entry =>
       forallb (fun d => negb (isfile (posixpath.join e.1.1 d))) e.1.2)
    (walk keep_dirs top tree).

(** The files of a walk, each with the directory path it was yielded in. *)
Definition listed_files (entries : list walk_entry)
    : list (string * string) :=
  flat_map (fun e : walk_entry => pair e.1.1 <$> e.2) entries.

(** Every file entry of the tree. *)
Definition tree_files (top : string) (tree : node) : list (string * string) :=
  listed_files (os_walk keep_dirs top tree).

(** [relpath] where it is defined. *)
Definition rel_path (cwd path start : string) : string :=
  default "" (posixpath.relpath cwd path start).

Section views.
Variable isfile : string -> bool.
Variable read_text : string -> string + string.
Variable cwd : string.

(** The test on the components in [should_include] of [app.py]. *)
Definition is_excluded (path : string) : bool :=
  existsb (fun part => bool_decide (part ∈ App.EXCLUDE_DIRS))
    (Py.split "/" (posixpath.normpath path)).

(** The same test in [appStructure.py], on the components as written. *)
Definition is_excluded_raw (path : string) : bool :=
  existsb (fun excl => bool_decide (excl ∈ Py.split "/" path))
    AppStructure.EXCLUDE_DIRS.

(** The label of a visited directory in the structure listing. *)
Definition dir_label (startpath root : string) : string :=
  Py.repeat_str (Py.repeat_str " " 4) (Py.count "/" (Py.remove startpath root))
  +:+ (if String.eqb (rel_path cwd root startpath) "."
       then posixpath.basename (posixpath.abspath cwd startpath) +:+ "/"
       else posixpath.basename root +:+ "/").

(** The label of a file of that directory. *)
Definition file_label (startpath root f : string) : string :=
  Py.repeat_str (Py.repeat_str " " 4)
    (Py.count "/" (Py.remove startpath root) + 1)
  +:+ f.

(** The labels one visited directory adds to the structure listing. *)
Definition structure_block (should_include : string -> bool)
    (startpath : string) (e : walk_entry) : list flowable :=
  Paragraph (dir_label startpath e.1.1) DirItem
  :: ((fun f => Paragraph (file_label startpath e.1.1 f) FileItem)
      <$> keep_files should_include e.1.1 e.2).

(** The files the structure listing shows. *)
Definition structure_files (should_include : string -> bool)
    (startpath : string) (tree : node) : list (string * string) :=
  flat_map
    (fun e : walk_entry => pair e.1.1 <$> keep_files should_include e.1.1 e.2)
    (os_walk (prune_dirs should_include) startpath tree).

(** The directories of the content pass, each with its files in the order
    of the inner loop. *)
Definition content_groups (root_dir : string) (tree : node)
    : list (string * list string) :=
  (fun e : walk_entry =>
     (e.1.1, sorted_names (keep_files (App.should_include isfile) e.1.1 e.2)))
  <$> os_walk (prune_dirs (App.should_include isfile)) root_dir tree.

Definition content_files (root_dir : string) (tree : node)
    : list (string * string) :=
  flat_map (fun g : string * list string => pair g.1 <$> g.2)
    (content_groups root_dir tree).

(** The three blocks of one file of the content section. *)
Definition file_block (root_dir : string) (file : string * string)
    : list flowable :=
  let file_path := posixpath.join file.1 file.2 in
  [ PageBreak;
    Paragraph ("File: " +:+ rel_path cwd file_path root_dir) CodeHeader;
    Preformatted
      (App.format_code (App.read_content read_text file_path) file.2) Code ].

(** The files a triple contributes once filtered. *)
Definition kept (e : walk_entry) : list (string * string) :=
  pair e.1.1 <$> keep_files (App.should_include isfile) e.1.1 e.2.

(** The files the extension tally counts. *)
Definition tally_files (root_dir : string) (tree : node)
    : list (string * string) :=
  flat_map
    (fun e : walk_entry =>
       pair e.1.1 <$> keep_files (App.should_include isfile) e.1.1 e.2)
    (os_walk keep_dirs root_dir tree).

(** The key a file is tallied under. *)
Definition ext_key (file : string * string) : string :=
  Py.lower (posixpath.splitext file.2).2.

End views.

(** Whether the layout library builds a block: only a paragraph can be
    refused. *)
Definition builds (parses : string -> style -> bool) (b : flowable) : bool :=
  match b with Paragraph text st => parses text st | _ => true end.

(** The outcome of a pass that is to make [blocks]: it returns [r] when
    every paragraph among them is accepted, and raises otherwise. *)
Definition when_built {A} (parses : string -> style -> bool)
    (blocks : list flowable) (r : A) : option A :=
  if forallb (builds parses) blocks then Some r else None.

(** The blocks of the structure listing, of the content section, of the
    summary and of the cover, and the story they make. *)
Definition structure_blocks (cwd : string) (should_include : string -> bool)
    (startpath : string) (tree : node) : list flowable :=
  Paragraph "Project Directory Structure" StructureHeader
  :: flat_map (structure_block cwd should_include startpath)
       (os_walk (prune_dirs should_include) startpath tree).

Definition content_blocks (isfile : string -> bool)
    (read_text : string -> string + string) (cwd root_dir : string)
    (tree : node) : list flowable :=
  flat_map (file_block read_text cwd root_dir)
    (content_files isfile root_dir tree).

Definition summary_blocks (isfile : string -> bool)
    (cwd summary_time root_dir : string) (tree : node) (file_count : nat)
    : list flowable :=
  [ Paragraph "Project Documentation Summary" StructureHeader;
    Spacer 1 3;
    Paragraph ("Project Root: " +:+ posixpath.abspath cwd root_dir) SummaryItem;
    Paragraph ("Generated on: " +:+ summary_time) SummaryItem;
    Paragraph
      ("Total Directories: "
       +:+ Py.str_of_nat (App.count_directories isfile root_dir tree))
      SummaryItem;
    Paragraph ("Total Files Documented: " +:+ Py.str_of_nat file_count)
      SummaryItem;
    Spacer 1 2;
    Table (App.file_type_data (App.count_extensions isfile root_dir tree))
      App.file_type_style ].

Definition cover_blocks (cwd cover_date root_dir : string) : list flowable :=
  [ Paragraph "Project Documentation" Title;
    Spacer 1 5;
    Paragraph
      ("Project: " +:+ posixpath.basename (posixpath.abspath cwd root_dir))
      Heading2;
    Paragraph ("Generated on: " +:+ cover_date) Heading3;
    PageBreak ].

Definition story_blocks (isfile : string -> bool)
    (read_text : string -> string + string)
    (cwd cover_date summary_time root_dir : string) (tree : node)
    : list flowable :=
  cover_blocks cwd cover_date root_dir
  ++ structure_blocks cwd (App.should_include isfile) root_dir tree
  ++ [PageBreak]
  ++ content_blocks isfile read_text cwd root_dir tree
  ++ [PageBreak]
  ++ summary_blocks isfile cwd summary_time root_dir tree
       (length (content_files isfile root_dir tree)).

(** The count a table holds for a key, the sum of its counts, and the
    number of files of a list that fall under a key. *)
Definition count_of (m : gmap string nat) (e : string) : nat :=
  default 0%nat (m !! e).

Definition total_count (m : gmap string nat) : nat :=
  sum_list (map_to_list m).*2.

Definition files_with_key (e : string) (files : list (string * string)) : nat :=
  length (filter (fun file => ext_key file = e) files).

Definition positive_counts (m : gmap string nat) : Prop :=
  forall e k, m !! e = Some k -> (0 < k)%nat.

(** Strictly ascending keys. *)
Definition key_lt (a b : string * nat) : Prop :=
  String.le a.1 b.1 /\ a.1 <> b.1.

Definition is_dir_item (b : flowable) : bool :=
  match b with Paragraph _ DirItem => true | _ => false end.

Definition is_table (b : flowable) : bool :=
  match b with Table _ _ => true | _ => false end.

(** The project of the example in the specification, under [/home/u]. *)
Definition example_tree : node :=
  Dir "proj"
    (Some [ Dir "src" (Some [File "styles.css"; File "index.js"]);
            File "README.md";
            Dir "node_modules" (Some [Dir "pkg" (Some [File "index.js"])]);
            Dir "assets" (Some []) ]).

Definition example_isfile (path : string) : bool :=
  bool_decide
    (path ∈ [ "/home/u/proj/src/styles.css"; "/home/u/proj/src/index.js";
              "/home/u/proj/README.md";
              "/home/u/proj/node_modules/pkg/index.js" ]).

(** [README.md] cannot be decoded; [index.js] has two lines. *)
Definition example_read (path : string) : string + string :=
  if String.eqb path "/home/u/proj/README.md"
  then inr "'utf-8' codec can't decode byte 0xff in position 0: invalid start byte"
  else if String.eqb path "/home/u/proj/src/index.js"
  then inl ("const a = 1;" +:+ String Py.LF ("export default a;" +:+ String Py.LF ""))
  else inl "body { margin: 0 }".

(** A layout library for the examples: it refuses the texts that hold
    [<]. *)
Definition example_parses (text : string) (st : style) : bool :=
  Nat.eqb (Py.count "<" text) 0.

(** A project with a file whose name that library refuses, under [/]. *)
Definition markup_tree : node :=
  Dir "mk" (Some [File "ok.js"; File "a<b.js"; Dir "assets" (Some [])]).

Definition markup_isfile (path : string) : bool :=
  bool_decide (path ∈ ["/mk/ok.js"; "/mk/a<b.js"]).

(** No character of the string ends a line for [splitlines]. *)
Fixpoint no_linebreak (s : string) : bool :=
  match s with
  | "" => true
  | String c s' => negb (Py.is_linebreak c) && no_linebreak s'
  end.

(** How many times a file is in a list of files. *)
Definition occurrences (file : string * string)
    (files : list (string * string)) : nat :=
  length (filter (fun x => x = file) files).

(** ** Vocabulary of the further properties *)

Definition is_page_break (b : flowable) : bool :=
  match b with PageBreak => true | _ => false end.

Definition is_file_item (b : flowable) : bool :=
  match b with Paragraph _ FileItem => true | _ => false end.

(** [sub in s] *)
Fixpoint occurs_in (sub s : string) : bool :=
  Py.startswith s sub ||
  match s with
  | "" => false
  | String _ s' => occurs_in sub s'
  end.

(** The last character of a text ends no line. *)
Fixpoint ends_inside_line (s : string) : bool :=
  match s with
  | "" => false
  | String c "" => negb (Py.is_linebreak c)
  | String _ s' => ends_inside_line s'
  end.

(** A regular file with the extension [.geojson], in any case. *)
Definition regular_geojson (isfile : string -> bool)
    (file : string * string) : bool :=
  isfile (posixpath.join file.1 file.2)
  && String.eqb (ext_key file) ".geojson".

(** A project with a map among its files. *)
Definition geojson_tree : node :=
  Dir "p" (Some [File "a.js"; Dir "d" (Some [File "m.geojson"])]).

Definition geojson_isfile (path : string) : bool :=
  bool_decide (path ∈ ["/p/a.js"; "/p/d/m.geojson"]).

(** The text a descent through [names] adds to a path that ends with no
    separator. *)
Fixpoint path_below (names : list string) : string :=
  match names with
  | [] => ""
  | n :: names' => "/" +:+ n +:+ path_below names'
  end.

(** The path [abspath] normalises. *)
Definition absolute (cwd path : string) : string :=
  if posixpath.isabs path then path else posixpath.join cwd path.

(** What [normpath] keeps of the components: no empty one, no [.], and
    [..] only at the front of a relative path. *)
Definition plain_comp (c : string) : Prop :=
  c <> "" /\ c <> "." /\ Py.count "/" c = 0%nat.

Definition normal_comps (k : nat) (l : list string) : Prop :=
  Forall plain_comp l /\
  forall l1 l2, l = l1 ++ ".." :: l2 ->
                k = 0%nat /\ Forall (fun c => c = "..") l1.

(** * Facts *)

(** ** The library functions on examples *)

Example split_ex : Py.split "/" "a//b/" = ["a"; ""; "b"; ""].
Proof. reflexivity. Qed.
Example splitlines_ex :
  Py.splitlines (String "a" (String Py.CR (String Py.LF (String "b" (String Py.LF (String Py.LF "")))))) = ["a"; "b"; ""].
Proof. reflexivity. Qed.
Example fmt_ex : Py.format_4d 12 = "  12" /\ Py.format_4d (100 * 100) = "10000" /\ Py.format_4d 0 = "   0".
Proof. repeat split; reflexivity. Qed.
Example lower_ex : Py.lower ".GeoJSON" = ".geojson". Proof. reflexivity. Qed.
Example remove_ex : Py.remove "ab" "abcabab/x" = "c/x". Proof. reflexivity. Qed.
Example rfind_ex : Py.rfind "." "a.b.c" = 3 /\ Py.rfind "/" "abc" = -1. Proof. split; reflexivity. Qed.
Example normpath_ex :
  map posixpath.normpath ["a/./b/../c"; "//x//y/"; "///x"; "../a/.."; "/.."; "build/../x"; ""; "a/.."]
  = ["a/c"; "//x/y"; "/x"; ".."; "/"; "x"; "."; "."].
Proof. reflexivity. Qed.
Example splitext_ex :
  map posixpath.splitext ["a/b.tar.gz"; ".gitignore"; "a.b/c"; "x/..a"; "x/a."; "..a.js"]
  = [("a/b.tar", ".gz"); (".gitignore", ""); ("a.b/c", ""); ("x/..a", ""); ("x/a", "."); ("..a", ".js")].
Proof. reflexivity. Qed.
Example join_ex :
  posixpath.join "a" "b" = "a/b" /\ posixpath.join "a/" "b" = "a/b" /\
  posixpath.join "" "b" = "b" /\ posixpath.join "/" "b" = "/b".
Proof. repeat split; reflexivity. Qed.
Example relpath_ex :
  posixpath.relpath "/home/u" "proj/src/a.js" "proj" = Some "src/a.js" /\
  posixpath.relpath "/home/u" "proj" "proj" = Some "." /\
  posixpath.relpath "/home/u" "/home/x" "proj" = Some "../../x" /\
  posixpath.basename "/a/b" = "b".
Proof. repeat split; reflexivity. Qed.

Ltac by_decide :=
  match goal with
  | |- ?P => apply (bool_decide_eq_true_1 P); vm_compute; reflexivity
  end.

(** ** The example of the specification *)

Example example_structure :
  App.generate_directory_structure example_isfile example_parses "/home/u"
    "/home/u/proj" example_tree
  = Some [ Paragraph "Project Directory Structure" StructureHeader;
           Paragraph "proj/" DirItem;
           Paragraph "    README.md" FileItem;
           Paragraph "    src/" DirItem;
           Paragraph "        styles.css" FileItem;
           Paragraph "        index.js" FileItem;
           Paragraph "    assets/" DirItem ].
Proof. vm_compute. reflexivity. Qed.

Example example_content_order :
  content_files example_isfile "/home/u/proj" example_tree
  = [ ("/home/u/proj", "README.md"); ("/home/u/proj/src", "index.js");
      ("/home/u/proj/src", "styles.css") ].
Proof. vm_compute. reflexivity. Qed.

Example example_summary :
  App.count_directories example_isfile "/home/u/proj" example_tree = 3%nat /\
  App.file_type_data
    (App.count_extensions example_isfile "/home/u/proj" example_tree)
  = [ ["File Type"; "Count"]; [".css"; "1"]; [".js"; "1"]; [".md"; "1"] ].
Proof. vm_compute. split; reflexivity. Qed.

(** ** Facts about the string functions *)

Section string_facts.

Lemma str_app_cons a s t : String a s +:+ t = String a (s +:+ t).
Proof. reflexivity. Qed.

Lemma str_app_nil_l t : "" +:+ t = t.
Proof. reflexivity. Qed.

Lemma str_app_nil_r s : s +:+ "" = s.
Proof. induction s as [|a s IH]; [done|]. by rewrite str_app_cons, IH. Qed.

Lemma str_app_assoc s t u : (s +:+ t) +:+ u = s +:+ (t +:+ u).
Proof. induction s as [|a s IH]; [done|]. by rewrite !str_app_cons, IH. Qed.

Lemma str_app_eq_nil s t : s +:+ t = "" -> s = "" /\ t = "".
Proof. destruct s; [done|]. by rewrite str_app_cons. Qed.

Lemma split_not_nil c s : Py.split c s <> [].
Proof.
  induction s as [|a s IH]; [done|]. simpl.
  destruct (Ascii.eqb a c); [done|]. by destruct (Py.split c s).
Qed.

(** A word without the separator is one component. *)
Lemma split_word c w : Py.count c w = 0%nat -> Py.split c w = [w].
Proof.
  induction w as [|a w IH]; [done|]. simpl.
  destruct (Ascii.eqb a c); [done|]. intros H. by rewrite IH.
Qed.

Lemma split_word_sep c w s :
  Py.count c w = 0%nat ->
  Py.split c (w +:+ String c s) = w :: Py.split c s.
Proof.
  induction w as [|a w IH]; intros H.
  - rewrite str_app_nil_l. simpl. by rewrite Ascii.eqb_refl.
  - rewrite str_app_cons. simpl in *.
    destruct (Ascii.eqb a c); [done|]. by rewrite IH.
Qed.

(** The components of a split never contain the separator. *)
Lemma split_no_sep c s :
  Forall (fun w => Py.count c w = 0%nat) (Py.split c s).
Proof.
  induction s as [|a s IH]; simpl.
  - by repeat constructor.
  - destruct (Ascii.eqb a c) eqn:E; [by constructor|].
    destruct (Py.split c s) as [|w ws]; [by constructor; simpl; rewrite ?E|].
    inversion_clear IH. constructor; [|done]. simpl. by rewrite E.
Qed.

(** Appending to a string appends to its last component. *)
Lemma split_app c s t :
  Py.split c (s +:+ t) =
  match Py.split c t with
  | [] => Py.split c s
  | w :: ws =>
      removelast (Py.split c s) ++ (default "" (last (Py.split c s)) +:+ w) :: ws
  end.
Proof.
  induction s as [|a s IH].
  - rewrite str_app_nil_l. simpl. pose proof (split_not_nil c t).
    by destruct (Py.split c t).
  - rewrite str_app_cons. simpl. rewrite IH.
    pose proof (split_not_nil c t). pose proof (split_not_nil c s).
    destruct (Py.split c t) as [|w ws]; [done|].
    destruct (Ascii.eqb a c).
    + destruct (Py.split c s) as [|x xs] eqn:E; [done|]. reflexivity.
    + destruct (Py.split c s) as [|x xs] eqn:E; [done|].
      destruct xs as [|y ys]; reflexivity.
Qed.

Lemma split_join c comps :
  comps <> [] ->
  Forall (fun w => Py.count c w = 0%nat) comps ->
  Py.split c (Py.join (String c "") comps) = comps.
Proof.
  induction comps as [|x l IH]; [done|]. intros _ H.
  inversion_clear H as [|?? Hx Hl].
  destruct l as [|y l']; [by apply split_word|].
  change (Py.join (String c "") (x :: y :: l'))
    with (x +:+ String c "" +:+ Py.join (String c "") (y :: l')).
  change (String c "" +:+ ?s) with (String c s).
  rewrite split_word_sep by done. by rewrite IH.
Qed.

Lemma split_repeat_sep c k s :
  Py.split c (Py.repeat_str (String c "") k +:+ s) =
  replicate k "" ++ Py.split c s.
Proof.
  induction k as [|k IH]; [done|]. simpl Py.repeat_str.
  rewrite str_app_assoc. change (String c "" +:+ ?s) with (String c s).
  simpl. by rewrite Ascii.eqb_refl, IH.
Qed.

End string_facts.

(** ** Facts about [posixpath] *)

Section path_facts.
Import posixpath.

Lemma valid_name_spec n :
  valid_name n = true <->
  n <> "" /\ n <> "." /\ n <> ".." /\ Py.count "/" n = 0%nat.
Proof.
  unfold valid_name. rewrite !andb_true_iff, !negb_true_iff.
  rewrite !String.eqb_neq, Nat.eqb_eq. tauto.
Qed.

Lemma normpath_step_valid k l n :
  valid_name n = true -> normpath_step k l n = l ++ [n].
Proof.
  intros (H1 & H2 & H3 & _)%valid_name_spec. unfold normpath_step.
  rewrite bool_decide_eq_false_2 by (intros [?|?]; done).
  by rewrite bool_decide_eq_true_2.
Qed.

(** What a turn of the loop keeps comes from the stack or is the component
    at hand, which is then neither empty nor a dot. *)
Lemma normpath_step_elem k l comp x :
  x ∈ normpath_step k l comp ->
  x ∈ l \/ (x = comp /\ comp <> "" /\ comp <> ".").
Proof.
  unfold normpath_step. case_bool_decide as H1; [by left|].
  destruct (_ || _ || _).
  - intros [?| ->%list_elem_of_singleton]%elem_of_app; [by left|].
    right. split; [done|]. split; intros ->; apply H1; auto.
  - destruct (negb (is_nil l)); [|by left].
    intros Hx. left. destruct l as [|y l] using rev_ind; [done|].
    rewrite removelast_last in Hx. apply elem_of_app. by left.
Qed.

Lemma normpath_fold_elem k comps acc x :
  x ∈ fold_left (normpath_step k) comps acc ->
  x ∈ acc \/ (x ∈ comps /\ x <> "" /\ x <> ".").
Proof.
  revert acc. induction comps as [|c comps IH]; intros acc; simpl; [by left|].
  intros [[?|(-> & ? & ?)]%normpath_step_elem|(? & ? & ?)]%IH.
  - by left.
  - right. split; [left|done].
  - right. split; [by right|done].
Qed.

Lemma normpath_comps_elem p x :
  x ∈ normpath_comps p -> x ∈ Py.split "/" p /\ x <> "" /\ x <> ".".
Proof.
  intros [H|H]%normpath_fold_elem; [|done]. by apply elem_of_nil in H.
Qed.

Lemma join_nonempty sep l :
  Forall (fun w => w <> "") l -> l <> [] -> Py.join sep l <> "".
Proof.
  destruct l as [|x l]; [done|]. intros H _. inversion_clear H.
  destruct l; [done|]. simpl. intros [? _]%str_app_eq_nil. done.
Qed.

(** The components of the normalised path, as [should_include] splits
    them, are the kept components behind the initial slashes. *)
Lemma normpath_parts p x :
  x <> "" -> x <> "." ->
  x ∈ Py.split "/" (normpath p) <-> x ∈ normpath_comps p.
Proof.
  intros Hx1 Hx2. unfold normpath.
  destruct (String.eqb_spec p "") as [->|Hp].
  { simpl. rewrite list_elem_of_singleton. split; [done|].
    by intros ?%elem_of_nil. }
  assert (Hc : Forall (fun w => Py.count "/" w = 0%nat) (normpath_comps p)).
  { apply Forall_forall. intros y [Hy _]%normpath_comps_elem.
    pose proof (split_no_sep "/" p) as Hf.
    rewrite Forall_forall in Hf. by apply Hf. }
  assert (Hn : Forall (fun w => w <> "") (normpath_comps p)).
  { apply Forall_forall. by intros y (_ & ? & _)%normpath_comps_elem. }
  destruct (normpath_comps p) as [|c cs] eqn:E.
  - assert (Hs : forall k,
      x ∈ Py.split "/" (Py.repeat_str "/" k +:+ "") -> False).
    { intros k. rewrite split_repeat_sep. simpl.
      intros [[? _]%elem_of_replicate|?%list_elem_of_singleton]%elem_of_app;
        done. }
    destruct (String.eqb _ ""); split; try by intros ?%elem_of_nil.
    + by intros ?%list_elem_of_singleton.
    + intros H. destruct (Hs _ H).
  - destruct (String.eqb_spec
      (Py.repeat_str "/" (initial_slashes p) +:+ Py.join "/" (c :: cs)) "")
      as [[_ H]%str_app_eq_nil|_].
    { by apply join_nonempty in H. }
    rewrite split_repeat_sep, split_join by done.
    rewrite elem_of_app, elem_of_replicate.
    split; [intros [[? _]|?]; done | by right].
Qed.

Lemma startswith_app_l s t p :
  (String.length p <= String.length s)%nat ->
  Py.startswith (s +:+ t) p = Py.startswith s p.
Proof.
  revert s. induction p as [|b p IH]; intros s H.
  { by destruct s, t. }
  destruct s as [|a s]; simpl in H; [lia|].
  rewrite str_app_cons. simpl. rewrite IH by lia. done.
Qed.

Lemma valid_name_head n :
  valid_name n = true ->
  exists d n', n = String d n' /\ Ascii.eqb d "/" = false.
Proof.
  intros (H1 & _ & _ & H2)%valid_name_spec.
  destruct n as [|d n']; [done|]. exists d, n'. split; [done|].
  simpl in H2. by destruct (Ascii.eqb d "/").
Qed.

Lemma endswith_sep s :
  Py.endswith s "/" = true -> exists r, s = r +:+ "/".
Proof.
  induction s as [|a s IH]; [done|]. simpl.
  intros [H|H]%orb_true_iff.
  - apply andb_true_iff in H as [->%Ascii.eqb_eq H].
    destruct s; [|done]. by exists "".
  - destruct (IH H) as [r ->]. by exists (String a r).
Qed.

Lemma join_valid root n :
  valid_name n = true ->
  join root n =
  if String.eqb root "" || Py.endswith root "/" then root +:+ n
  else root +:+ "/" +:+ n.
Proof.
  intros (d & n' & -> & Hd)%valid_name_head. unfold join. simpl.
  by rewrite Hd.
Qed.

Lemma initial_slashes_join root n :
  valid_name n = true ->
  initial_slashes (join root n) = initial_slashes root.
Proof.
  intros Hn. rewrite join_valid by done.
  destruct (valid_name_head _ Hn) as (d & n' & -> & Hd).
  destruct root as [|c1 [|c2 [|c3 r]]].
  - unfold initial_slashes. simpl. by rewrite Hd.
  - unfold initial_slashes. simpl.
    destruct (Ascii.eqb c1 "/") eqn:E1; simpl;
      rewrite ?str_app_cons, ?str_app_nil_l; simpl; rewrite ?E1, ?Hd; done.
  - unfold initial_slashes. simpl.
    destruct (Ascii.eqb c1 "/") eqn:E1, (Ascii.eqb c2 "/") eqn:E2; simpl;
      rewrite ?str_app_cons, ?str_app_nil_l; simpl; rewrite ?E1, ?E2, ?Hd; done.
  - unfold initial_slashes.
    destruct (_ || _); rewrite !startswith_app_l; simpl; try done; lia.
Qed.

Lemma split_snoc_exists c s : exists l z, Py.split c s = l ++ [z].
Proof.
  pose proof (split_not_nil c s) as H.
  destruct (Py.split c s) as [|x l] using rev_ind; [done|]. eauto.
Qed.

(** Joining a listed name onto a directory path adds one component; a
    trailing separator of the directory path is used up. *)
Lemma split_join_name root n :
  valid_name n = true ->
  exists l z, Py.split "/" root = l ++ [z] /\
    ((z = "" /\ Py.split "/" (join root n) = l ++ [n]) \/
     Py.split "/" (join root n) = l ++ [z; n]).
Proof.
  intros Hn. rewrite join_valid by done.
  pose proof Hn as (_ & _ & _ & Hc)%valid_name_spec.
  destruct (String.eqb_spec root "") as [->|Hr]; simpl orb.
  { exists [], "". split; [done|]. left. split; [done|].
    rewrite str_app_nil_l. by apply split_word. }
  destruct (Py.endswith root "/") eqn:E.
  - apply endswith_sep in E as [r ->].
    destruct (split_snoc_exists "/" r) as (l & z & Hl).
    exists (l ++ [z]), "". split.
    + rewrite split_app, Hl. simpl. rewrite removelast_last, last_snoc.
      simpl. by rewrite str_app_nil_r, <- List.app_assoc.
    + left. split; [done|].
      rewrite str_app_assoc, split_app.
      change (Py.split "/" ("/" +:+ n)) with ("" :: Py.split "/" n).
      rewrite (split_word _ _ Hc), Hl, removelast_last, last_snoc. simpl.
      by rewrite str_app_nil_r, <- List.app_assoc.
  - destruct (split_snoc_exists "/" root) as (l & z & Hl).
    exists l, z. split; [done|]. right.
    rewrite split_app.
    change (Py.split "/" ("/" +:+ n)) with ("" :: Py.split "/" n).
    rewrite (split_word _ _ Hc), Hl, removelast_last, last_snoc. simpl.
    by rewrite str_app_nil_r.
Qed.

Lemma normpath_comps_join root n :
  valid_name n = true ->
  normpath_comps (join root n) = normpath_comps root ++ [n].
Proof.
  intros Hn. unfold normpath_comps. rewrite initial_slashes_join by done.
  destruct (split_join_name root n Hn) as (l & z & -> & [[-> ->]| ->]).
  - rewrite !fold_left_app. simpl. by rewrite normpath_step_valid.
  - change [z; n] with ([z] ++ [n]). rewrite List.app_assoc.
    rewrite (fold_left_app _ (l ++ [z])). simpl.
    by rewrite normpath_step_valid.
Qed.

Lemma split_join_elem root n x :
  valid_name n = true -> x <> "" ->
  x ∈ Py.split "/" (join root n) <-> x ∈ Py.split "/" root \/ x = n.
Proof.
  intros Hn Hx.
  destruct (split_join_name root n Hn) as (l & z & -> & [[-> ->]| ->]).
  - rewrite !elem_of_app, !list_elem_of_singleton. tauto.
  - rewrite !elem_of_app, list_elem_of_singleton, !elem_of_cons.
    rewrite elem_of_nil. tauto.
Qed.

End path_facts.

(** ** Facts about the two filters *)

Section filter_facts.
Import posixpath.

Lemma bool_eq_iff (b1 b2 : bool) : (b1 = true <-> b2 = true) -> b1 = b2.
Proof. destruct b1, b2; intuition congruence. Qed.

Lemma exclude_dirs_same : AppStructure.EXCLUDE_DIRS = App.EXCLUDE_DIRS.
Proof. reflexivity. Qed.

Lemma excluded_name_valid x :
  x ∈ App.EXCLUDE_DIRS -> valid_name x = true /\ x <> "" /\ x <> ".".
Proof.
  unfold App.EXCLUDE_DIRS. rewrite !elem_of_cons, elem_of_nil.
  intros [->|[->|[->|[->|[->|[]]]]]]; done.
Qed.

Lemma is_excluded_spec p :
  is_excluded p = true <->
  exists x, x ∈ App.EXCLUDE_DIRS /\ x ∈ normpath_comps p.
Proof.
  unfold is_excluded. rewrite existsb_exists. split.
  - intros (x & Hx%list_elem_of_In & He%bool_decide_eq_true).
    exists x. split; [done|].
    destruct (excluded_name_valid x He) as (_ & ? & ?).
    by apply normpath_parts.
  - intros (x & He & Hx). exists x.
    destruct (excluded_name_valid x He) as (_ & ? & ?).
    split; [|by apply bool_decide_eq_true].
    apply list_elem_of_In. by apply normpath_parts.
Qed.

Lemma is_excluded_raw_spec p :
  is_excluded_raw p = true <->
  exists x, x ∈ App.EXCLUDE_DIRS /\ x ∈ Py.split "/" p.
Proof.
  unfold is_excluded_raw. rewrite existsb_exists, exclude_dirs_same. split.
  - intros (x & Hx%list_elem_of_In & He%bool_decide_eq_true). eauto.
  - intros (x & He & Hx). exists x.
    split; [by apply list_elem_of_In | by apply bool_decide_eq_true].
Qed.

(** Normalising a path brings in no excluded name. *)
Lemma is_excluded_raw_of_norm p :
  is_excluded p = true -> is_excluded_raw p = true.
Proof.
  rewrite is_excluded_spec, is_excluded_raw_spec.
  intros (x & He & [Hx _]%normpath_comps_elem). eauto.
Qed.

Lemma raw_clean_not_excluded p :
  (forall part, part ∈ Py.split "/" p -> part ∉ App.EXCLUDE_DIRS) ->
  is_excluded_raw p = false /\ is_excluded p = false.
Proof.
  intros H.
  assert (is_excluded_raw p = false) as Hr.
  { apply not_true_is_false.
    intros (x & He & Hx)%is_excluded_raw_spec. by apply (H x). }
  split; [done|]. apply not_true_is_false.
  intros He%is_excluded_raw_of_norm. congruence.
Qed.

Lemma app_should_include_eq isfile p :
  App.should_include isfile p =
  if is_excluded p then false
  else if isfile p
  then bool_decide (Py.lower (splitext p).2 ∈ App.VALID_EXTENSIONS)
  else true.
Proof. reflexivity. Qed.

Lemma structure_should_include_eq isfile p :
  AppStructure.should_include isfile p =
  if is_excluded_raw p then false
  else if isfile p
  then bool_decide (Py.lower (splitext p).2 ∈ AppStructure.VALID_EXTENSIONS)
  else true.
Proof. reflexivity. Qed.

Lemma rfind_lower_bound c s : -1 <= Py.rfind c s.
Proof.
  induction s as [|a s IH]; simpl; [lia|].
  destruct (0 <=? Py.rfind c s) eqn:E; [lia|].
  destruct (Ascii.eqb a c); lia.
Qed.

Lemma rfind_upper_bound c s : Py.rfind c s < Py.len s.
Proof.
  unfold Py.len. induction s as [|a s IH]; simpl String.length; simpl Py.rfind; [lia|].
  destruct (0 <=? Py.rfind c s) eqn:E; [lia|].
  destruct (Ascii.eqb a c); lia.
Qed.

(** The character at the index [rfind] returns is the needle. *)
Lemma drop_rfind c s :
  0 <= Py.rfind c s ->
  exists rest, Py.drop (Z.to_nat (Py.rfind c s)) s = String c rest.
Proof.
  induction s as [|a s IH]; simpl; [lia|].
  destruct (0 <=? Py.rfind c s) eqn:E.
  - intros _. apply Z.leb_le in E. destruct (IH E) as [rest Hr].
    exists rest. rewrite Z2Nat.inj_add by lia.
    change (Z.to_nat 1) with 1%nat. rewrite Nat.add_comm. exact Hr.
  - destruct (Ascii.eqb_spec a c) as [->|]; [|lia]. intros _. by exists s.
Qed.

(** An extension, when there is one, starts with the dot. *)
Lemma splitext_leading_dot p :
  (splitext p).2 = "" \/ Py.startswith (splitext p).2 "." = true.
Proof.
  unfold splitext. destruct (Py.rfind "/" p <? Py.rfind "." p) eqn:E; [|by left].
  destruct (all_dots _); [by left|]. right. simpl.
  apply Z.ltb_lt in E. pose proof (rfind_lower_bound "/" p).
  destruct (drop_rfind "." p) as [rest Hr]; [lia|].
  unfold Py.slice_from. rewrite Hr. by destruct rest.
Qed.

Lemma existsb_elem_swap (l1 l2 : list string) :
  existsb (fun a => bool_decide (a ∈ l2)) l1 =
  existsb (fun b => bool_decide (b ∈ l1)) l2.
Proof.
  apply bool_eq_iff. rewrite !existsb_exists.
  split; intros (x & H1%list_elem_of_In & H2%bool_decide_eq_true);
    exists x; (split; [by apply list_elem_of_In | by apply bool_decide_eq_true]).
Qed.

Lemma is_excluded_normalised p :
  posixpath.normpath p = p -> is_excluded p = is_excluded_raw p.
Proof.
  intros H. unfold is_excluded, is_excluded_raw. rewrite H.
  rewrite exclude_dirs_same. apply existsb_elem_swap.
Qed.

Lemma valid_extensions_differ e :
  e ∈ App.VALID_EXTENSIONS <->
  (e ∈ AppStructure.VALID_EXTENSIONS \/ e = ".geojson").
Proof.
  unfold App.VALID_EXTENSIONS, AppStructure.VALID_EXTENSIONS.
  rewrite !elem_of_cons, !elem_of_nil. tauto.
Qed.

Lemma geojson_not_in_structure_set :
  ".geojson" ∉ AppStructure.VALID_EXTENSIONS.
Proof. by_decide. Qed.

End filter_facts.

(** ** Facts about [format_code] *)

Section format_facts.

Lemma no_linebreak_app s t :
  no_linebreak (s +:+ t) = no_linebreak s && no_linebreak t.
Proof.
  induction s as [|a s IH]; [done|]. rewrite str_app_cons. simpl.
  by rewrite IH, andb_assoc.
Qed.

(** The lines [splitlines] returns hold no line boundary. *)
Lemma splitlines_go_no_linebreak b s :
  Forall (fun l => no_linebreak l = true) (Py.splitlines_go b s).
Proof.
  revert b. induction s as [|c s IH]; intros b; simpl; [constructor|].
  destruct (b && Ascii.eqb c Py.LF); [apply IH|].
  destruct (Py.is_linebreak c) eqn:E; [constructor; [done|apply IH]|].
  specialize (IH false).
  destruct (Py.splitlines_go false s) as [|l ls].
  - repeat constructor. simpl. by rewrite E.
  - inversion_clear IH as [|?? Hl Hls]. constructor; [|done].
    simpl. by rewrite E, Hl.
Qed.

Lemma splitlines_line_lf l s :
  no_linebreak l = true ->
  Py.splitlines_go false (l +:+ String Py.LF s) = l :: Py.splitlines_go false s.
Proof.
  induction l as [|c l IH]; intros H.
  - reflexivity.
  - rewrite str_app_cons. simpl in *.
    apply andb_true_iff in H as [Hc Hl]. apply negb_true_iff in Hc.
    by rewrite Hc, IH.
Qed.

Lemma splitlines_last_line l :
  no_linebreak l = true -> l <> "" -> Py.splitlines_go false l = [l].
Proof.
  induction l as [|c l IH]; intros H Hne; [done|]. simpl in *.
  apply andb_true_iff in H as [Hc Hl]. apply negb_true_iff in Hc.
  rewrite Hc. destruct l as [|c' l']; [done|]. by rewrite IH.
Qed.

(** Joining lines with line feeds and splitting again gives the lines
    back, when they hold no line boundary and none is empty. *)
Lemma splitlines_join ls :
  Forall (fun l => no_linebreak l = true /\ l <> "") ls ->
  Py.splitlines (Py.join (String Py.LF "") ls) = ls.
Proof.
  unfold Py.splitlines. induction ls as [|l ls IH]; intros H; [done|].
  inversion_clear H as [|?? [Hl Hne] Hls].
  destruct ls as [|l' ls']; [by apply splitlines_last_line|].
  change (Py.join (String Py.LF "") (l :: l' :: ls'))
    with (l +:+ String Py.LF "" +:+ Py.join (String Py.LF "") (l' :: ls')).
  change (String Py.LF "" +:+ ?s) with (String Py.LF s).
  rewrite splitlines_line_lf by done. by rewrite IH.
Qed.

Lemma string_of_uint_no_linebreak d :
  no_linebreak (NilEmpty.string_of_uint d) = true.
Proof. induction d; simpl; try done. Qed.

Lemma repeat_space_no_linebreak n :
  no_linebreak (Py.repeat_str " " n) = true.
Proof. induction n as [|n IH]; [done|]. simpl. by rewrite no_linebreak_app, IH. Qed.

Lemma format_4d_no_linebreak n : no_linebreak (Py.format_4d n) = true.
Proof.
  unfold Py.format_4d, Py.rjust, Py.str_of_nat.
  by rewrite no_linebreak_app, repeat_space_no_linebreak,
    string_of_uint_no_linebreak.
Qed.

Lemma numbered_line_plain i line :
  no_linebreak line = true ->
  no_linebreak (App.numbered_line i line) = true /\
  App.numbered_line i line <> "".
Proof.
  intros H. unfold App.numbered_line. split.
  - by rewrite !no_linebreak_app, format_4d_no_linebreak, H.
  - intros [_ [? _]%str_app_eq_nil]%str_app_eq_nil. done.
Qed.

Lemma imap_numbered_plain (f : nat -> nat) ls :
  Forall (fun l => no_linebreak l = true) ls ->
  Forall (fun l => no_linebreak l = true /\ l <> "")
    (imap (fun i => App.numbered_line (f i)) ls).
Proof.
  revert f. induction ls as [|l ls IH]; intros f H; [constructor|].
  inversion_clear H. simpl. constructor; [by apply numbered_line_plain|].
  by apply (IH (f ∘ S)).
Qed.

Lemma formatted_lines_plain content :
  Forall (fun l => no_linebreak l = true /\ l <> "")
    (App.formatted_lines content).
Proof.
  unfold App.formatted_lines.
  apply (imap_numbered_plain id). apply splitlines_go_no_linebreak.
Qed.

(** Up to 9999 the number fills the four columns exactly. *)
Lemma format_4d_width n :
  Z.of_nat n < 10000 -> String.length (Py.format_4d n) = 4%nat.
Proof.
  intros H.
  assert (forallb (fun k => Nat.eqb (String.length (Py.format_4d k)) 4)
            (seq 0 (100 * 100)) = true) as Hall by (vm_compute; reflexivity).
  rewrite forallb_forall in Hall. apply Nat.eqb_eq, Hall.
  apply in_seq. lia.
Qed.

End format_facts.

(** ** Facts about the tree and the walk *)

Section walk_facts.
Import posixpath.

Lemma elem_of_flat_map {A B} (f : A -> list B) (l : list A) (y : B) :
  y ∈ flat_map f l <-> exists x, x ∈ l /\ y ∈ f x.
Proof.
  rewrite list_elem_of_In, in_flat_map.
  split; intros (x & H1 & H2); exists x.
  - by rewrite !list_elem_of_In.
  - by rewrite <- !list_elem_of_In.
Qed.

Lemma flat_map_cons {A B} (f : A -> list B) (x : A) (l : list A) :
  flat_map f (x :: l) = f x ++ flat_map f l.
Proof. reflexivity. Qed.

Lemma flat_map_fmap {A B C} (f : A -> B) (g : B -> list C) (l : list A) :
  flat_map g (f <$> l) = flat_map (fun x => g (f x)) l.
Proof.
  induction l as [|x l IH]; [done|].
  rewrite fmap_cons, !flat_map_cons. by rewrite IH.
Qed.

Lemma flat_map_nil_all {A B} (f : A -> list B) (l : list A) :
  (forall x, x ∈ l -> f x = []) -> flat_map f l = [].
Proof.
  induction l as [|x l IH]; intros H; [done|]. simpl.
  rewrite (H x) by left. apply IH. intros y Hy. apply H. by right.
Qed.

Lemma walk_dir prune top name es :
  walk prune top (Dir name (Some es)) =
  (top, prune top (dir_names es), file_names es)
  :: flat_map (sub_walk prune top es) (prune top (dir_names es)).
Proof.
  simpl. f_equal. apply flat_map_ext. intros d. unfold sub_walk.
  induction es as [|c es IH]; [done|]. simpl.
  destruct (is_dir c && String.eqb (node_name c) d); [done|]. apply IH.
Qed.

Lemma find_dir_Some d es c :
  find_dir d es = Some c -> c ∈ es /\ is_dir c = true /\ node_name c = d.
Proof.
  induction es as [|x es IH]; [done|]. simpl.
  destruct (is_dir x && String.eqb (node_name x) d) eqn:E.
  - intros [= ->]. apply andb_true_iff in E as [? ?%String.eqb_eq].
    split; [left|done].
  - intros (? & ? & ?)%IH. split; [by right|done].
Qed.

Lemma find_dir_names d es c :
  find_dir d es = Some c -> d ∈ dir_names es.
Proof.
  intros (Hc & Hd & <-)%find_dir_Some. unfold dir_names.
  apply list_elem_of_fmap. exists c. split; [done|].
  apply list_elem_of_filter. split; [by rewrite Hd|done].
Qed.

Lemma valid_tree_dir name es :
  valid_tree (Dir name (Some es)) = true <->
  Forall (fun c => valid_name (node_name c) = true /\ valid_tree c = true) es.
Proof.
  simpl. induction es as [|c es IH].
  - split; [constructor|done].
  - rewrite !andb_true_iff, IH, Forall_cons. tauto.
Qed.

Lemma valid_tree_child name es c :
  valid_tree (Dir name (Some es)) = true -> c ∈ es ->
  valid_name (node_name c) = true /\ valid_tree c = true.
Proof.
  rewrite valid_tree_dir, Forall_forall. intros H Hc. by apply H.
Qed.

Lemma valid_tree_file_names name es f :
  valid_tree (Dir name (Some es)) = true -> f ∈ file_names es ->
  valid_name f = true.
Proof.
  intros Hv (c & -> & [_ Hc]%list_elem_of_filter)%list_elem_of_fmap.
  by apply (valid_tree_child name es c).
Qed.

Lemma valid_tree_find name es d c :
  valid_tree (Dir name (Some es)) = true -> find_dir d es = Some c ->
  valid_name d = true /\ valid_tree c = true.
Proof.
  intros Hv (Hc & _ & <-)%find_dir_Some. by apply (valid_tree_child name es).
Qed.

(** The files of every yielded triple are valid names. *)
Lemma walk_files_valid prune top n :
  valid_tree n = true ->
  forall e, e ∈ walk prune top n -> Forall (fun f => valid_name f = true) e.2.
Proof.
  revert top. induction n as [| |name es IH] using node_induction;
    intros top Hv e; [by intros ?%elem_of_nil..|].
  rewrite walk_dir.
  intros [->|(d & Hd & He)%elem_of_flat_map]%elem_of_cons.
  - apply Forall_forall. intros f. by apply (valid_tree_file_names name).
  - unfold sub_walk in He. destruct (find_dir d es) as [c|] eqn:Ef;
      [|by apply elem_of_nil in He].
    destruct (valid_tree_find _ _ _ _ Hv Ef) as [_ Hvc].
    rewrite Forall_forall in IH.
    apply (IH c (proj1 (find_dir_Some _ _ _ Ef)) _ Hvc e He).
Qed.

Lemma dirs_not_files_dir isfile top name es :
  dirs_not_files isfile top (Dir name (Some es)) = true ->
  (forall d, d ∈ dir_names es -> isfile (join top d) = false) /\
  (forall d c, find_dir d es = Some c ->
               dirs_not_files isfile (join top d) c = true).
Proof.
  unfold dirs_not_files. rewrite walk_dir. simpl forallb.
  intros [H1 H2]%andb_true_iff. split.
  - intros d Hd. rewrite forallb_forall in H1.
    apply negb_true_iff, H1, list_elem_of_In, Hd.
  - intros d c Hf. rewrite forallb_forall in H2 |- *.
    intros e He. apply H2. apply list_elem_of_In, elem_of_flat_map.
    exists d. split; [by eapply find_dir_names|].
    unfold sub_walk. rewrite Hf. by apply list_elem_of_In.
Qed.

End walk_facts.

(** ** Facts about the filters along the walk *)

Section pruning_facts.
Import posixpath.
Variable isfile : string -> bool.

#[local] Abbreviation should_include := (App.should_include isfile).

(** Below a directory path, a listed name adds itself to the components
    that are tested. *)
Lemma is_excluded_join root n :
  valid_name n = true ->
  is_excluded (join root n) =
  is_excluded root || bool_decide (n ∈ App.EXCLUDE_DIRS).
Proof.
  intros Hn. apply bool_eq_iff.
  rewrite orb_true_iff, bool_decide_eq_true, !is_excluded_spec.
  setoid_rewrite (normpath_comps_join root n Hn).
  setoid_rewrite elem_of_app. setoid_rewrite list_elem_of_singleton. split.
  - intros (x & He & [Hx| ->]); [left; eauto | by right].
  - intros [(x & He & Hx)|He]; eauto.
Qed.

Lemma is_excluded_raw_join root n :
  valid_name n = true ->
  is_excluded_raw (join root n) =
  is_excluded_raw root || bool_decide (n ∈ App.EXCLUDE_DIRS).
Proof.
  intros Hn. apply bool_eq_iff.
  rewrite orb_true_iff, bool_decide_eq_true, !is_excluded_raw_spec. split.
  - intros (x & He & Hx).
    destruct (excluded_name_valid x He) as (_ & Hne & _).
    apply (split_join_elem root n x Hn Hne) in Hx as [Hx| ->];
      [left; eauto | by right].
  - intros [(x & He & Hx)|He].
    + destruct (excluded_name_valid x He) as (_ & Hne & _).
      exists x. split; [done|]. apply split_join_elem; auto.
    + destruct (excluded_name_valid n He) as (_ & Hne & _).
      exists n. split; [done|]. apply split_join_elem; auto.
Qed.

Lemma is_excluded_join_all root names :
  Forall (fun n => valid_name n = true) names ->
  is_excluded (join_all root names) =
  is_excluded root
  || existsb (fun n => bool_decide (n ∈ App.EXCLUDE_DIRS)) names.
Proof.
  revert root. induction names as [|n names IH]; intros root H; simpl.
  - by rewrite orb_false_r.
  - inversion_clear H. unfold join_all in *. rewrite IH by done.
    rewrite is_excluded_join by done. by rewrite orb_assoc.
Qed.

Lemma is_excluded_raw_join_all root names :
  Forall (fun n => valid_name n = true) names ->
  is_excluded_raw (join_all root names) =
  is_excluded_raw root
  || existsb (fun n => bool_decide (n ∈ App.EXCLUDE_DIRS)) names.
Proof.
  revert root. induction names as [|n names IH]; intros root H; simpl.
  - by rewrite orb_false_r.
  - inversion_clear H. unfold join_all in *. rewrite IH by done.
    rewrite is_excluded_raw_join by done. by rewrite orb_assoc.
Qed.

Lemma should_include_excluded p :
  is_excluded p = true -> should_include p = false.
Proof. intros H. by rewrite app_should_include_eq, H. Qed.

(** A directory is pruned by its name only. *)
Lemma should_include_dir p :
  isfile p = false -> should_include p = negb (is_excluded p).
Proof.
  intros H. rewrite app_should_include_eq, H. by destruct (is_excluded p).
Qed.

Lemma keep_files_excluded root files :
  is_excluded root = true ->
  Forall (fun f => valid_name f = true) files ->
  keep_files should_include root files = [].
Proof.
  intros He Hv. unfold keep_files.
  induction Hv as [|f files Hf _ IH]; [done|].
  rewrite filter_cons, IH.
  rewrite should_include_excluded; [done|].
  by rewrite is_excluded_join, He.
Qed.

(** Under an excluded path every visited directory is excluded. *)
Lemma walk_under_excluded prune top n :
  valid_tree n = true -> is_excluded top = true ->
  forall e, e ∈ walk prune top n -> is_excluded e.1.1 = true.
Proof.
  revert top. induction n as [| |name es IH] using node_induction;
    intros top Hv Ht e; [by intros ?%elem_of_nil..|].
  rewrite walk_dir.
  intros [->|(d & Hd & He)%elem_of_flat_map]%elem_of_cons; [done|].
  unfold sub_walk in He. destruct (find_dir d es) as [c|] eqn:Ef;
    [|by apply elem_of_nil in He].
  destruct (valid_tree_find _ _ _ _ Hv Ef) as [Hvd Hvc].
  rewrite Forall_forall in IH.
  apply (IH c (proj1 (find_dir_Some _ _ _ Ef)) (join top d)); [done| |done].
  by rewrite is_excluded_join, Ht.
Qed.

Lemma kept_under_excluded prune top n :
  valid_tree n = true -> is_excluded top = true ->
  flat_map (kept isfile) (walk prune top n) = [].
Proof.
  intros Hv Ht. apply flat_map_nil_all. intros e He. unfold kept.
  rewrite keep_files_excluded; [done| |].
  - by apply (walk_under_excluded prune top n).
  - by apply (walk_files_valid prune top n).
Qed.

(** The walk that prunes and the walk that visits every directory keep
    the same files, in the same order: what pruning skips holds no file
    that passes the filter. *)
Lemma kept_pruned_eq top n :
  valid_tree n = true -> dirs_not_files isfile top n = true ->
  flat_map (kept isfile) (walk (prune_dirs should_include) top n) =
  flat_map (kept isfile) (walk keep_dirs top n).
Proof.
  set (P := prune_dirs should_include).
  revert top. induction n as [| |name es IH] using node_induction;
    intros top Hv Hc; [done..|].
  destruct (dirs_not_files_dir _ _ _ _ Hc) as [Hd Hsub].
  rewrite Forall_forall in IH.
  assert (Hgen : forall ds,
    (forall d, d ∈ ds -> d ∈ dir_names es) ->
    flat_map (kept isfile) (flat_map (sub_walk P top es) (P top ds)) =
    flat_map (kept isfile) (flat_map (sub_walk keep_dirs top es) ds)).
  { induction ds as [|d ds IHds]; intros Hin; [done|].
    assert (Hds : forall d0, d0 ∈ ds -> d0 ∈ dir_names es).
    { intros d0 H0. apply Hin. by right. }
    specialize (IHds Hds).
    assert (Hfile : isfile (join top d) = false) by (apply Hd, Hin; left).
    rewrite (flat_map_cons _ d ds), flat_map_app, <- IHds.
    assert (P top (d :: ds) =
            if decide (should_include (join top d))
            then d :: P top ds else P top ds) as ->
      by (unfold P, prune_dirs; by rewrite filter_cons).
    destruct (should_include (join top d)) eqn:Hs.
    - rewrite decide_True by done. rewrite flat_map_cons, flat_map_app. f_equal.
      unfold sub_walk. destruct (find_dir d es) as [c|] eqn:Ef; [|done].
      destruct (valid_tree_find _ _ _ _ Hv Ef) as [Hvd Hvc].
      apply (IH c (proj1 (find_dir_Some _ _ _ Ef))); [done|].
      by apply (Hsub d c).
    - rewrite decide_False by (intros []).
      rewrite should_include_dir in Hs by done.
      apply negb_false_iff in Hs.
      unfold sub_walk. destruct (find_dir d es) as [c|] eqn:Ef; [|done].
      destruct (valid_tree_find _ _ _ _ Hv Ef) as [Hvd Hvc].
      by rewrite (kept_under_excluded keep_dirs). }
  rewrite !walk_dir, !flat_map_cons.
  apply (f_equal2 app); [reflexivity|]. by apply Hgen.
Qed.

End pruning_facts.

(** ** The shape of what the passes return *)

Section pass_facts.
Import posixpath.
Variable isfile : string -> bool.
Variable read_text : string -> string + string.
Variable cwd : string.

#[local] Abbreviation should_include := (App.should_include isfile).

Lemma relpath_Some path start :
  path <> "" -> relpath cwd path start = Some (rel_path cwd path start).
Proof.
  intros H. unfold rel_path.
  destruct (relpath cwd path start) as [r|] eqn:E; [done|].
  unfold relpath in E. apply String.eqb_neq in H. rewrite H in E.
  by destruct (_ ++ _).
Qed.

Lemma join_nonempty_l a b : a <> "" -> join a b <> "".
Proof.
  intros Ha. unfold join. destruct (Py.startswith b "/") eqn:E.
  - intros ->. by destruct a.
  - destruct (_ || _); intros [? _]%str_app_eq_nil; done.
Qed.

Lemma walk_roots_nonempty prune top n :
  top <> "" -> forall e, e ∈ walk prune top n -> e.1.1 <> "".
Proof.
  revert top. induction n as [| |name es IH] using node_induction;
    intros top Ht e; [by intros ?%elem_of_nil..|].
  rewrite walk_dir.
  intros [->|(d & Hd & He)%elem_of_flat_map]%elem_of_cons; [done|].
  unfold sub_walk in He. destruct (find_dir d es) as [c|] eqn:Ef;
    [|by apply elem_of_nil in He].
  rewrite Forall_forall in IH.
  apply (IH c (proj1 (find_dir_Some _ _ _ Ef)) (join top d)); [|done].
  by apply join_nonempty_l.
Qed.

Lemma os_walk_roots_nonempty prune top n :
  forall e, e ∈ os_walk prune top n -> e.1.1 <> "".
Proof.
  unfold os_walk. destruct (String.eqb_spec top "") as [->|Ht].
  - by intros e ?%elem_of_nil.
  - by apply walk_roots_nonempty.
Qed.

(** A loop whose body raises only when a paragraph is refused returns
    when all the paragraphs of all its turns are accepted. *)
Lemma when_built_nil {A} parses (r : A) : when_built parses [] r = Some r.
Proof. reflexivity. Qed.

Lemma when_built_app {A} parses bs cs (r : A) :
  when_built parses (bs ++ cs) r
  = (_ ← when_built parses bs (); when_built parses cs r).
Proof.
  unfold when_built. rewrite forallb_app.
  by destruct (forallb (builds parses) bs).
Qed.

Lemma when_built_bind {A B} parses bs cs (r : A) (k : A -> option B) (r' : B) :
  k r = when_built parses cs r' ->
  (when_built parses bs r ≫= k) = when_built parses (bs ++ cs) r'.
Proof.
  intros Hk. unfold when_built in *. rewrite forallb_app.
  by destruct (forallb (builds parses) bs).
Qed.

Lemma paragraph_when_built parses text st :
  paragraph parses text st
  = when_built parses [Paragraph text st] (Paragraph text st).
Proof.
  unfold paragraph, when_built. simpl. by destruct (parses text st).
Qed.

Lemma when_built_Some {A} parses bs (r r' : A) :
  when_built parses bs r = Some r' <->
  forallb (builds parses) bs = true /\ r' = r.
Proof.
  unfold when_built. destruct (forallb (builds parses) bs); split.
  - by intros [= <-].
  - by intros [_ ->].
  - done.
  - by intros [? _].
Qed.

Lemma when_built_None {A} parses bs (r : A) :
  when_built parses bs r = None <-> forallb (builds parses) bs = false.
Proof. unfold when_built. by destruct (forallb (builds parses) bs). Qed.

(** A pass raises exactly when one of its paragraphs is refused. *)
Lemma when_built_refused {A} parses bs (r : A) :
  when_built parses bs r = None <->
  exists text st, Paragraph text st ∈ bs /\ parses text st = false.
Proof.
  rewrite when_built_None. split.
  - intros H. apply not_true_iff_false in H.
    rewrite forallb_forall in H.
    induction bs as [|b bs IH].
    + exfalso. apply H. intros x [].
    + destruct (builds parses b) eqn:Hb.
      * destruct IH as (text & st & Hin & Hp).
        { intros Hall. apply H. intros x [<-|Hx]; [done|by apply Hall]. }
        exists text, st. split; [by right|done].
      * destruct b as [text st| | | |]; try done.
        exists text, st. split; [left|done].
  - intros (text & st & Hin & Hp). apply not_true_iff_false.
    rewrite forallb_forall. intros Hall.
    apply list_elem_of_In in Hin. apply Hall in Hin. simpl in Hin.
    congruence.
Qed.

Lemma foldM_when_built {A S} parses (f : S -> A -> option S)
    (block : A -> list flowable) (g : S -> A -> S) l s :
  (forall x s', x ∈ l -> f s' x = when_built parses (block x) (g s' x)) ->
  foldM f l s = when_built parses (flat_map block l) (fold_left g l s).
Proof.
  revert s. induction l as [|x l IH]; intros s H; [done|].
  cbn [foldM fold_left]. rewrite (H x s) by left.
  rewrite flat_map_cons. apply when_built_bind. apply IH.
  intros y s' Hy. apply H. by right.
Qed.

Lemma fold_left_blocks {A B} (block : A -> list B) l acc :
  fold_left (fun acc x => acc ++ block x) l acc = acc ++ flat_map block l.
Proof.
  revert acc. induction l as [|x l IH]; intros acc; simpl.
  - by rewrite List.app_nil_r.
  - by rewrite IH, <- List.app_assoc.
Qed.

Lemma fold_left_blocks_count {A B} (block : A -> list B) l acc (k : nat) :
  fold_left (fun (st : list B * nat) x => (st.1 ++ block x, (st.2 + 1)%nat))
    l (acc, k)
  = (acc ++ flat_map block l, (k + length l)%nat).
Proof.
  revert acc k. induction l as [|x l IH]; intros acc k; simpl.
  - by rewrite List.app_nil_r, Nat.add_0_r.
  - rewrite IH, <- List.app_assoc. f_equal. lia.
Qed.

Lemma flat_map_singleton {A B} (f : A -> B) (l : list A) :
  flat_map (fun x => [f x]) l = f <$> l.
Proof. induction l as [|x l IH]; [done|]. simpl. by rewrite IH. Qed.

(** One turn of the loop of the structure pass adds the labels of the
    directory, or raises when one of them is refused. *)
Lemma structure_step_shape si parses startpath acc e :
  e.1.1 <> "" ->
  structure_step cwd si parses startpath acc e =
  when_built parses (structure_block cwd si startpath e)
    (acc ++ structure_block cwd si startpath e).
Proof.
  destruct e as [[root dirs] files]. simpl. intros Hr.
  unfold structure_step. rewrite relpath_Some by done.
  cbn [mbind option_bind]. rewrite paragraph_when_built.
  unfold structure_block. cbn [fst snd].
  change (Paragraph (dir_label cwd startpath root) DirItem
          :: ((fun f => Paragraph (file_label startpath root f) FileItem)
              <$> keep_files si root files))
    with ([Paragraph (dir_label cwd startpath root) DirItem]
          ++ ((fun f => Paragraph (file_label startpath root f) FileItem)
              <$> keep_files si root files)).
  apply when_built_bind.
  rewrite (foldM_when_built parses _
    (fun f => [Paragraph (file_label startpath root f) FileItem])
    (fun acc f => acc ++ [Paragraph (file_label startpath root f) FileItem])).
  - by rewrite fold_left_blocks, flat_map_singleton, <- List.app_assoc.
  - intros f acc' _. rewrite paragraph_when_built.
    by rewrite <- (List.app_nil_r [Paragraph _ FileItem]) at 1;
      rewrite (when_built_bind parses _ [] _ _ (acc' ++ [Paragraph (file_label startpath root f) FileItem])).
Qed.

(** The structure listing: the header, then a directory label and the
    labels of its kept files for every directory the walk yields; the pass
    raises when one of these paragraphs is refused. *)
Lemma structure_pass_shape si parses startpath tree :
  structure_pass cwd si parses startpath tree =
  when_built parses (structure_blocks cwd si startpath tree)
    (structure_blocks cwd si startpath tree).
Proof.
  unfold structure_pass, structure_blocks. rewrite paragraph_when_built.
  change (Paragraph "Project Directory Structure" StructureHeader :: ?l)
    with ([Paragraph "Project Directory Structure" StructureHeader] ++ l).
  apply when_built_bind.
  rewrite (foldM_when_built parses _ (structure_block cwd si startpath)
    (fun acc e => acc ++ structure_block cwd si startpath e)).
  - by rewrite fold_left_blocks.
  - intros e acc He. apply structure_step_shape.
    by apply (os_walk_roots_nonempty _ _ _ e He).
Qed.

(** One turn of the inner loop of the content pass adds the three blocks
    of the file and counts it, or raises when its header is refused; what
    the read gives plays no part in that. *)
Lemma content_step_shape parses root_dir root st f :
  root <> "" ->
  App.content_step read_text parses cwd root_dir root st f =
  when_built parses (file_block read_text cwd root_dir (root, f))
    (st.1 ++ file_block read_text cwd root_dir (root, f), (st.2 + 1)%nat).
Proof.
  intros Hr. destruct st as [contents k]. unfold App.content_step.
  rewrite relpath_Some by (by apply join_nonempty_l).
  cbn [mbind option_bind fst snd]. unfold file_block, when_built, paragraph.
  cbn [forallb builds fst snd]. rewrite andb_true_r.
  destruct (parses _ CodeHeader); [|done]. simpl.
  by rewrite <- !List.app_assoc.
Qed.

Lemma content_dir_shape parses root_dir st e :
  e.1.1 <> "" ->
  App.content_dir isfile read_text parses cwd root_dir st e =
  when_built parses
    (flat_map (file_block read_text cwd root_dir)
       (pair e.1.1 <$> sorted_names (keep_files should_include e.1.1 e.2)))
    (st.1 ++ flat_map (file_block read_text cwd root_dir)
                  (pair e.1.1 <$>
                   sorted_names (keep_files should_include e.1.1 e.2)),
     (st.2 + length (sorted_names (keep_files should_include e.1.1 e.2)))%nat).
Proof.
  destruct e as [[root dirs] files]. simpl. intros Hr.
  unfold App.content_dir.
  rewrite (foldM_when_built parses _
    (fun f => file_block read_text cwd root_dir (root, f))
    (fun st f => (st.1 ++ file_block read_text cwd root_dir (root, f),
                  (st.2 + 1)%nat))).
  - destruct st as [contents k].
    rewrite (fold_left_blocks_count
               (fun f => file_block read_text cwd root_dir (root, f))).
    simpl. by rewrite flat_map_fmap.
  - intros f st' _. by apply content_step_shape.
Qed.

Lemma fold_left_groups {B} (block : string * string -> list B)
    (files_of : walk_entry -> list string) l acc (k : nat) :
  fold_left
    (fun (st : list B * nat) (e : walk_entry) =>
       (st.1 ++ flat_map block (pair e.1.1 <$> files_of e),
        (st.2 + length (files_of e))%nat))
    l (acc, k)
  = (acc ++ flat_map block
              (flat_map (fun e => pair e.1.1 <$> files_of e) l),
     (k + length (flat_map (fun e => pair e.1.1 <$> files_of e) l))%nat).
Proof.
  revert acc k. induction l as [|e l IH]; intros acc k; simpl.
  - by rewrite List.app_nil_r, Nat.add_0_r.
  - rewrite IH, flat_map_app, <- List.app_assoc. f_equal.
    rewrite length_app, length_fmap. lia.
Qed.

(** The content section: three blocks for every file the inner loop
    reaches, and the number of those files; the pass raises when the
    header of one of them is refused. *)
Lemma generate_file_contents_shape parses root_dir tree :
  App.generate_file_contents isfile read_text parses cwd root_dir tree =
  when_built parses (content_blocks isfile read_text cwd root_dir tree)
    (content_blocks isfile read_text cwd root_dir tree,
     length (content_files isfile root_dir tree)).
Proof.
  unfold App.generate_file_contents, content_blocks.
  rewrite (foldM_when_built parses _
    (fun e : walk_entry =>
       flat_map (file_block read_text cwd root_dir)
         (pair e.1.1 <$> sorted_names (keep_files should_include e.1.1 e.2)))
    (fun (st : list flowable * nat) (e : walk_entry) =>
       (st.1 ++ flat_map (file_block read_text cwd root_dir)
                  (pair e.1.1 <$>
                   sorted_names (keep_files should_include e.1.1 e.2)),
        (st.2 + length
           (sorted_names (keep_files should_include e.1.1 e.2)))%nat))).
  - rewrite (fold_left_groups (file_block read_text cwd root_dir)
      (fun e => sorted_names (keep_files should_include e.1.1 e.2))).
    simpl. unfold content_files, content_groups.
    rewrite !flat_map_fmap.
    assert (forall (l : list walk_entry),
      flat_map (fun e : walk_entry =>
                  flat_map (file_block read_text cwd root_dir)
                    (pair e.1.1 <$>
                     sorted_names (keep_files should_include e.1.1 e.2))) l
      = flat_map (file_block read_text cwd root_dir)
          (flat_map (fun e : walk_entry =>
                       pair e.1.1 <$>
                       sorted_names (keep_files should_include e.1.1 e.2)) l))
      as ->; [|done].
    induction l as [|e l IH]; [done|].
    by rewrite !flat_map_cons, flat_map_app, IH.
  - intros e st He. apply content_dir_shape.
    by apply (os_walk_roots_nonempty _ _ _ e He).
Qed.

(** The summary: its eight blocks, or an exception when one of its five
    paragraphs is refused. *)
Lemma generate_project_summary_shape parses summary_time root_dir tree
    file_count :
  App.generate_project_summary isfile parses cwd summary_time root_dir tree
    file_count =
  when_built parses
    (summary_blocks isfile cwd summary_time root_dir tree file_count)
    (summary_blocks isfile cwd summary_time root_dir tree file_count).
Proof.
  unfold App.generate_project_summary, summary_blocks, when_built, paragraph.
  cbn [forallb builds].
  repeat (match goal with
          | |- context [parses ?t ?st] => destruct (parses t st)
          end; cbn [mbind option_bind andb]; try done).
Qed.

(** The story: cover, structure listing, content section and summary, or
    an exception when a paragraph of one of them is refused. *)
Lemma generate_pdf_shape parses cover_date summary_time root_dir tree :
  App.generate_pdf isfile read_text parses cwd cover_date summary_time
    root_dir tree =
  when_built parses
    (story_blocks isfile read_text cwd cover_date summary_time root_dir tree)
    (story_blocks isfile read_text cwd cover_date summary_time root_dir tree).
Proof.
  set (structure := structure_blocks cwd should_include root_dir tree).
  set (contents := content_blocks isfile read_text cwd root_dir tree).
  set (n := length (content_files isfile root_dir tree)).
  set (summary := summary_blocks isfile cwd summary_time root_dir tree n).
  assert (forallb (builds parses)
            (story_blocks isfile read_text cwd cover_date summary_time
               root_dir tree)
          = parses "Project Documentation" Title
            && (parses ("Project: " +:+ basename (abspath cwd root_dir))
                  Heading2
            && (parses ("Generated on: " +:+ cover_date) Heading3
            && (forallb (builds parses) structure
            && (forallb (builds parses) contents
            && forallb (builds parses) summary))))) as Hall.
  { unfold story_blocks, cover_blocks. rewrite !forallb_app.
    cbn [forallb builds andb]. fold structure contents n summary.
    rewrite ?andb_true_r. by rewrite <- !andb_assoc. }
  unfold when_built at 1. rewrite Hall.
  unfold App.generate_pdf, App.generate_directory_structure, paragraph.
  destruct (parses "Project Documentation" Title);
    cbn [mbind option_bind andb]; [|done].
  destruct (parses ("Project: " +:+ _) Heading2);
    cbn [mbind option_bind andb]; [|done].
  destruct (parses ("Generated on: " +:+ cover_date) Heading3);
    cbn [mbind option_bind andb]; [|done].
  rewrite structure_pass_shape. fold structure. unfold when_built at 1.
  destruct (forallb (builds parses) structure);
    cbn [mbind option_bind andb]; [|done].
  rewrite generate_file_contents_shape. fold contents n.
  unfold when_built at 1.
  destruct (forallb (builds parses) contents);
    cbn [mbind option_bind andb]; [|done].
  rewrite generate_project_summary_shape. fold summary.
  unfold when_built at 1.
  destruct (forallb (builds parses) summary);
    cbn [mbind option_bind andb]; [|done].
  unfold story_blocks, cover_blocks. fold structure contents n summary.
  by rewrite <- !List.app_assoc.
Qed.

Lemma count_directories_length root_dir tree :
  App.count_directories isfile root_dir tree =
  length (os_walk (prune_dirs should_include) root_dir tree).
Proof.
  unfold App.count_directories.
  generalize (os_walk (prune_dirs should_include) root_dir tree) as l.
  assert (forall (l : list walk_entry) k,
    fold_left (fun c (_ : walk_entry) => (c + 1)%nat) l k
    = (k + length l)%nat) as H.
  { induction l as [|e l IH]; intros k; simpl; [lia|]. rewrite IH. lia. }
  intros l. by rewrite H.
Qed.

End pass_facts.

(** ** Facts about the extension tally *)

Section tally_facts.
Import posixpath.
Variable isfile : string -> bool.

#[local] Abbreviation should_include := (App.should_include isfile).

Lemma total_count_insert (m : gmap string nat) e k :
  (total_count (<[e := k]> m) + count_of m e = total_count m + k)%nat.
Proof.
  unfold total_count, count_of. destruct (m !! e) as [v|] eqn:E; simpl.
  - rewrite <- (insert_delete_eq m).
    rewrite map_to_list_insert by apply lookup_delete_eq.
    rewrite <- (map_to_list_delete m e v E). rewrite !fmap_cons. simpl. lia.
  - rewrite map_to_list_insert by done. rewrite fmap_cons. simpl. lia.
Qed.

Lemma tally_file_count root (m : gmap string nat) f e :
  count_of (App.tally_file isfile root m f) e =
  (count_of m e +
   if should_include (join root f) && bool_decide (ext_key (root, f) = e)
   then 1 else 0)%nat.
Proof.
  unfold App.tally_file, count_of, ext_key. simpl.
  destruct (should_include (join root f)); simpl; [|lia].
  case_bool_decide as He.
  - subst e. rewrite lookup_insert_eq. done.
  - rewrite lookup_insert_ne by done. lia.
Qed.

Lemma tally_file_total root (m : gmap string nat) f :
  total_count (App.tally_file isfile root m f) =
  (total_count m + if should_include (join root f) then 1 else 0)%nat.
Proof.
  unfold App.tally_file.
  destruct (should_include (join root f)); [|lia].
  pose proof (total_count_insert m (Py.lower (splitext f).2)
    (default 0%nat (m !! Py.lower (splitext f).2) + 1)) as H.
  unfold count_of in H. simpl. lia.
Qed.

Lemma tally_file_positive root (m : gmap string nat) f :
  positive_counts m -> positive_counts (App.tally_file isfile root m f).
Proof.
  intros Hp e k. unfold App.tally_file.
  destruct (should_include (join root f)); [|apply Hp]. simpl.
  destruct (decide (Py.lower (splitext f).2 = e)) as [<-|Hne].
  - rewrite lookup_insert_eq. intros [= <-]. lia.
  - rewrite lookup_insert_ne by done. apply Hp.
Qed.

Lemma files_with_key_app e l1 l2 :
  files_with_key e (l1 ++ l2) = (files_with_key e l1 + files_with_key e l2)%nat.
Proof. unfold files_with_key. by rewrite filter_app, length_app. Qed.

Lemma files_with_key_cons e x l :
  files_with_key e (x :: l) =
  ((if bool_decide (ext_key x = e) then 1 else 0) + files_with_key e l)%nat.
Proof.
  unfold files_with_key. case_bool_decide.
  - by rewrite filter_cons_True.
  - by rewrite filter_cons_False.
Qed.

Lemma tally_dir_facts (m : gmap string nat) (entry : walk_entry) :
  (forall e, count_of (App.tally_dir isfile m entry) e =
             (count_of m e + files_with_key e (kept isfile entry))%nat) /\
  total_count (App.tally_dir isfile m entry) =
    (total_count m + length (kept isfile entry))%nat /\
  (positive_counts m -> positive_counts (App.tally_dir isfile m entry)).
Proof.
  destruct entry as [[root dirs] files]. unfold App.tally_dir, kept. simpl.
  revert m. induction files as [|f files IH]; intros m.
  - split; [intros e; unfold files_with_key; simpl; lia|].
    split; [simpl; lia|done].
  - simpl fold_left. destruct (IH (App.tally_file isfile root m f))
      as (IH1 & IH2 & IH3).
    unfold keep_files in *.
    assert (Hfilter :
      filter (fun f0 : string => should_include (join root f0)) (f :: files) =
      if should_include (join root f)
      then f :: filter (fun f0 : string => should_include (join root f0)) files
      else filter (fun f0 : string => should_include (join root f0)) files).
    { destruct (should_include (join root f)) eqn:Hs.
      - apply filter_cons_True. by rewrite Hs.
      - apply filter_cons_False. rewrite Hs. intros []. }
    rewrite Hfilter. clear Hfilter.
    split; [|split].
    + intros e. rewrite IH1, tally_file_count.
      destruct (should_include (join root f)).
      * rewrite fmap_cons, files_with_key_cons. simpl andb. lia.
      * simpl andb. cbv iota. lia.
    + rewrite IH2, tally_file_total.
      destruct (should_include (join root f)); [|lia].
      rewrite fmap_cons. simpl length. lia.
    + intros Hp. by apply IH3, tally_file_positive.
Qed.

Lemma tally_fold_facts (entries : list walk_entry) (m : gmap string nat) :
  (forall e, count_of (fold_left (App.tally_dir isfile) entries m) e =
             (count_of m e
              + files_with_key e (flat_map (kept isfile) entries))%nat) /\
  total_count (fold_left (App.tally_dir isfile) entries m) =
    (total_count m + length (flat_map (kept isfile) entries))%nat /\
  (positive_counts m ->
   positive_counts (fold_left (App.tally_dir isfile) entries m)).
Proof.
  revert m. induction entries as [|entry entries IH]; intros m.
  - split; [intros e; unfold files_with_key; simpl; lia|].
    split; [simpl; lia|done].
  - simpl fold_left.
    destruct (IH (App.tally_dir isfile m entry)) as (IH1 & IH2 & IH3).
    destruct (tally_dir_facts m entry) as (H1 & H2 & H3).
    rewrite flat_map_cons. split; [|split].
    + intros e. rewrite IH1, H1, files_with_key_app. lia.
    + rewrite IH2, H2, length_app. lia.
    + intros Hp. by apply IH3, H3.
Qed.

(** The tally holds, for every key, the number of kept files with that
    key, and holds no key without a file. *)
Lemma count_extensions_lookup root_dir tree e k :
  App.count_extensions isfile root_dir tree !! e = Some k <->
  k = files_with_key e (tally_files isfile root_dir tree) /\ (0 < k)%nat.
Proof.
  unfold App.count_extensions.
  destruct (tally_fold_facts (os_walk keep_dirs root_dir tree) ∅)
    as (H1 & _ & H3).
  specialize (H1 e). unfold count_of in H1. rewrite lookup_empty in H1.
  simpl in H1. fold (tally_files isfile root_dir tree) in H1.
  change (flat_map (kept isfile) (os_walk keep_dirs root_dir tree))
    with (tally_files isfile root_dir tree) in H1.
  assert (positive_counts (∅ : gmap string nat)) as Hp0
    by (intros ??; by rewrite lookup_empty).
  specialize (H3 Hp0 e).
  destruct (fold_left _ _ _ !! e) as [v|] eqn:E; simpl in H1.
  - specialize (H3 v eq_refl). split; [intros [= <-]; lia|].
    intros [-> _]. by rewrite H1.
  - split; [done|]. intros [-> ?]. lia.
Qed.

Lemma count_extensions_total root_dir tree :
  total_count (App.count_extensions isfile root_dir tree) =
  length (tally_files isfile root_dir tree).
Proof.
  unfold App.count_extensions.
  destruct (tally_fold_facts (os_walk keep_dirs root_dir tree) ∅)
    as (_ & H2 & _).
  rewrite H2. unfold total_count. by rewrite map_to_list_empty.
Qed.

End tally_facts.

(** ** The extension of a joined path *)

Section splitext_facts.
Import posixpath.

Lemma rfind_app c s t :
  Py.rfind c (s +:+ t) =
  if 0 <=? Py.rfind c t then Py.len s + Py.rfind c t else Py.rfind c s.
Proof.
  unfold Py.len. induction s as [|a s IH].
  - rewrite str_app_nil_l. simpl.
    pose proof (rfind_lower_bound c t).
    destruct (0 <=? Py.rfind c t) eqn:E; [lia|].
    apply Z.leb_gt in E. lia.
  - rewrite str_app_cons. simpl Py.rfind. rewrite IH.
    pose proof (rfind_lower_bound c t).
    destruct (0 <=? Py.rfind c t) eqn:E.
    + apply Z.leb_le in E.
      rewrite (proj2 (Z.leb_le 0 _)) by lia. simpl String.length. lia.
    + done.
Qed.

Lemma rfind_absent c t : Py.count c t = 0%nat -> Py.rfind c t = -1.
Proof.
  induction t as [|a t IH]; [done|]. simpl.
  destruct (Ascii.eqb a c); [done|]. intros H. by rewrite IH.
Qed.

Lemma drop_app_length s t n :
  Py.drop (String.length s + n) (s +:+ t) = Py.drop n t.
Proof. induction s as [|a s IH]; [done|]. by rewrite str_app_cons. Qed.

Lemma rfind_sep_under_dir r0 f :
  Py.count "/" f = 0%nat ->
  Py.rfind "/" (r0 +:+ String "/" f) = Py.len r0.
Proof.
  intros Hf. rewrite rfind_app. simpl Py.rfind.
  rewrite (rfind_absent "/" f Hf). simpl. lia.
Qed.

Lemma rfind_dot_under_dir r0 f :
  Py.rfind "." (r0 +:+ String "/" f) =
  if 0 <=? Py.rfind "." f then Py.len r0 + 1 + Py.rfind "." f
  else Py.rfind "." r0.
Proof.
  rewrite rfind_app. simpl Py.rfind.
  pose proof (rfind_lower_bound "." f) as Hlo.
  destruct (0 <=? Py.rfind "." f) eqn:E.
  - apply Z.leb_le in E.
    rewrite (proj2 (Z.leb_le 0 (Py.rfind "." f + 1))) by lia. lia.
  - done.
Qed.

Lemma splitext_under_dir r0 f :
  Py.count "/" f = 0%nat ->
  (splitext (r0 +:+ String "/" f)).2 = (splitext f).2.
Proof.
  intros Hf. unfold splitext.
  rewrite rfind_sep_under_dir, rfind_dot_under_dir by done.
  rewrite (rfind_absent "/" f Hf).
  pose proof (rfind_lower_bound "." f) as Hlo.
  pose proof (rfind_upper_bound "." r0) as Hup.
  unfold Py.len in *.
  destruct (0 <=? Py.rfind "." f) eqn:E.
  - apply Z.leb_le in E.
    rewrite (proj2 (Z.ltb_lt _ _)) by lia.
    rewrite (proj2 (Z.ltb_lt (-1) _)) by lia.
    unfold Py.slice, Py.slice_from.
    replace (Z.to_nat (Z.of_nat (String.length r0) + 1))
      with (String.length r0 + 1)%nat by lia.
    replace (Z.to_nat (Z.of_nat (String.length r0) + 1 + Py.rfind "." f))
      with (String.length r0 + (1 + Z.to_nat (Py.rfind "." f)))%nat by lia.
    rewrite !drop_app_length. simpl Py.drop.
    replace (Z.of_nat (String.length r0) + 1 + Py.rfind "." f
             - (Z.of_nat (String.length r0) + 1))
      with (Py.rfind "." f - (-1 + 1)) by lia.
    by destruct (all_dots _).
  - apply Z.leb_gt in E. assert (Py.rfind "." f = -1) as Hm by lia.
    rewrite Hm. rewrite (proj2 (Z.ltb_ge _ _)) by lia.
    by rewrite Z.ltb_irrefl.
Qed.

(** [should_include] looks at the extension of the path and the tally at
    that of the name: they are the same. *)
Lemma splitext_join root f :
  valid_name f = true -> (splitext (join root f)).2 = (splitext f).2.
Proof.
  intros Hv. rewrite join_valid by done.
  pose proof Hv as (_ & _ & _ & Hc)%valid_name_spec.
  destruct (String.eqb_spec root "") as [->|Hr]; [done|]. simpl orb.
  destruct (Py.endswith root "/") eqn:E.
  - apply endswith_sep in E as [r ->]. rewrite str_app_assoc.
    by apply splitext_under_dir.
  - by apply splitext_under_dir.
Qed.

Lemma excluded_name_no_extension x :
  x ∈ App.EXCLUDE_DIRS ->
  Py.lower (splitext x).2 ∉ App.VALID_EXTENSIONS.
Proof.
  unfold App.EXCLUDE_DIRS. rewrite !elem_of_cons, elem_of_nil.
  intros [->|[->|[->|[->|[->|[]]]]]]; by_decide.
Qed.

End splitext_facts.

(** ** Facts about located directories *)

Section locate_facts.
Import posixpath.
Variable isfile : string -> bool.

#[local] Abbreviation should_include := (App.should_include isfile).

Lemma locate_nil top tree p es :
  locate top tree [] = Some (p, es) ->
  exists name, tree = Dir name (Some es) /\ p = top.
Proof.
  destruct tree as [|name [es0|]]; simpl; try done.
  intros [= <- <-]. by exists name.
Qed.

Lemma locate_cons top tree d names p es :
  locate top tree (d :: names) = Some (p, es) ->
  exists name es0 c,
    tree = Dir name (Some es0) /\ find_dir d es0 = Some c /\
    locate (join top d) c names = Some (p, es).
Proof.
  destruct tree as [|name [es0|]]; simpl; try done.
  destruct (find_dir d es0) as [c|] eqn:Ef; simpl; [|done].
  intros H. by exists name, es0, c.
Qed.

Lemma locate_path top tree names p es :
  locate top tree names = Some (p, es) -> p = join_all top names.
Proof.
  revert top tree. induction names as [|d names IH]; intros top tree.
  - by intros (name & -> & ->)%locate_nil.
  - intros (name & es0 & c & -> & Ef & Hl)%locate_cons. by apply IH in Hl.
Qed.

Lemma locate_names_valid top tree names p es :
  valid_tree tree = true -> locate top tree names = Some (p, es) ->
  Forall (fun n => valid_name n = true) names /\
  Forall (fun f => valid_name f = true) (file_names es).
Proof.
  revert top tree. induction names as [|d names IH]; intros top tree Hv.
  - intros (name & -> & ->)%locate_nil.
    split; [constructor|]. apply Forall_forall. intros f.
    by apply (valid_tree_file_names name).
  - intros (name & es0 & c & -> & Ef & Hl)%locate_cons.
    destruct (valid_tree_find _ _ _ _ Hv Ef) as [Hvd Hvc].
    destruct (IH _ _ Hvc Hl) as [H1 H2]. split; [by constructor|done].
Qed.

(** A located directory is one the full walk yields. *)
Lemma locate_walk_full top tree names p es :
  locate top tree names = Some (p, es) ->
  (p, dir_names es, file_names es) ∈ walk keep_dirs top tree.
Proof.
  revert top tree. induction names as [|d names IH]; intros top tree.
  - intros (name & -> & ->)%locate_nil. rewrite walk_dir. left.
  - intros (name & es0 & c & -> & Ef & Hl%IH)%locate_cons.
    rewrite walk_dir. right. apply elem_of_flat_map.
    exists d. split; [by eapply find_dir_names|].
    unfold sub_walk. by rewrite Ef.
Qed.

(** Every directory the full walk yields is a located one. *)
Lemma walk_full_located top tree e :
  e ∈ walk keep_dirs top tree ->
  exists names es,
    locate top tree names = Some (e.1.1, es) /\
    e.1.2 = dir_names es /\ e.2 = file_names es.
Proof.
  revert top. induction tree as [| |name es0 IH] using node_induction;
    intros top; [by intros ?%elem_of_nil..|].
  rewrite walk_dir.
  intros [->|(d & Hd & He)%elem_of_flat_map]%elem_of_cons.
  - by exists [], es0.
  - unfold sub_walk in He. destruct (find_dir d es0) as [c|] eqn:Ef;
      [|by apply elem_of_nil in He].
    rewrite Forall_forall in IH.
    destruct (IH c (proj1 (find_dir_Some _ _ _ Ef)) _ He)
      as (names & es & Hl & H1 & H2).
    exists (d :: names), es. simpl locate. rewrite Ef. done.
Qed.

(** The start directory, and every located directory without excluded
    component on its path, is one the pruning walk yields, whatever its
    listing holds. *)
Lemma locate_walk_pruned top tree names p es :
  valid_tree tree = true -> dirs_not_files isfile top tree = true ->
  locate top tree names = Some (p, es) ->
  names = [] \/ is_excluded p = false ->
  (p, prune_dirs should_include p (dir_names es), file_names es)
  ∈ walk (prune_dirs should_include) top tree.
Proof.
  revert top tree. induction names as [|d names IH]; intros top tree Hv Hc.
  - intros (name & -> & ->)%locate_nil _. rewrite walk_dir. left.
  - intros (name & es0 & c & -> & Ef & Hl)%locate_cons [?|He]; [done|].
    destruct (valid_tree_find _ _ _ _ Hv Ef) as [Hvd Hvc].
    destruct (dirs_not_files_dir _ _ _ _ Hc) as [Hd Hsub].
    destruct (locate_names_valid _ _ _ _ _ Hvc Hl) as [Hvn _].
    assert (is_excluded (join top d) = false) as Hjd.
    { pose proof He as He'.
      rewrite (locate_path _ _ _ _ _ Hl), is_excluded_join_all in He' by done.
      by apply orb_false_iff in He' as [? _]. }
    rewrite walk_dir. right. apply elem_of_flat_map. exists d. split.
    + unfold prune_dirs. apply list_elem_of_filter.
      split; [|by eapply find_dir_names].
      rewrite should_include_dir, Hjd; [done|].
      apply Hd. by eapply find_dir_names.
    + unfold sub_walk. rewrite Ef. apply IH; auto.
Qed.

End locate_facts.

(** ** Facts about the files the passes reach *)

Section listing_facts.
Import posixpath.
Variable isfile : string -> bool.

#[local] Abbreviation should_include := (App.should_include isfile).

Lemma sorted_names_perm l : sorted_names l ≡ₚ l.
Proof. apply merge_sort_Permutation. Qed.

Lemma sorted_names_sorted l : Sorted String.le (sorted_names l).
Proof. apply (Sorted_merge_sort String.le). Qed.

Lemma flat_map_perm {A B} (f g : A -> list B) (l : list A) :
  (forall x, f x ≡ₚ g x) -> flat_map f l ≡ₚ flat_map g l.
Proof.
  intros H. induction l as [|x l IH]; [done|].
  rewrite !flat_map_cons. by rewrite (H x), IH.
Qed.

Lemma elem_of_kept_files si (entries : list walk_entry) r f :
  (r, f) ∈ flat_map (fun e : walk_entry =>
                       pair e.1.1 <$> keep_files si e.1.1 e.2) entries ->
  si (join r f) = true /\
  exists e, e ∈ entries /\ e.1.1 = r /\ f ∈ e.2.
Proof.
  intros (e & He & Hrf)%elem_of_flat_map.
  apply list_elem_of_fmap in Hrf as (f' & [= -> ->] & Hf).
  unfold keep_files in Hf. apply list_elem_of_filter in Hf as [Hs Hf].
  split; [by apply Is_true_true|]. by exists e.
Qed.

Lemma structure_files_kept si top tree r f :
  (r, f) ∈ structure_files si top tree -> si (join r f) = true.
Proof. by intros [? _]%elem_of_kept_files. Qed.

Lemma tally_files_kept top tree r f :
  (r, f) ∈ tally_files isfile top tree -> should_include (join r f) = true.
Proof. by intros [? _]%elem_of_kept_files. Qed.

Lemma content_files_perm top tree :
  content_files isfile top tree ≡ₚ
  flat_map (kept isfile) (os_walk (prune_dirs should_include) top tree).
Proof.
  unfold content_files, content_groups. rewrite flat_map_fmap.
  apply flat_map_perm. intros e. simpl. unfold kept.
  by rewrite sorted_names_perm.
Qed.

Lemma content_files_kept top tree r f :
  (r, f) ∈ content_files isfile top tree -> should_include (join r f) = true.
Proof.
  rewrite content_files_perm. by intros [? _]%elem_of_kept_files.
Qed.

(** Pruned walk or full walk, the content pass and the tally reach the
    same files. *)
Lemma content_files_perm_tally top tree :
  valid_tree tree = true -> dirs_not_files isfile top tree = true ->
  content_files isfile top tree ≡ₚ tally_files isfile top tree.
Proof.
  intros Hv Hc. rewrite content_files_perm. unfold tally_files, os_walk.
  destruct (String.eqb top ""); [done|].
  by rewrite (kept_pruned_eq isfile top tree Hv Hc).
Qed.

Lemma filter_pair_fmap (P : string * string -> Prop)
    `{forall x, Decision (P x)} (r : string) (l : list string) :
  filter P (pair r <$> l) = pair r <$> filter (fun f => P (r, f)) l.
Proof.
  induction l as [|f l IH]; [done|]. rewrite fmap_cons.
  destruct (decide (P (r, f))).
  - rewrite !filter_cons_True by done. by rewrite fmap_cons, IH.
  - by rewrite !filter_cons_False.
Qed.

(** The tally counts the files of the tree that pass the filter. *)
Lemma tally_files_filter top tree :
  tally_files isfile top tree =
  filter (fun file => should_include (join file.1 file.2))
    (tree_files top tree).
Proof.
  unfold tally_files, tree_files, listed_files.
  induction (os_walk keep_dirs top tree) as [|e l IH]; [done|].
  rewrite !flat_map_cons, filter_app, IH. f_equal.
  by rewrite filter_pair_fmap.
Qed.

#[global] Instance occurrences_perm file :
  Proper ((≡ₚ) ==> (=)) (occurrences file).
Proof. intros l1 l2 H. unfold occurrences. by rewrite H. Qed.

Lemma occurrences_filter (P : string * string -> Prop)
    `{forall x, Decision (P x)} file l :
  occurrences file (filter P l) =
  if decide (P file) then occurrences file l else 0%nat.
Proof.
  unfold occurrences. induction l as [|x l IH].
  - by destruct (decide (P file)).
  - destruct (decide (P x)) as [Hx|Hx].
    + rewrite (filter_cons_True P) by done.
      destruct (decide (x = file)) as [->|Hne].
      * rewrite !(filter_cons_True (fun y => y = file)) by done.
        simpl length. rewrite IH. by destruct (decide (P file)).
      * by rewrite !(filter_cons_False (fun y => y = file)).
    + rewrite (filter_cons_False P) by done. rewrite IH.
      destruct (decide (x = file)) as [->|Hne].
      * by destruct (decide (P file)).
      * by rewrite (filter_cons_False (fun y => y = file)).
Qed.

Lemma occurrences_pos file l : (0 < occurrences file l)%nat -> file ∈ l.
Proof.
  unfold occurrences. intros H.
  destruct (filter (fun x => x = file) l) as [|x l'] eqn:E; [simpl in H; lia|].
  assert (x ∈ filter (fun x => x = file) l) as Hx by (rewrite E; left).
  by apply list_elem_of_filter in Hx as [-> ?].
Qed.

Lemma tree_files_valid top tree r f :
  valid_tree tree = true -> (r, f) ∈ tree_files top tree ->
  valid_name f = true.
Proof.
  intros Hv (e & He & Hrf)%elem_of_flat_map.
  apply list_elem_of_fmap in Hrf as (f' & [= -> ->] & Hf).
  unfold os_walk in He. destruct (String.eqb top "");
    [by apply elem_of_nil in He|].
  pose proof (walk_files_valid _ _ _ Hv e He) as Hall.
  rewrite Forall_forall in Hall. by apply Hall.
Qed.

End listing_facts.

(** ** Facts about the sorted table *)

Section table_facts.

#[global] Instance item_le_total : Total item_le.
Proof.
  intros [a1 a2] [b1 b2]. unfold item_le. simpl.
  rewrite (String.eqb_sym b1 a1).
  destruct (String.eqb a1 b1); [lia|].
  destruct (total String.le a1 b1); auto.
Qed.

Lemma item_le_key a b : item_le a b -> String.le a.1 b.1.
Proof.
  unfold item_le. destruct (String.eqb_spec a.1 b.1) as [->|]; [|done].
  intros _. reflexivity.
Qed.

Lemma sorted_items_perm l : sorted_items l ≡ₚ l.
Proof. apply merge_sort_Permutation. Qed.

Lemma sorted_items_sorted l : Sorted item_le (sorted_items l).
Proof. apply (Sorted_merge_sort item_le). Qed.

(** With distinct keys the sorted rows ascend strictly. *)
Lemma sorted_strict (l : list (string * nat)) :
  NoDup l.*1 -> Sorted item_le l -> Sorted key_lt l.
Proof.
  induction l as [|x l IH]; intros Hn Hs; [constructor|].
  rewrite fmap_cons in Hn. apply NoDup_cons in Hn as [Hx Hn].
  apply Sorted_inv in Hs as [Hs Hh]. constructor; [by apply IH|].
  destruct Hh as [|y l' Hxy]; constructor.
  split; [by apply item_le_key|].
  intros Heq. apply Hx. rewrite fmap_cons, Heq. left.
Qed.

Lemma le_empty s : String.le s "" -> s = "".
Proof. destruct s as [|c s]; [done|]. intros H. by vm_compute in H. Qed.

#[global] Instance key_lt_trans : Transitive key_lt.
Proof.
  intros a b c [H1 N1] [H2 N2]. split; [by etrans|].
  intros E. rewrite <- E in H2.
  apply N1. by apply (anti_symm String.le).
Qed.

(** The empty key sorts first. *)
Lemma empty_key_first (rows : list (string * nat)) count :
  Sorted key_lt rows -> ("", count) ∈ rows ->
  exists rest, rows = ("", count) :: rest.
Proof.
  intros Hs Hin. apply (Sorted_StronglySorted _) in Hs.
  destruct Hs as [|x l Hl Hx]; [by apply elem_of_nil in Hin|].
  apply elem_of_cons in Hin as [<-|Hin]; [by exists l|].
  rewrite Forall_forall in Hx.
  destruct (Hx _ Hin) as [Hle Hne]. simpl in *.
  by apply le_empty in Hle.
Qed.

(** Every key of the tally has its row in the table. *)
Lemma file_type_data_row (m : gmap string nat) ext c :
  m !! ext = Some c -> App.file_type_row (ext, c) ∈ App.file_type_data m.
Proof.
  intros H. unfold App.file_type_data. right.
  apply list_elem_of_fmap. exists (ext, c). split; [done|].
  rewrite sorted_items_perm. by apply elem_of_map_to_list.
Qed.

Lemma sum_counts_sorted (m : gmap string nat) :
  sum_list (sorted_items (map_to_list m)).*2 = total_count m.
Proof. unfold total_count. by rewrite sorted_items_perm. Qed.

End table_facts.

(** ** Facts about the directory labels *)

Section label_facts.
Variable cwd : string.

Lemma structure_block_dir_items si startpath e :
  length (filter (fun b => is_dir_item b)
            (structure_block cwd si startpath e)) = 1%nat.
Proof.
  unfold structure_block. rewrite filter_cons_True by done. simpl. f_equal.
  induction (keep_files si e.1.1 e.2) as [|f l IH]; [done|].
  rewrite fmap_cons, filter_cons_False; [done|]. by intros [].
Qed.

Lemma structure_dir_items si startpath (entries : list walk_entry) :
  length (filter (fun b => is_dir_item b)
            (flat_map (structure_block cwd si startpath) entries))
  = length entries.
Proof.
  induction entries as [|e l IH]; [done|].
  rewrite flat_map_cons, filter_app, length_app, IH.
  by rewrite structure_block_dir_items.
Qed.

End label_facts.

(** * The claims *)

(** C1, as the code has it.  [should_include] of [app.py] is false for
    every path whose normalised form ([os.path.normpath]) has an excluded
    name as a component, and that of [appStructure.py] for every path that
    has one as written.  A name the walk appends to the start path stays a
    component, so for every directory of the tree that is reached through
    an excluded name, or whose start path has one after normalisation, no
    file of it is shown in the structure listing (of either file), reached
    by the content pass, or counted by the tally of the summary, whatever
    the directory holds.  Each pass makes its blocks from the files that
    pass the filter, and returns them unless the layout library refuses
    one of its paragraphs, in which case it raises. *)
Theorem C1_excluded_subtrees_never_appear
    (isfile : string -> bool) (read_text : string -> string + string)
    (parses : string -> style -> bool)
    (cwd summary_time top : string) (tree : node) (names : list string)
    (p : string) (es : list node) (f excl : string) :
  valid_tree tree = true ->
  locate top tree names = Some (p, es) ->
  excl ∈ App.EXCLUDE_DIRS ->
  excl ∈ names \/ excl ∈ Py.split "/" (posixpath.normpath top) ->
  f ∈ file_names es ->
  let shown := structure_files (App.should_include isfile) top tree in
  let shown' := structure_files (AppStructure.should_include isfile) top tree in
  let read := content_files isfile top tree in
  let counted := tally_files isfile top tree in
  (* the filter *)
  (forall path x,
     x ∈ App.EXCLUDE_DIRS -> x ∈ Py.split "/" (posixpath.normpath path) ->
     App.should_include isfile path = false) /\
  (forall path x,
     x ∈ AppStructure.EXCLUDE_DIRS -> x ∈ Py.split "/" path ->
     AppStructure.should_include isfile path = false) /\
  App.should_include isfile (posixpath.join p f) = false /\
  AppStructure.should_include isfile (posixpath.join p f) = false /\
  (* the three passes are made of the files that pass it *)
  App.generate_directory_structure isfile parses cwd top tree
  = when_built parses
      (structure_blocks cwd (App.should_include isfile) top tree)
      (structure_blocks cwd (App.should_include isfile) top tree) /\
  AppStructure.generate_directory_structure isfile parses cwd top tree
  = when_built parses
      (structure_blocks cwd (AppStructure.should_include isfile) top tree)
      (structure_blocks cwd (AppStructure.should_include isfile) top tree) /\
  App.generate_file_contents isfile read_text parses cwd top tree
  = when_built parses (content_blocks isfile read_text cwd top tree)
      (flat_map (file_block read_text cwd top) read, length read) /\
  (forall file_count,
     App.generate_project_summary isfile parses cwd summary_time top tree
       file_count
     = when_built parses
         (summary_blocks isfile cwd summary_time top tree file_count)
         (summary_blocks isfile cwd summary_time top tree file_count)) /\
  (forall ext count,
     App.count_extensions isfile top tree !! ext = Some count <->
     count = files_with_key ext counted /\ (0 < count)%nat) /\
  (* and the file is none of them *)
  ((p, f) ∉ shown) /\ ((p, f) ∉ shown') /\
  ((p, f) ∉ read) /\ ((p, f) ∉ counted).
Proof.
  intros Hv Hl He Hx Hf shown shown' read counted.
  destruct (locate_names_valid _ _ _ _ _ Hv Hl) as [Hvn Hvf].
  rewrite Forall_forall in Hvf. specialize (Hvf f Hf).
  destruct (excluded_name_valid excl He) as (_ & Hne & Hnd).
  assert (existsb (fun n => bool_decide (n ∈ App.EXCLUDE_DIRS)) names = true
          \/ is_excluded top = true) as Hcase.
  { destruct Hx as [Hx|Hx].
    - left. apply existsb_exists. exists excl.
      split; [by apply list_elem_of_In | by apply bool_decide_eq_true].
    - right. apply is_excluded_spec. exists excl. split; [done|].
      by apply normpath_parts. }
  assert (is_excluded p = true) as Hp.
  { rewrite (locate_path _ _ _ _ _ Hl), is_excluded_join_all by done.
    destruct Hcase as [-> | ->]; by rewrite ?orb_true_r. }
  assert (is_excluded_raw p = true) as Hpr.
  { rewrite (locate_path _ _ _ _ _ Hl), is_excluded_raw_join_all by done.
    destruct Hcase as [-> | ->%is_excluded_raw_of_norm];
      by rewrite ?orb_true_r. }
  assert (App.should_include isfile (posixpath.join p f) = false) as Hs.
  { apply should_include_excluded. by rewrite is_excluded_join, Hp. }
  assert (AppStructure.should_include isfile (posixpath.join p f) = false)
    as Hsr.
  { rewrite structure_should_include_eq, is_excluded_raw_join, Hpr; done. }
  split; [|split; [|split; [done|split; [done|]]]].
  - intros path x H1 H2. apply should_include_excluded.
    unfold is_excluded. apply existsb_exists. exists x.
    split; [by apply list_elem_of_In | by apply bool_decide_eq_true].
  - intros path x H1 H2. rewrite structure_should_include_eq.
    rewrite (proj2 (is_excluded_raw_spec path)); [done|]. eauto.
  - split; [apply structure_pass_shape|].
    split; [apply structure_pass_shape|].
    split; [apply generate_file_contents_shape|].
    split; [intros; apply generate_project_summary_shape|].
    split; [apply count_extensions_lookup|].
    split; [|split; [|split]].
    + intros H%structure_files_kept. congruence.
    + intros H%structure_files_kept. congruence.
    + intros H%content_files_kept. congruence.
    + intros H%tally_files_kept. congruence.
Qed.

Lemma C1_witness :
  App.should_include example_isfile
    "/home/u/proj/node_modules/pkg/index.js" = false /\
  ("/home/u/proj/node_modules/pkg", "index.js")
    ∉ content_files example_isfile "/home/u/proj" example_tree.
Proof.
  pose proof (C1_excluded_subtrees_never_appear example_isfile example_read
    example_parses "/home/u" "2026-01-01 10:00:00" "/home/u/proj"
    example_tree ["node_modules"; "pkg"]
    "/home/u/proj/node_modules/pkg" [File "index.js"] "index.js"
    "node_modules") as H.
  destruct H as (_ & _ & H1 & _ & _ & _ & _ & _ & _ & _ & _ & H2 & _).
  - reflexivity.
  - reflexivity.
  - by_decide.
  - left. by_decide.
  - by_decide.
  - split; [exact H1 | exact H2].
Defined.

(** C1 as stated fails for [app.py]: [build] is a component of
    [build/../x], which [should_include] keeps, and with the start path
    [build/../proj] the content pass reaches [a.js]. *)
Lemma C1_counterexample :
  "build" ∈ App.EXCLUDE_DIRS /\
  "build" ∈ Py.split "/" "build/../x" /\
  App.should_include (fun _ => false) "build/../x" = true /\
  "build" ∈ Py.split "/" "build/../proj" /\
  content_files (fun _ => true) "build/../proj"
    (Dir "proj" (Some [File "a.js"])) = [("build/../proj", "a.js")].
Proof. repeat split; by_decide || reflexivity. Qed.

(** C2, as the code has it.  With [N] the number of lines [splitlines] finds
    in the content, [format_code] returns [N] lines joined by line feeds;
    line [i] (from 1) is the decimal index right-aligned in a field of four
    columns, then [ | ], then the text of line [i] as it was, in the
    original order.  The field is a minimum: it is exactly four columns
    wide up to line 9999 and grows with the number of digits after that. *)
Theorem C2_format_code_numbers_each_line (content filename : string) :
  let lines := Py.splitlines content in
  let out := Py.splitlines (App.format_code content filename) in
  App.format_code content filename = Py.join (String Py.LF "") out /\
  length out = length lines /\
  (forall (i : nat) (line : string),
     lines !! i = Some line ->
     out !! i = Some (Py.format_4d (i + 1) +:+ " | " +:+ line) /\
     Py.format_4d (i + 1) =
       Py.repeat_str " " (4 - String.length (Py.str_of_nat (i + 1)))
       +:+ Py.str_of_nat (i + 1) /\
     (Z.of_nat (i + 1) < 10000 ->
      String.length (Py.format_4d (i + 1)) = 4%nat)).
Proof.
  intros lines out.
  assert (out = App.formatted_lines content) as Hout.
  { apply splitlines_join, formatted_lines_plain. }
  split; [by rewrite Hout|]. split.
  { rewrite Hout. unfold App.formatted_lines. by rewrite length_imap. }
  intros i line Hi. split; [|split].
  - rewrite Hout. unfold App.formatted_lines. rewrite list_lookup_imap.
    fold lines. by rewrite Hi.
  - reflexivity.
  - apply format_4d_width.
Qed.

Lemma C2_witness :
  Py.splitlines (App.format_code ("a" +:+ String Py.LF "b") "f.js") !! 1%nat
  = Some "   2 | b".
Proof.
  destruct (C2_format_code_numbers_each_line ("a" +:+ String Py.LF "b")
              "f.js") as (_ & _ & H).
  destruct (H 1%nat "b" eq_refl) as [H1 _]. exact H1.
Defined.

(** C2 as stated fails: there is no fixed width.  In a text of 10000 lines
    the first index fills four columns and the last one five.  The lines
    are also those of [splitlines]: a text without any line feed but with a
    form feed is numbered as two lines. *)
Lemma C2_counterexample :
  let content := Py.repeat_str (String Py.LF "") (100 * 100) in
  let out := Py.splitlines (App.format_code content "big.js") in
  let page := "a" +:+ String (Py.chr 12) "b" in
  length out = (100 * 100)%nat /\
  out !! 0%nat = Some "   1 | " /\
  out !! (100 * 100 - 1)%nat = Some "10000 | " /\
  Py.split Py.LF page = [page] /\
  Py.splitlines (App.format_code page "page.js") = ["   1 | a"; "   2 | b"].
Proof. vm_compute. repeat split; reflexivity. Qed.




(** C4.  For a path that is a regular file and none of whose components is
    an excluded name, [should_include] (of either file) is true exactly
    when the lower-cased extension belongs to the allowed set of that file;
    the extension carries its leading dot, and a file without extension is
    excluded. *)
Theorem C4_file_kept_iff_extension_allowed
    (isfile : string -> bool) (path : string) :
  isfile path = true ->
  Forall (fun part => part ∉ App.EXCLUDE_DIRS) (Py.split "/" path) ->
  let ext := (posixpath.splitext path).2 in
  (App.should_include isfile path = true <->
   Py.lower ext ∈ App.VALID_EXTENSIONS) /\
  (AppStructure.should_include isfile path = true <->
   Py.lower ext ∈ AppStructure.VALID_EXTENSIONS) /\
  (ext = "" \/ Py.startswith ext "." = true) /\
  (ext = "" ->
   App.should_include isfile path = false /\
   AppStructure.should_include isfile path = false).
Proof.
  intros Hf Hc ext. rewrite Forall_forall in Hc.
  destruct (raw_clean_not_excluded path Hc) as [Hr Hn].
  rewrite app_should_include_eq, structure_should_include_eq, Hr, Hn, Hf.
  fold ext. split; [apply bool_decide_eq_true|].
  split; [apply bool_decide_eq_true|].
  split; [apply splitext_leading_dot|].
  intros ->. split; by_decide || (apply bool_decide_eq_false; by_decide).
Qed.

Lemma C4_witness :
  App.should_include (fun _ => true) "src/Index.JS" = true /\
  AppStructure.should_include (fun _ => true) "src/Makefile" = false.
Proof.
  split.
  - apply (C4_file_kept_iff_extension_allowed (fun _ => true) "src/Index.JS");
      [reflexivity | by_decide | by_decide].
  - apply (C4_file_kept_iff_extension_allowed (fun _ => true) "src/Makefile");
      [reflexivity | by_decide | reflexivity].
Defined.

(** C5, as the code has it.  A file that the tree lists once, whose
    extension is in the allowed set and whose directory has no excluded
    component on its path, is exactly once among the files of the content
    section, which holds the files of every directory in ascending order
    of their names; it is one of the files the total of the summary
    counts, it is counted exactly once by the tally, and the row of its
    extension in the table of the summary holds the number of kept files
    with that extension.  The content section, the summary and the story
    are returned when the layout library accepts all their paragraphs;
    when it refuses one, the pass raises and there is no section. *)
Theorem C5_allowed_file_appears_and_is_counted_once
    (isfile : string -> bool) (read_text : string -> string + string)
    (parses : string -> style -> bool)
    (cwd cover_date summary_time root_dir : string) (tree : node)
    (root f : string) :
  valid_tree tree = true ->
  dirs_not_files isfile root_dir tree = true ->
  occurrences (root, f) (tree_files root_dir tree) = 1%nat ->
  Py.lower (posixpath.splitext f).2 ∈ App.VALID_EXTENSIONS ->
  is_excluded root = false ->
  let files := content_files isfile root_dir tree in
  let groups := content_groups isfile root_dir tree in
  let counted := tally_files isfile root_dir tree in
  let ext_counts := App.count_extensions isfile root_dir tree in
  let ext := ext_key (root, f) in
  (* the content section *)
  App.generate_file_contents isfile read_text parses cwd root_dir tree
  = when_built parses (content_blocks isfile read_text cwd root_dir tree)
      (flat_map (file_block read_text cwd root_dir) files, length files) /\
  occurrences (root, f) files = 1%nat /\
  files = flat_map (fun g : string * list string => pair g.1 <$> g.2) groups /\
  (forall g, g ∈ groups -> Sorted String.le g.2) /\
  (* the summary, as the story holds it *)
  App.generate_pdf isfile read_text parses cwd cover_date summary_time
    root_dir tree
  = when_built parses
      (story_blocks isfile read_text cwd cover_date summary_time root_dir
         tree)
      (story_blocks isfile read_text cwd cover_date summary_time root_dir
         tree) /\
  (exists front,
     story_blocks isfile read_text cwd cover_date summary_time root_dir tree
     = front
       ++ summary_blocks isfile cwd summary_time root_dir tree (length files))
  /\
  App.generate_project_summary isfile parses cwd summary_time root_dir tree
    (length files)
  = when_built parses
      (summary_blocks isfile cwd summary_time root_dir tree (length files))
      (summary_blocks isfile cwd summary_time root_dir tree (length files)) /\
  Paragraph ("Total Files Documented: " +:+ Py.str_of_nat (length counted))
    SummaryItem
  ∈ summary_blocks isfile cwd summary_time root_dir tree (length files) /\
  Table (App.file_type_data ext_counts) App.file_type_style
  ∈ summary_blocks isfile cwd summary_time root_dir tree (length files) /\
  occurrences (root, f) counted = 1%nat /\
  length files = length counted /\
  ext_counts !! ext = Some (files_with_key ext counted) /\
  [ext; Py.str_of_nat (files_with_key ext counted)]
  ∈ App.file_type_data ext_counts.
Proof.
  intros Hv Hc Hocc Hext He files groups counted ext_counts ext.
  assert ((root, f) ∈ tree_files root_dir tree) as Hin
    by (apply occurrences_pos; lia).
  pose proof (tree_files_valid _ _ _ _ Hv Hin) as Hvf.
  assert (App.should_include isfile (posixpath.join root f) = true) as Hs.
  { rewrite app_should_include_eq, is_excluded_join, He by done.
    rewrite bool_decide_eq_false_2.
    - simpl. destruct (isfile _); [|done].
      rewrite splitext_join by done. by apply bool_decide_eq_true.
    - intros Hx. by apply (excluded_name_no_extension f Hx). }
  assert (occurrences (root, f) counted = 1%nat) as Hcounted.
  { unfold counted. rewrite tally_files_filter, occurrences_filter.
    simpl. by rewrite decide_True by (by rewrite Hs). }
  assert (files ≡ₚ counted) as Hperm by (by apply content_files_perm_tally).
  assert (length files = length counted) as Hlen by (by rewrite Hperm).
  assert (ext_counts !! ext = Some (files_with_key ext counted)) as Hrow.
  { apply count_extensions_lookup. split; [done|].
    fold counted. unfold files_with_key.
    assert ((root, f) ∈ filter (fun file => ext_key file = ext) counted)
      as Hmem.
    { apply list_elem_of_filter. split; [done|].
      apply occurrences_pos. lia. }
    destruct (filter _ counted); [by apply elem_of_nil in Hmem|simpl; lia]. }
  split; [apply generate_file_contents_shape|].
  split; [by rewrite Hperm|]. split; [done|]. split.
  { intros g (e & -> & _)%list_elem_of_fmap. apply sorted_names_sorted. }
  split; [apply generate_pdf_shape|]. split.
  { unfold story_blocks. eexists. rewrite !List.app_assoc. reflexivity. }
  split; [apply generate_project_summary_shape|].
  split; [rewrite <- Hlen; unfold summary_blocks; do 5 right; left|].
  split; [unfold summary_blocks; do 7 right; left|].
  split; [done|]. split; [done|]. split; [done|].
  apply file_type_data_row in Hrow. unfold App.file_type_row in Hrow.
  destruct (String.eqb ext "") eqn:E; [|done].
  apply String.eqb_eq in E. unfold ext, ext_key in E. simpl in E.
  rewrite E in Hext. exfalso. revert Hext. by_decide.
Qed.

Lemma C5_witness :
  occurrences ("/home/u/proj/src", "index.js")
    (content_files example_isfile "/home/u/proj" example_tree) = 1%nat /\
  [".js"; "1"]
  ∈ App.file_type_data
      (App.count_extensions example_isfile "/home/u/proj" example_tree).
Proof.
  destruct (C5_allowed_file_appears_and_is_counted_once example_isfile
    example_read example_parses "/home/u" "2026-01-01"
    "2026-01-01 10:00:00" "/home/u/proj" example_tree "/home/u/proj/src"
    "index.js") as (_ & H1 & _ & _ & _ & _ & _ & _ & _ & _ & _ & _ & H2);
    [reflexivity | reflexivity | reflexivity | by_decide | reflexivity |].
  split; [exact H1 | exact H2].
Defined.

(** C5 as stated fails: [ok.js] has an allowed extension and lies under no
    excluded directory, but the layout library refuses the header of its
    neighbour [a<b.js]; the content pass raises, and so does
    [generate_pdf]: [ok.js] is in no content section and in no summary. *)
Lemma C5_counterexample :
  valid_tree markup_tree = true /\
  dirs_not_files markup_isfile "/mk" markup_tree = true /\
  occurrences ("/mk", "ok.js") (tree_files "/mk" markup_tree) = 1%nat /\
  Py.lower (posixpath.splitext "ok.js").2 ∈ App.VALID_EXTENSIONS /\
  is_excluded "/mk" = false /\
  example_parses "File: a<b.js" CodeHeader = false /\
  App.generate_file_contents markup_isfile (fun _ => inl "x = 1")
    example_parses "/" "/mk" markup_tree = None /\
  App.generate_pdf markup_isfile (fun _ => inl "x = 1") example_parses "/"
    "2026-01-01" "2026-01-01 10:00:00" "/mk" markup_tree = None.
Proof. repeat split; by_decide || (vm_compute; reflexivity). Qed.

(** C6.  For a tree that the file system agrees with, the number of files
    the content pass returns, which [generate_pdf] hands to the summary
    and the summary prints as the total, is the sum of the counts of the
    frequency table, although the content pass prunes the walk and the
    tally visits every directory and filters file by file.  (The content
    pass, the summary and the story are returned when the layout library
    accepts their paragraphs, and the passes raise otherwise.) *)
Theorem C6_content_count_equals_summary_counts
    (isfile : string -> bool) (read_text : string -> string + string)
    (parses : string -> style -> bool)
    (cwd cover_date summary_time root_dir : string) (tree : node) :
  valid_tree tree = true ->
  dirs_not_files isfile root_dir tree = true ->
  let files := content_files isfile root_dir tree in
  let ext_counts := App.count_extensions isfile root_dir tree in
  let rows := sorted_items (map_to_list ext_counts) in
  App.generate_file_contents isfile read_text parses cwd root_dir tree
  = when_built parses (content_blocks isfile read_text cwd root_dir tree)
      (content_blocks isfile read_text cwd root_dir tree, length files) /\
  (forall contents file_count,
     App.generate_file_contents isfile read_text parses cwd root_dir tree
     = Some (contents, file_count) ->
     file_count = length files) /\
  App.generate_pdf isfile read_text parses cwd cover_date summary_time
    root_dir tree
  = when_built parses
      (story_blocks isfile read_text cwd cover_date summary_time root_dir
         tree)
      (story_blocks isfile read_text cwd cover_date summary_time root_dir
         tree) /\
  (exists front,
     story_blocks isfile read_text cwd cover_date summary_time root_dir tree
     = front
       ++ summary_blocks isfile cwd summary_time root_dir tree (length files))
  /\
  App.generate_project_summary isfile parses cwd summary_time root_dir tree
    (length files)
  = when_built parses
      (summary_blocks isfile cwd summary_time root_dir tree (length files))
      (summary_blocks isfile cwd summary_time root_dir tree (length files)) /\
  Paragraph ("Total Files Documented: " +:+ Py.str_of_nat (length files))
    SummaryItem
  ∈ summary_blocks isfile cwd summary_time root_dir tree (length files) /\
  Table (["File Type"; "Count"] :: (App.file_type_row <$> rows))
    App.file_type_style
  ∈ summary_blocks isfile cwd summary_time root_dir tree (length files) /\
  length files = sum_list rows.*2 /\
  length files = length (tally_files isfile root_dir tree).
Proof.
  intros Hv Hc files ext_counts rows.
  pose proof (content_files_perm_tally isfile root_dir tree Hv Hc) as Hperm.
  split; [apply generate_file_contents_shape|]. split.
  { intros contents file_count. rewrite generate_file_contents_shape.
    intros [_ [= _ ->]]%when_built_Some. done. }
  split; [apply generate_pdf_shape|]. split.
  { unfold story_blocks. eexists. rewrite !List.app_assoc. reflexivity. }
  split; [apply generate_project_summary_shape|].
  split; [unfold summary_blocks; do 5 right; left|].
  split; [unfold summary_blocks; do 7 right; left|].
  split.
  - unfold rows, files. rewrite sum_counts_sorted. unfold ext_counts.
    by rewrite count_extensions_total, Hperm.
  - unfold files. by rewrite Hperm.
Qed.

Lemma C6_witness :
  length (content_files example_isfile "/home/u/proj" example_tree)
  = sum_list
      (sorted_items
         (map_to_list
            (App.count_extensions example_isfile "/home/u/proj"
               example_tree))).*2 /\
  App.generate_file_contents example_isfile example_read example_parses
    "/home/u" "/home/u/proj" example_tree
  = when_built example_parses
      (content_blocks example_isfile example_read "/home/u" "/home/u/proj"
         example_tree)
      (content_blocks example_isfile example_read "/home/u" "/home/u/proj"
         example_tree, 3%nat).
Proof.
  destruct (C6_content_count_equals_summary_counts example_isfile
    example_read example_parses "/home/u" "2026-01-01"
    "2026-01-01 10:00:00" "/home/u/proj" example_tree)
    as (H1 & _ & _ & _ & _ & _ & _ & H2 & _);
    [reflexivity | reflexivity |].
  split; [exact H2 | exact H1].
Defined.

(** C7.  The summary, which is returned when the layout library accepts
    its five paragraphs, ends with its one table.  That table has, under
    its header, one row for every extension key that some kept file has,
    with the number of kept files of that key and no other row; the rows
    ascend strictly by key, and the row of the empty key, which sorts
    first, is labelled [No Extension]. *)
Theorem C7_frequency_table_rows
    (isfile : string -> bool) (parses : string -> style -> bool)
    (cwd summary_time root_dir : string) (tree : node) :
  let ext_counts := App.count_extensions isfile root_dir tree in
  let rows := sorted_items (map_to_list ext_counts) in
  let table :=
    Table (["File Type"; "Count"] :: (App.file_type_row <$> rows))
      App.file_type_style in
  (forall file_count,
     App.generate_project_summary isfile parses cwd summary_time root_dir
       tree file_count
     = when_built parses
         (summary_blocks isfile cwd summary_time root_dir tree file_count)
         (summary_blocks isfile cwd summary_time root_dir tree file_count) /\
     last (summary_blocks isfile cwd summary_time root_dir tree file_count)
     = Some table /\
     filter (fun b => is_table b)
       (summary_blocks isfile cwd summary_time root_dir tree file_count)
     = [table]) /\
  (forall ext count,
     (ext, count) ∈ rows <->
     count = files_with_key ext (tally_files isfile root_dir tree)
     /\ (0 < count)%nat) /\
  NoDup rows.*1 /\
  Sorted key_lt rows /\
  (forall count,
     ("", count) ∈ rows ->
     exists rest,
       rows = ("", count) :: rest /\
       App.file_type_row <$> rows
       = ["No Extension"; Py.str_of_nat count]
         :: (App.file_type_row <$> rest)) /\
  (forall ext count,
     (ext, count) ∈ rows -> ext <> "" ->
     [ext; Py.str_of_nat count] ∈ App.file_type_row <$> rows).
Proof.
  intros ext_counts rows table. split.
  { intros file_count. split; [apply generate_project_summary_shape|].
    split; reflexivity. }
  assert (rows ≡ₚ map_to_list ext_counts) as Hperm
    by apply sorted_items_perm.
  assert (NoDup rows.*1) as Hnd.
  { rewrite Hperm. apply NoDup_fst_map_to_list. }
  split; [|split; [done|split; [|split]]].
  - intros ext count. rewrite Hperm, elem_of_map_to_list.
    apply count_extensions_lookup.
  - apply sorted_strict; [done|]. apply sorted_items_sorted.
  - intros count Hin.
    destruct (empty_key_first rows count) as [rest Hrest]; [|done|].
    { apply sorted_strict; [done|]. apply sorted_items_sorted. }
    exists rest. split; [done|]. by rewrite Hrest.
  - intros ext count Hin Hne. apply list_elem_of_fmap.
    exists (ext, count). split; [|done]. unfold App.file_type_row.
    apply String.eqb_neq in Hne. by rewrite Hne.
Qed.

Lemma C7_witness :
  (".js", 1%nat)
    ∈ sorted_items
        (map_to_list
           (App.count_extensions example_isfile "/home/u/proj" example_tree)).
Proof.
  destruct (C7_frequency_table_rows example_isfile example_parses "/home/u"
              "2026-01-01 10:00:00" "/home/u/proj" example_tree)
    as (_ & H & _).
  apply (H ".js" 1%nat). split; [reflexivity | lia].
Defined.

Example C7_example_table :
  App.file_type_data
    (App.count_extensions (fun _ => false) "p"
       (Dir "p" (Some [File "b.JS"; File "LICENSE"; File "a.js"; File "x.md"])))
  = [ ["File Type"; "Count"]; ["No Extension"; "1"]; [".js"; "2"];
      [".md"; "1"] ].
Proof. vm_compute. reflexivity. Qed.

(** C8, as the code has it.  The start directory, and every directory of
    the tree with no excluded component on its path, is yielded by the
    pruning walk whatever its listing holds, also when no file and no
    subdirectory of it survives: its label is one of the blocks of the
    structure listing and it is one of the directories the summary counts,
    which are as many as the directory labels of the listing.  The
    listing and the summary are returned when the layout library accepts
    all their paragraphs; when it refuses one, the pass raises and no
    directory is listed. *)
Theorem C8_every_visited_directory_is_yielded
    (isfile : string -> bool) (parses : string -> style -> bool)
    (cwd summary_time top : string) (tree : node)
    (names : list string) (p : string) (es : list node) :
  top <> "" ->
  valid_tree tree = true ->
  dirs_not_files isfile top tree = true ->
  locate top tree names = Some (p, es) ->
  names = [] \/ is_excluded p = false ->
  let should_include := App.should_include isfile in
  let entries := os_walk (prune_dirs should_include) top tree in
  let entry :=
    (p, prune_dirs should_include p (dir_names es), file_names es) in
  let structure := structure_blocks cwd should_include top tree in
  entry ∈ entries /\
  App.generate_directory_structure isfile parses cwd top tree
  = when_built parses structure structure /\
  Paragraph (dir_label cwd top p) DirItem ∈ structure /\
  (keep_files should_include p (file_names es) = [] ->
   structure_block cwd should_include top entry
   = [Paragraph (dir_label cwd top p) DirItem]) /\
  App.count_directories isfile top tree = length entries /\
  App.count_directories isfile top tree
  = length (filter (fun b => is_dir_item b) structure) /\
  (forall file_count,
     App.generate_project_summary isfile parses cwd summary_time top tree
       file_count
     = when_built parses
         (summary_blocks isfile cwd summary_time top tree file_count)
         (summary_blocks isfile cwd summary_time top tree file_count) /\
     Paragraph ("Total Directories: " +:+ Py.str_of_nat (length entries))
       SummaryItem
     ∈ summary_blocks isfile cwd summary_time top tree file_count).
Proof.
  intros Ht Hv Hc Hl He should_include entries entry structure.
  assert (entry ∈ entries) as Hin.
  { unfold entries, os_walk. apply String.eqb_neq in Ht. rewrite Ht.
    by apply (locate_walk_pruned isfile top tree names). }
  split; [done|]. split; [apply structure_pass_shape|].
  split; [|split; [|split; [|split]]].
  - right. apply elem_of_flat_map. exists entry. split; [done|]. left.
  - intros Hk. unfold structure_block. simpl. by rewrite Hk.
  - apply count_directories_length.
  - unfold structure, structure_blocks.
    rewrite count_directories_length, filter_cons_False by (by intros []).
    by rewrite structure_dir_items.
  - intros file_count. split; [apply generate_project_summary_shape|].
    unfold summary_blocks. rewrite count_directories_length.
    do 4 right. left.
Qed.

Lemma C8_witness :
  ("/home/u/proj/assets", [], [])
    ∈ os_walk (prune_dirs (App.should_include example_isfile))
        "/home/u/proj" example_tree /\
  Paragraph "    assets/" DirItem
    ∈ structure_blocks "/home/u" (App.should_include example_isfile)
        "/home/u/proj" example_tree /\
  App.generate_directory_structure example_isfile example_parses "/home/u"
    "/home/u/proj" example_tree
  = when_built example_parses
      (structure_blocks "/home/u" (App.should_include example_isfile)
         "/home/u/proj" example_tree)
      (structure_blocks "/home/u" (App.should_include example_isfile)
         "/home/u/proj" example_tree).
Proof.
  destruct (C8_every_visited_directory_is_yielded example_isfile
    example_parses "/home/u" "2026-01-01 10:00:00" "/home/u/proj"
    example_tree ["assets"] "/home/u/proj/assets" [])
    as (H1 & H2 & H3 & _);
    [done | reflexivity | reflexivity | reflexivity | right; reflexivity |].
  split; [exact H1|]. split; [exact H3 | exact H2].
Defined.

(** C8 as stated fails: [assets] is an empty directory with no excluded
    component, and the walk yields it, but the layout library refuses the
    label of the file [a<b.js] of the start directory; the structure pass
    raises, so that no label is listed, and [generate_pdf] raises before
    any summary is made. *)
Lemma C8_counterexample :
  valid_tree markup_tree = true /\
  dirs_not_files markup_isfile "/mk" markup_tree = true /\
  locate "/mk" markup_tree ["assets"] = Some ("/mk/assets", []) /\
  is_excluded "/mk/assets" = false /\
  ("/mk/assets", [], [])
    ∈ os_walk (prune_dirs (App.should_include markup_isfile)) "/mk"
        markup_tree /\
  example_parses "    a<b.js" FileItem = false /\
  App.generate_directory_structure markup_isfile example_parses "/" "/mk"
    markup_tree = None /\
  App.generate_pdf markup_isfile (fun _ => inl "x = 1") example_parses "/"
    "2026-01-01" "2026-01-01 10:00:00" "/mk" markup_tree = None.
Proof. repeat split; by_decide || (vm_compute; reflexivity). Qed.

(** C9, as the code has it.  Both files exclude the same names, and the
    allowed set of [appStructure.py] is that of [app.py] without
    [.geojson] only ([.scss], [.jsx] and [.vue] are in both).
    [appStructure.py] tests the components of the path as written, the last
    one included; [app.py] tests those of the normalised path.  On a path
    that is its own normal form the two filters agree unless the path is a
    regular file with the extension [.geojson] and without excluded
    component, which [app.py] keeps and [appStructure.py] drops. *)
Theorem C9_filters_differ_by_geojson_and_normpath (isfile : string -> bool) :
  AppStructure.EXCLUDE_DIRS = App.EXCLUDE_DIRS /\
  (forall e, e ∈ App.VALID_EXTENSIONS <->
             (e ∈ AppStructure.VALID_EXTENSIONS \/ e = ".geojson")) /\
  (".geojson" ∉ AppStructure.VALID_EXTENSIONS) /\
  (forall path excl,
     excl ∈ AppStructure.EXCLUDE_DIRS -> excl ∈ Py.split "/" path ->
     AppStructure.should_include isfile path = false) /\
  (forall path,
     posixpath.normpath path = path ->
     isfile path = false \/
     Py.lower (posixpath.splitext path).2 <> ".geojson" \/
     Exists (fun part => part ∈ App.EXCLUDE_DIRS) (Py.split "/" path) ->
     App.should_include isfile path =
     AppStructure.should_include isfile path) /\
  (forall path,
     isfile path = true ->
     Py.lower (posixpath.splitext path).2 = ".geojson" ->
     Forall (fun part => part ∉ App.EXCLUDE_DIRS) (Py.split "/" path) ->
     App.should_include isfile path = true /\
     AppStructure.should_include isfile path = false).
Proof.
  split; [reflexivity|]. split; [apply valid_extensions_differ|].
  split; [apply geojson_not_in_structure_set|]. split; [|split].
  - intros path excl He Hx. rewrite structure_should_include_eq.
    rewrite (proj2 (is_excluded_raw_spec path)); [done|].
    exists excl. by rewrite <- exclude_dirs_same.
  - intros path Hn Hd.
    rewrite app_should_include_eq, structure_should_include_eq.
    rewrite (is_excluded_normalised _ Hn).
    destruct (is_excluded_raw path) eqn:Hraw; [done|].
    destruct (isfile path); [|done].
    destruct Hd as [?|[Hd|Hd]]; [done| |].
    + apply bool_eq_iff.
      rewrite !bool_decide_eq_true, valid_extensions_differ. tauto.
    + apply Exists_exists in Hd as (x & Hx & He).
      rewrite (proj2 (is_excluded_raw_spec path)) in Hraw; [done|]. eauto.
  - intros path Hf He Hc. rewrite Forall_forall in Hc.
    destruct (raw_clean_not_excluded path Hc) as [Hr Hn].
    rewrite app_should_include_eq, structure_should_include_eq, Hr, Hn, Hf, He.
    split; [by_decide|]. apply bool_decide_eq_false.
    apply geojson_not_in_structure_set.
Qed.

Lemma C9_witness :
  App.should_include (fun _ => true) "data/map.geojson" = true /\
  AppStructure.should_include (fun _ => true) "data/map.geojson" = false.
Proof.
  destruct (C9_filters_differ_by_geojson_and_normpath (fun _ => true))
    as (_ & _ & _ & _ & _ & H).
  apply (H "data/map.geojson"); [reflexivity | reflexivity | by_decide].
Defined.

(** C9 as stated fails: [.scss] is in the allowed set of [appStructure.py],
    which keeps a regular file [a.scss] as [app.py] does, and the two
    filters disagree on [build/../x], where no extension is involved. *)
Lemma C9_counterexample :
  ".scss" ∈ AppStructure.VALID_EXTENSIONS /\
  ".jsx" ∈ AppStructure.VALID_EXTENSIONS /\
  ".vue" ∈ AppStructure.VALID_EXTENSIONS /\
  AppStructure.should_include (fun _ => true) "a.scss" = true /\
  App.should_include (fun _ => false) "build/../x" = true /\
  AppStructure.should_include (fun _ => false) "build/../x" = false.
Proof. repeat split; by_decide || reflexivity. Qed.

(** C10.  A path none of whose components is an excluded name and that is
    not a regular file (it does not exist, is a broken link, or is a
    directory) is included by both filters, whatever its extension: the
    extension is looked at only after [os.path.isfile] answered true. *)
Theorem C10_non_file_kept_whatever_extension
    (isfile : string -> bool) (path : string) :
  isfile path = false ->
  Forall (fun part => part ∉ App.EXCLUDE_DIRS) (Py.split "/" path) ->
  App.should_include isfile path = true /\
  AppStructure.should_include isfile path = true.
Proof.
  intros Hf Hc. rewrite Forall_forall in Hc.
  destruct (raw_clean_not_excluded path Hc) as [Hr Hn].
  by rewrite app_should_include_eq, structure_should_include_eq, Hr, Hn, Hf.
Qed.

Lemma C10_witness :
  App.should_include (fun _ => false) "proj/photos.exe" = true /\
  AppStructure.should_include (fun _ => false) "proj/photos.exe" = true.
Proof.
  apply (C10_non_file_kept_whatever_extension (fun _ => false)
           "proj/photos.exe"); [reflexivity | by_decide].
Defined.

(** * Further facts *)

(** ** The document as a whole *)

Section document_facts.
Import posixpath.
Variable isfile : string -> bool.
Variable read_text : string -> string + string.
Variable cwd : string.

#[local] Abbreviation should_include := (App.should_include isfile).

Lemma structure_files_eq top tree :
  structure_files should_include top tree =
  flat_map (kept isfile) (os_walk (prune_dirs should_include) top tree).
Proof. reflexivity. Qed.

Lemma tally_files_eq top tree :
  tally_files isfile top tree =
  flat_map (kept isfile) (os_walk keep_dirs top tree).
Proof. reflexivity. Qed.

Lemma structure_block_file_items si startpath (e : walk_entry) :
  length (filter (fun b => is_file_item b)
            (structure_block cwd si startpath e))
  = length (keep_files si e.1.1 e.2).
Proof.
  unfold structure_block. rewrite filter_cons_False by (by intros []).
  induction (keep_files si e.1.1 e.2) as [|f fs IH]; [done|].
  rewrite fmap_cons, filter_cons_True by done. simpl. by rewrite IH.
Qed.

Lemma structure_file_items si startpath (entries : list walk_entry) :
  length (filter (fun b => is_file_item b)
            (flat_map (structure_block cwd si startpath) entries))
  = length (flat_map (fun e : walk_entry =>
                        pair e.1.1 <$> keep_files si e.1.1 e.2) entries).
Proof.
  induction entries as [|e entries IH]; [done|].
  rewrite !flat_map_cons, filter_app, !length_app, IH.
  by rewrite structure_block_file_items, length_fmap.
Qed.

Lemma structure_block_length si startpath (e : walk_entry) :
  length (structure_block cwd si startpath e)
  = S (length (keep_files si e.1.1 e.2)).
Proof. unfold structure_block. simpl. by rewrite length_fmap. Qed.

Lemma structure_blocks_length si startpath (entries : list walk_entry) :
  length (flat_map (structure_block cwd si startpath) entries)
  = (length entries
     + length (flat_map (fun e : walk_entry =>
                           pair e.1.1 <$> keep_files si e.1.1 e.2) entries))%nat.
Proof.
  induction entries as [|e entries IH]; [done|].
  rewrite !flat_map_cons, !length_app, IH, structure_block_length, length_fmap.
  simpl. lia.
Qed.

Lemma structure_no_page_break si startpath (entries : list walk_entry) :
  filter (fun b => is_page_break b)
    (flat_map (structure_block cwd si startpath) entries) = [].
Proof.
  induction entries as [|e entries IH]; [done|].
  rewrite flat_map_cons, filter_app, IH, List.app_nil_r.
  unfold structure_block. rewrite filter_cons_False by (by intros []).
  induction (keep_files si e.1.1 e.2) as [|f fs IHf]; [done|].
  by rewrite fmap_cons, filter_cons_False by (by intros []).
Qed.

Lemma file_blocks_length root_dir (files : list (string * string)) :
  length (flat_map (file_block read_text cwd root_dir) files)
  = (3 * length files)%nat.
Proof.
  induction files as [|x files IH]; [done|].
  rewrite flat_map_cons, length_app, IH. simpl. lia.
Qed.

Lemma file_blocks_page_breaks root_dir (files : list (string * string)) :
  length (filter (fun b => is_page_break b)
            (flat_map (file_block read_text cwd root_dir) files))
  = length files.
Proof.
  induction files as [|x files IH]; [done|].
  rewrite flat_map_cons, filter_app, length_app, IH. reflexivity.
Qed.

End document_facts.

(** ** The walk that prunes inside the walk that does not *)

Section subwalk_facts.
Import posixpath.
Variable isfile : string -> bool.

#[local] Abbreviation should_include := (App.should_include isfile).

Lemma valid_tree_dir_names name es :
  valid_tree (Dir name (Some es)) = true ->
  Forall (fun d => valid_name d = true) (dir_names es).
Proof.
  intros Hv. apply Forall_forall. intros d Hd. unfold dir_names in Hd.
  apply list_elem_of_fmap in Hd as (c & -> & Hc).
  apply list_elem_of_filter in Hc as [_ Hc].
  by destruct (valid_tree_child _ _ _ Hv Hc).
Qed.

Lemma prune_dirs_excluded root dirs :
  is_excluded root = true ->
  Forall (fun d => valid_name d = true) dirs ->
  prune_dirs should_include root dirs = [].
Proof. apply keep_files_excluded. Qed.

Lemma prune_dirs_elem si root dirs d :
  d ∈ prune_dirs si root dirs -> d ∈ dirs.
Proof. unfold prune_dirs. by intros [_ ?]%list_elem_of_filter. Qed.

(** Whatever is pruned, a directory the walk yields is a directory of the
    tree, with the files the tree lists in it. *)
Lemma walk_pruned_entry prune top n :
  (forall r ds d, d ∈ prune r ds -> d ∈ ds) ->
  forall e, e ∈ walk prune top n ->
  exists ds, (e.1.1, ds, e.2) ∈ walk keep_dirs top n.
Proof.
  intros Hp. revert top. induction n as [| |name es IH] using node_induction;
    intros top e; [by intros ?%elem_of_nil..|].
  rewrite !walk_dir.
  intros [->|(d & Hd & He)%elem_of_flat_map]%elem_of_cons.
  { eexists. left. }
  unfold sub_walk in He. destruct (find_dir d es) as [c|] eqn:Ef;
    [|by apply elem_of_nil in He].
  rewrite Forall_forall in IH.
  destruct (IH c (proj1 (find_dir_Some _ _ _ Ef)) _ _ He) as [ds Hds].
  exists ds. right. apply elem_of_flat_map. exists d. split.
  - unfold keep_dirs. by apply Hp in Hd.
  - unfold sub_walk. by rewrite Ef.
Qed.

Lemma content_files_in_tree top tree r f :
  (r, f) ∈ content_files isfile top tree -> (r, f) ∈ tree_files top tree.
Proof.
  rewrite content_files_perm.
  intros (_ & e & He & <- & Hf)%elem_of_kept_files.
  unfold tree_files, listed_files, os_walk in *.
  destruct (String.eqb top ""); [by apply elem_of_nil in He|].
  destruct (walk_pruned_entry _ top tree (prune_dirs_elem should_include) e He)
    as [ds Hds].
  apply elem_of_flat_map. eexists. split; [exact Hds|]. simpl.
  apply list_elem_of_fmap. by exists f.
Qed.

Lemma tally_files_in_tree top tree r f :
  (r, f) ∈ tally_files isfile top tree -> (r, f) ∈ tree_files top tree.
Proof.
  rewrite tally_files_filter. by intros [_ ?]%list_elem_of_filter.
Qed.

(** What the filter says of a file it keeps. *)
Lemma should_include_file root f :
  valid_name f = true ->
  should_include (join root f) = true ->
  is_excluded root = false /\ (f ∉ App.EXCLUDE_DIRS) /\
  (isfile (join root f) = true ->
   Py.lower (splitext f).2 ∈ App.VALID_EXTENSIONS).
Proof.
  intros Hv. rewrite app_should_include_eq, is_excluded_join by done.
  destruct (is_excluded root); [done|].
  destruct (bool_decide (f ∈ App.EXCLUDE_DIRS)) eqn:Hx; [done|].
  apply bool_decide_eq_false in Hx. simpl. intros Hs.
  split; [done|]. split; [done|]. intros Hf. rewrite Hf in Hs.
  rewrite splitext_join in Hs by done. by apply bool_decide_eq_true in Hs.
Qed.

Lemma flat_map_ext_elem {A B} (f g : A -> list B) (l : list A) :
  (forall x, x ∈ l -> f x = g x) -> flat_map f l = flat_map g l.
Proof.
  induction l as [|x l IH]; intros H; [done|].
  rewrite !flat_map_cons, H, IH; [done| |left].
  intros y Hy. apply H. by right.
Qed.

End subwalk_facts.

(** ** The keys of the extension table *)

Section key_facts.
Import posixpath.

Lemma lower_char_idem c : Py.lower_char (Py.lower_char c) = Py.lower_char c.
Proof. destruct c as [[] [] [] [] [] [] [] []]; reflexivity. Qed.

Lemma lower_idem s : Py.lower (Py.lower s) = Py.lower s.
Proof.
  induction s as [|c s IH]; [done|]. simpl. by rewrite lower_char_idem, IH.
Qed.

Lemma lower_char_dot c :
  Ascii.eqb (Py.lower_char c) "." = Ascii.eqb c ".".
Proof. destruct c as [[] [] [] [] [] [] [] []]; reflexivity. Qed.

Lemma startswith_nil s : Py.startswith s "" = true.
Proof. by destruct s. Qed.

Lemma lower_leading_dot s :
  s = "" \/ Py.startswith s "." = true ->
  Py.lower s = "" \/ Py.startswith (Py.lower s) "." = true.
Proof.
  intros [->|H]; [by left|]. right. destruct s as [|c s]; [done|].
  simpl in *. rewrite startswith_nil in *. by rewrite lower_char_dot.
Qed.

Lemma files_with_key_pos e files :
  (0 < files_with_key e files)%nat ->
  exists file, file ∈ files /\ ext_key file = e.
Proof.
  unfold files_with_key. intros H.
  destruct (filter (fun file => ext_key file = e) files) as [|x l] eqn:E;
    [simpl in H; lia|].
  assert (x ∈ filter (fun file => ext_key file = e) files) as Hx
    by (rewrite E; left).
  apply list_elem_of_filter in Hx as [Hx1 Hx2]. eauto.
Qed.

Lemma NoDup_subset_length (l k : list string) :
  NoDup l -> (forall x, x ∈ l -> x ∈ k) -> (length l <= length k)%nat.
Proof.
  intros Hn Hs. apply submseteq_length. apply NoDup_submseteq; assumption.
Qed.

End key_facts.

(** ** More about [format_code] *)

Section numbering_facts.

Lemma drop_numbered_line i line :
  Z.of_nat (i + 1) < 10000 -> Py.drop 7 (App.numbered_line i line) = line.
Proof.
  intros H. unfold App.numbered_line.
  change 7%nat with (4 + 3)%nat. rewrite <- (format_4d_width (i + 1) H).
  by rewrite drop_app_length.
Qed.

Lemma splitlines_go_final_lf b s :
  ends_inside_line s = true ->
  Py.splitlines_go b (s +:+ String Py.LF "") = Py.splitlines_go b s.
Proof.
  revert b. induction s as [|c s IH]; intros b H; [done|].
  destruct s as [|c' s].
  - simpl in H. apply negb_true_iff in H.
    rewrite str_app_cons, str_app_nil_l. simpl.
    assert (Ascii.eqb c Py.LF = false) as ->.
    { apply Ascii.eqb_neq. by intros ->. }
    by rewrite andb_false_r, H.
  - assert (ends_inside_line (String c' s) = true) as H' by exact H.
    rewrite str_app_cons.
    change (Py.splitlines_go b (String c (String c' s +:+ String Py.LF "")))
      with (if b && Ascii.eqb c Py.LF
            then Py.splitlines_go false (String c' s +:+ String Py.LF "")
            else if Py.is_linebreak c
            then "" :: Py.splitlines_go (Ascii.eqb c Py.CR)
                         (String c' s +:+ String Py.LF "")
            else match Py.splitlines_go false
                         (String c' s +:+ String Py.LF "") with
                 | [] => [String c ""]
                 | l :: ls => String c l :: ls
                 end).
    by rewrite !IH.
Qed.

Lemma ends_inside_line_app s t :
  t <> "" -> ends_inside_line (s +:+ t) = ends_inside_line t.
Proof.
  intros Ht. induction s as [|c s IH]; [done|].
  rewrite str_app_cons. destruct (s +:+ t) as [|c' u] eqn:E.
  - by apply str_app_eq_nil in E as [_ ?].
  - exact IH.
Qed.

Lemma ends_inside_line_plain l :
  no_linebreak l = true -> l <> "" -> ends_inside_line l = true.
Proof.
  induction l as [|c l IH]; [done|]. simpl. intros [Hc Hl]%andb_true_iff _.
  destruct l as [|c' l]; [done|]. by apply IH.
Qed.

Lemma ends_inside_line_join ls :
  ls <> [] ->
  Forall (fun l => no_linebreak l = true /\ l <> "") ls ->
  ends_inside_line (Py.join (String Py.LF "") ls) = true.
Proof.
  intros Hne H. induction H as [|l ls [Hl Hl'] Hls IH]; [done|].
  destruct ls as [|l' ls]; [by apply ends_inside_line_plain|].
  change (Py.join (String Py.LF "") (l :: l' :: ls))
    with (l +:+ String Py.LF "" +:+ Py.join (String Py.LF "") (l' :: ls)).
  rewrite ends_inside_line_app.
  - rewrite ends_inside_line_app; [by apply IH|].
    apply join_nonempty; [|done]. eapply Forall_impl; [exact Hls|].
    by intros ? [_ ?].
  - by intros [? _]%str_app_eq_nil.
Qed.

End numbering_facts.

(** ** The extension of a file name *)

Section name_facts.
Import posixpath.

Lemma take_app_length s t : Py.take (String.length s) (s +:+ t) = s.
Proof. induction s as [|c s IH]; [by destruct t|]. simpl. by rewrite IH. Qed.

Lemma count_app c s t :
  Py.count c (s +:+ t) = (Py.count c s + Py.count c t)%nat.
Proof.
  induction s as [|a s IH]; [done|]. rewrite str_app_cons. simpl.
  rewrite IH. lia.
Qed.

Lemma all_dots_take k s : all_dots s = true -> all_dots (Py.take k s) = true.
Proof.
  revert k. induction s as [|c s IH]; intros [|k] H; try done.
  simpl in *. apply andb_true_iff in H as [-> H]. by apply IH.
Qed.

Lemma rfind_all_dots s :
  all_dots s = true -> Py.rfind "." s = Py.len s - 1.
Proof.
  unfold Py.len. induction s as [|c s IH]; [done|].
  intros [Hc H]%andb_true_iff. specialize (IH H).
  cbn [Py.rfind String.length]. rewrite IH, Hc.
  destruct (0 <=? Z.of_nat (String.length s) - 1) eqn:E; [lia|].
  apply Z.leb_gt in E. lia.
Qed.

Lemma take_app_le k s t :
  (k <= String.length s)%nat -> Py.take k (s +:+ t) = Py.take k s.
Proof.
  revert k. induction s as [|c s IH]; intros [|k] H; simpl in H;
    [by destruct t | lia | done |].
  rewrite str_app_cons. simpl. rewrite IH; [done|]. lia.
Qed.

(** A name made of dots and of a text without dot has no extension. *)
Lemma splitext_dotfile dots rest :
  all_dots dots = true -> Py.count "." rest = 0%nat ->
  Py.count "/" (dots +:+ rest) = 0%nat ->
  (splitext (dots +:+ rest)).2 = "".
Proof.
  intros Hd Hr Hs. unfold splitext.
  rewrite (rfind_absent "/" _ Hs), rfind_app, (rfind_absent "." _ Hr).
  change (0 <=? -1) with false. cbv iota.
  rewrite (rfind_all_dots _ Hd).
  destruct (-1 <? Py.len dots - 1) eqn:E; [|done].
  apply Z.ltb_lt in E. unfold Py.slice.
  change (Z.to_nat (-1 + 1)) with 0%nat. cbn [Py.drop].
  rewrite take_app_le by (unfold Py.len; lia).
  by rewrite all_dots_take.
Qed.

(** After a stem that is not made of dots only, the extension is the last
    dot and what follows it. *)
Lemma splitext_suffix stem e :
  all_dots stem = false -> Py.count "." e = 0%nat ->
  Py.count "/" (stem +:+ String "." e) = 0%nat ->
  splitext (stem +:+ String "." e) = (stem, String "." e).
Proof.
  intros Hd He Hs. unfold splitext.
  rewrite (rfind_absent "/" _ Hs), rfind_app.
  assert (Py.rfind "." (String "." e) = 0) as ->
    by (simpl; by rewrite (rfind_absent "." _ He)).
  change (0 <=? 0) with true. cbv iota.
  assert (0 <= Py.len stem) by (unfold Py.len; lia).
  destruct (-1 <? Py.len stem + 0) eqn:E; [|apply Z.ltb_ge in E; lia].
  unfold Py.slice, Py.slice_to, Py.slice_from.
  replace (Z.to_nat (Py.len stem + 0 - (-1 + 1))) with (String.length stem)
    by (unfold Py.len; lia).
  replace (Z.to_nat (Py.len stem + 0)) with (String.length stem)
    by (unfold Py.len; lia).
  change (Z.to_nat (-1 + 1)) with 0%nat. cbn [Py.drop].
  rewrite take_app_length, Hd.
  pose proof (drop_app_length stem (String "." e) 0) as Hdrop.
  rewrite Nat.add_0_r in Hdrop. by rewrite Hdrop.
Qed.

Lemma lower_cons c s : Py.lower (String c s) = String (Py.lower_char c) (Py.lower s).
Proof. reflexivity. Qed.

End name_facts.

(** ** The two structure listings *)

Section two_listings.
Import posixpath.
Variable isfile : string -> bool.

#[local] Abbreviation si := (App.should_include isfile).
#[local] Abbreviation si' := (AppStructure.should_include isfile).

Lemma filters_agree_on_dir p :
  is_excluded p = is_excluded_raw p -> isfile p = false -> si' p = si p.
Proof.
  intros He Hf.
  by rewrite app_should_include_eq, structure_should_include_eq, He, Hf.
Qed.

Lemma filters_on_file root f :
  valid_name f = true ->
  is_excluded root = is_excluded_raw root ->
  si' (join root f) = si (join root f) && negb (regular_geojson isfile (root, f)).
Proof.
  intros Hv He.
  rewrite app_should_include_eq, structure_should_include_eq.
  rewrite is_excluded_join, is_excluded_raw_join, He by done.
  destruct (is_excluded_raw root || bool_decide (f ∈ App.EXCLUDE_DIRS));
    [done|].
  unfold regular_geojson, ext_key. simpl.
  destruct (isfile (join root f)); [|done]. simpl.
  rewrite splitext_join by done.
  set (x := Py.lower (splitext f).2).
  destruct (String.eqb x ".geojson") eqn:Hx.
  - apply String.eqb_eq in Hx. rewrite Hx, andb_false_r.
    apply bool_decide_eq_false. apply geojson_not_in_structure_set.
  - apply String.eqb_neq in Hx. rewrite andb_true_r. apply bool_eq_iff.
    rewrite !bool_decide_eq_true, valid_extensions_differ. tauto.
Qed.

Lemma walk_roots_agree prune top n :
  valid_tree n = true -> is_excluded top = is_excluded_raw top ->
  forall e, e ∈ walk prune top n -> is_excluded e.1.1 = is_excluded_raw e.1.1.
Proof.
  revert top. induction n as [| |name es IH] using node_induction;
    intros top Hv Ht e; [by intros ?%elem_of_nil..|].
  rewrite walk_dir.
  intros [->|(d & Hd & He)%elem_of_flat_map]%elem_of_cons; [done|].
  unfold sub_walk in He. destruct (find_dir d es) as [c|] eqn:Ef;
    [|by apply elem_of_nil in He].
  destruct (valid_tree_find _ _ _ _ Hv Ef) as [Hvd Hvc].
  rewrite Forall_forall in IH.
  apply (IH c (proj1 (find_dir_Some _ _ _ Ef)) (join top d)); [done| |done].
  by rewrite is_excluded_join, is_excluded_raw_join, Ht.
Qed.

Lemma filter_ext_elem (P Q : string -> bool) (l : list string) :
  (forall x, x ∈ l -> P x = Q x) ->
  filter (fun x => P x) l = filter (fun x => Q x) l.
Proof.
  induction l as [|x l IH]; intros H; [done|].
  rewrite !filter_cons, (H x) by left. rewrite IH; [done|].
  intros y Hy. apply H. by right.
Qed.

Lemma walks_agree top n :
  valid_tree n = true -> dirs_not_files isfile top n = true ->
  is_excluded top = is_excluded_raw top ->
  walk (prune_dirs si') top n = walk (prune_dirs si) top n.
Proof.
  revert top. induction n as [| |name es IH] using node_induction;
    intros top Hv Hc Ht; [done..|].
  destruct (dirs_not_files_dir _ _ _ _ Hc) as [Hd Hsub].
  rewrite Forall_forall in IH. rewrite !walk_dir.
  assert (prune_dirs si' top (dir_names es)
          = prune_dirs si top (dir_names es)) as Hp.
  { unfold prune_dirs. apply filter_ext_elem. intros d Hin.
    apply filters_agree_on_dir; [|by apply Hd].
    rewrite is_excluded_join, is_excluded_raw_join, Ht; [done|..];
      pose proof (valid_tree_dir_names _ _ Hv) as Hvd;
      rewrite Forall_forall in Hvd; by apply Hvd. }
  rewrite Hp. f_equal. apply flat_map_ext_elem. intros d Hin.
  unfold sub_walk. destruct (find_dir d es) as [c|] eqn:Ef; [|done].
  destruct (valid_tree_find _ _ _ _ Hv Ef) as [Hvd Hvc].
  apply (IH c (proj1 (find_dir_Some _ _ _ Ef))); [done| |].
  - by apply (Hsub d c).
  - by rewrite is_excluded_join, is_excluded_raw_join, Ht.
Qed.

Lemma filter_flat_map {A B} (P : B -> Prop) `{forall x, Decision (P x)}
    (f : A -> list B) (l : list A) :
  filter P (flat_map f l) = flat_map (fun x => filter P (f x)) l.
Proof.
  induction l as [|x l IH]; [done|].
  by rewrite !flat_map_cons, filter_app, IH.
Qed.

Lemma keep_files_structure root files :
  Forall (fun f => valid_name f = true) files ->
  is_excluded root = is_excluded_raw root ->
  keep_files si' root files
  = filter (fun f => regular_geojson isfile (root, f) = false)
      (keep_files si root files).
Proof.
  intros Hv He. unfold keep_files.
  induction Hv as [|f files Hf _ IH]; [done|].
  pose proof (filters_on_file root f Hf He) as Hs.
  destruct (si (join root f)) eqn:Hi;
    destruct (regular_geojson isfile (root, f)) eqn:Hg; simpl in Hs.
  - rewrite (filter_cons_True (fun f => si (join root f)))
      by (cbv beta; by rewrite Hi).
    rewrite filter_cons_False by (cbv beta; rewrite Hs; by intros []).
    by rewrite filter_cons_False by (cbv beta; by rewrite Hg).
  - rewrite (filter_cons_True (fun f => si (join root f)))
      by (cbv beta; by rewrite Hi).
    rewrite filter_cons_True by (cbv beta; by rewrite Hs).
    by rewrite filter_cons_True, IH by (cbv beta; by rewrite Hg).
  - rewrite (filter_cons_False (fun f => si (join root f)))
      by (cbv beta; rewrite Hi; by intros []).
    by rewrite filter_cons_False by (cbv beta; rewrite Hs; by intros []).
  - rewrite (filter_cons_False (fun f => si (join root f)))
      by (cbv beta; rewrite Hi; by intros []).
    by rewrite filter_cons_False by (cbv beta; rewrite Hs; by intros []).
Qed.

End two_listings.

(** ** Paths below the start path *)

Section below_facts.
Import posixpath.
Variable cwd : string.

Lemma endswith_app s t :
  t <> "" -> Py.endswith (s +:+ t) "/" = Py.endswith t "/".
Proof.
  intros Ht. induction s as [|c s IH]; [done|].
  rewrite str_app_cons. cbn [Py.endswith]. rewrite IH.
  destruct (s +:+ t) as [|c' u] eqn:E.
  - by apply str_app_eq_nil in E as [_ ?].
  - assert (String.eqb (String c (String c' u)) "/" = false) as ->; [|done].
    apply String.eqb_neq. intros H. by injection H.
Qed.

Lemma endswith_no_sep n : Py.count "/" n = 0%nat -> Py.endswith n "/" = false.
Proof.
  induction n as [|c n IH]; [done|]. cbn [Py.count Py.endswith].
  destruct (Ascii.eqb c "/") eqn:Ec; [done|]. intros H.
  rewrite IH by done. rewrite orb_false_r. apply String.eqb_neq.
  intros E. injection E as -> _. done.
Qed.

Lemma valid_name_parts n :
  valid_name n = true -> n <> "" /\ Py.endswith n "/" = false.
Proof.
  intros (H1 & _ & _ & H2)%valid_name_spec. split; [done|].
  by apply endswith_no_sep.
Qed.

Lemma join_plain a n :
  a <> "" -> Py.endswith a "/" = false -> valid_name n = true ->
  join a n = a +:+ "/" +:+ n.
Proof.
  intros Ha He Hn. rewrite join_valid by done.
  apply String.eqb_neq in Ha. by rewrite Ha, He.
Qed.

Lemma join_ends_inside a n :
  valid_name n = true ->
  join a n <> "" /\ Py.endswith (join a n) "/" = false.
Proof.
  intros Hn. destruct (valid_name_parts n Hn) as [Hne He].
  rewrite join_valid by done.
  destruct (String.eqb a "" || Py.endswith a "/").
  - split; [by intros [_ ?]%str_app_eq_nil|]. by rewrite endswith_app.
  - split; [by intros [_ [_ ?]%str_app_eq_nil]%str_app_eq_nil|].
    rewrite endswith_app; [by rewrite endswith_app|].
    by intros [_ ?]%str_app_eq_nil.
Qed.

Lemma join_all_below a names :
  a <> "" -> Py.endswith a "/" = false ->
  Forall (fun n => valid_name n = true) names ->
  join_all a names = a +:+ path_below names.
Proof.
  intros Ha He Hv. revert a Ha He.
  induction Hv as [|n names Hn _ IH]; intros a Ha He.
  - by rewrite str_app_nil_r.
  - unfold join_all in *. cbn [fold_left path_below].
    destruct (join_ends_inside a n Hn) as [H1 H2].
    rewrite IH by done. rewrite join_plain by done.
    by rewrite !str_app_assoc.
Qed.

Lemma join_all_cons a n names : join_all a (n :: names) = join_all (join a n) names.
Proof. reflexivity. Qed.

Lemma join_all_snoc a names n :
  join_all a (names ++ [n]) = join (join_all a names) n.
Proof. unfold join_all. by rewrite fold_left_app. Qed.

Lemma join_all_nonempty a names : a <> "" -> join_all a names <> "".
Proof.
  revert a. induction names as [|n names IH]; intros a Ha; [done|].
  rewrite join_all_cons. by apply IH, join_nonempty_l.
Qed.

Lemma py_join_below x xs :
  Py.join "/" (x :: xs) = x +:+ path_below xs.
Proof.
  revert x. induction xs as [|y ys IH]; intros x.
  - by rewrite str_app_nil_r.
  - change (Py.join "/" (x :: y :: ys))
      with (x +:+ "/" +:+ Py.join "/" (y :: ys)).
    by rewrite IH.
Qed.

Lemma join_all_names x xs :
  Forall (fun n => valid_name n = true) (x :: xs) ->
  join_all x xs = Py.join "/" (x :: xs).
Proof.
  intros Hv. inversion_clear Hv as [|? ? Hx Hxs].
  destruct (valid_name_parts x Hx) as [H1 H2].
  by rewrite join_all_below, py_join_below.
Qed.

Lemma count_below names :
  Forall (fun n => valid_name n = true) names ->
  Py.count "/" (path_below names) = length names.
Proof.
  induction 1 as [|n names Hn _ IH]; [done|].
  cbn [path_below length]. rewrite str_app_cons, str_app_nil_l.
  cbn [Py.count]. rewrite count_app, IH.
  apply valid_name_spec in Hn as (_ & _ & _ & ->). done.
Qed.

Lemma isabs_join top n :
  top <> "" -> valid_name n = true -> isabs (join top n) = isabs top.
Proof.
  intros Ht Hn. unfold isabs. rewrite join_valid by done.
  assert (String.length "/" <= String.length top)%nat as Hl.
  { destruct top; [done|simpl; lia]. }
  destruct (String.eqb top "" || Py.endswith top "/");
    by rewrite startswith_app_l.
Qed.

Lemma absolute_join top n :
  top <> "" -> valid_name n = true ->
  absolute cwd (join top n) = join (absolute cwd top) n.
Proof.
  intros Ht Hn. unfold absolute. rewrite isabs_join by done.
  destruct (isabs top) eqn:Ha; [done|].
  assert (Py.startswith (join top n) "/" = false) as Hs.
  { pose proof (isabs_join top n Ht Hn) as H. unfold isabs in H, Ha.
    by rewrite Ha in H. }
  assert (join cwd (join top n)
          = (if String.eqb cwd "" || Py.endswith cwd "/" then cwd
             else cwd +:+ "/") +:+ join top n) as ->.
  { unfold join at 1. rewrite Hs.
    destruct (String.eqb cwd "" || Py.endswith cwd "/"); [done|].
    by rewrite str_app_assoc. }
  assert (join cwd top
          = (if String.eqb cwd "" || Py.endswith cwd "/" then cwd
             else cwd +:+ "/") +:+ top) as ->.
  { unfold join at 1. unfold isabs in Ha. rewrite Ha.
    destruct (String.eqb cwd "" || Py.endswith cwd "/"); [done|].
    by rewrite str_app_assoc. }
  set (C := if String.eqb cwd "" || Py.endswith cwd "/" then cwd
            else cwd +:+ "/").
  rewrite !join_valid by done.
  rewrite endswith_app by done.
  assert (String.eqb (C +:+ top) "" = false) as ->.
  { apply String.eqb_neq. by intros [_ ?]%str_app_eq_nil. }
  apply String.eqb_neq in Ht. rewrite Ht. simpl.
  destruct (Py.endswith top "/"); by rewrite !str_app_assoc.
Qed.

Lemma absolute_join_all top names :
  top <> "" -> Forall (fun n => valid_name n = true) names ->
  absolute cwd (join_all top names) = join_all (absolute cwd top) names.
Proof.
  intros Ht Hv. revert top Ht.
  induction Hv as [|n names Hn _ IH]; intros top Ht; [done|].
  rewrite !join_all_cons, IH by (by apply join_nonempty_l).
  by rewrite absolute_join.
Qed.

Lemma normpath_comps_join_all root names :
  Forall (fun n => valid_name n = true) names ->
  normpath_comps (join_all root names) = normpath_comps root ++ names.
Proof.
  intros Hv. revert root.
  induction Hv as [|n names Hn _ IH]; intros root.
  - by rewrite List.app_nil_r.
  - rewrite join_all_cons, IH, normpath_comps_join by done.
    by rewrite <- List.app_assoc.
Qed.

Lemma absolute_isabs top :
  isabs cwd = true -> isabs (absolute cwd top) = true.
Proof.
  intros Hc. unfold absolute. destruct (isabs top) eqn:Ha; [done|].
  unfold isabs, join in *. rewrite Ha.
  assert (String.length "/" <= String.length cwd)%nat as Hl.
  { destruct cwd; [done|simpl; lia]. }
  destruct (String.eqb cwd "" || Py.endswith cwd "/");
    by rewrite !startswith_app_l.
Qed.

Lemma filter_nonempty_replicate k :
  filter (fun x : string => x <> "") (replicate k "") = [].
Proof.
  induction k as [|k IH]; [done|]. simpl.
  by rewrite filter_cons_False by (by intros ?).
Qed.

Lemma filter_nonempty_id (l : list string) :
  Forall (fun x => x <> "") l -> filter (fun x : string => x <> "") l = l.
Proof.
  induction 1 as [|x l Hx _ IH]; [done|].
  by rewrite filter_cons_True, IH by done.
Qed.

(** The components [relpath] compares, for an absolute path. *)
Lemma abs_components X :
  isabs X = true ->
  filter (fun x => x <> "") (Py.split "/" (normpath X)) = normpath_comps X.
Proof.
  intros Ha. unfold normpath.
  assert (String.eqb X "" = false) as ->.
  { apply String.eqb_neq. by intros ->. }
  assert (exists k, initial_slashes X = S k) as [k Hk].
  { unfold initial_slashes. unfold isabs in Ha. rewrite Ha.
    destruct (_ && _); eauto. }
  rewrite Hk.
  change (Py.repeat_str "/" (S k)) with ("/" +:+ Py.repeat_str "/" k).
  rewrite !str_app_assoc, str_app_cons, str_app_nil_l.
  change (String.eqb (String "/" ?s) "") with false. cbv iota.
  change (String "/" (Py.repeat_str "/" k +:+ Py.join "/" (normpath_comps X)))
    with (Py.repeat_str "/" (S k) +:+ Py.join "/" (normpath_comps X)).
  rewrite split_repeat_sep, filter_app, filter_nonempty_replicate.
  assert (Forall (fun x => x <> "" /\ Py.count "/" x = 0%nat)
            (normpath_comps X)) as Hc.
  { apply Forall_forall. intros x Hx.
    apply normpath_comps_elem in Hx as (Hs & Hne & _). split; [done|].
    pose proof (split_no_sep "/" X) as Hall.
    rewrite Forall_forall in Hall. by apply Hall. }
  destruct (normpath_comps X) as [|c cs] eqn:E; [done|].
  rewrite split_join; [|done|].
  - apply filter_nonempty_id. eapply Forall_impl; [exact Hc|]. by intros ? [? _].
  - eapply Forall_impl; [exact Hc|]. by intros ? [_ ?].
Qed.

Lemma commonprefix_app (l l' : list string) : commonprefix l (l ++ l') = l.
Proof.
  induction l as [|x l IH]; [by destruct l'|]. simpl.
  by rewrite String.eqb_refl, IH.
Qed.

Lemma commonprefix_refl (l : list string) : commonprefix l l = l.
Proof.
  induction l as [|x l IH]; [done|]. simpl. by rewrite String.eqb_refl, IH.
Qed.

Lemma relpath_self top : top <> "" -> relpath cwd top top = Some ".".
Proof.
  intros Ht. unfold relpath. apply String.eqb_neq in Ht. rewrite Ht.
  rewrite commonprefix_refl, Nat.sub_diag, drop_all. done.
Qed.

(** The path of a directory or file below the start path, relative to it,
    is made of the names that lead to it. *)
Lemma relpath_below top x xs :
  isabs cwd = true -> top <> "" ->
  Forall (fun n => valid_name n = true) (x :: xs) ->
  relpath cwd (join_all top (x :: xs)) top = Some (Py.join "/" (x :: xs)).
Proof.
  intros Hc Ht Hv. unfold relpath.
  assert (String.eqb (join_all top (x :: xs)) "" = false) as ->.
  { apply String.eqb_neq. by apply join_all_nonempty. }
  change (abspath cwd ?p) with (normpath (absolute cwd p)).
  rewrite absolute_join_all by done.
  rewrite !abs_components.
  - rewrite normpath_comps_join_all by done.
    rewrite commonprefix_app, Nat.sub_diag, drop_app_length'; [|done].
    simpl replicate. rewrite List.app_nil_l. by rewrite join_all_names.
  - rewrite <- absolute_join_all by done. by apply absolute_isabs.
  - by apply absolute_isabs.
Qed.

Lemma py_join_not_dot x xs :
  valid_name x = true -> Py.join "/" (x :: xs) <> ".".
Proof.
  intros (H1 & H2 & _)%valid_name_spec. rewrite py_join_below.
  destruct xs as [|y ys].
  - by rewrite str_app_nil_r.
  - destruct x as [|c x]; [done|]. rewrite str_app_cons.
    intros E. injection E as _ E.
    apply str_app_eq_nil in E as [_ E]. done.
Qed.

Lemma basename_join root n :
  root <> "" -> valid_name n = true -> basename (join root n) = n.
Proof.
  intros Hr Hn.
  assert (exists r0, join root n = r0 +:+ String "/" n) as [r0 ->].
  { rewrite join_valid by done. apply String.eqb_neq in Hr. rewrite Hr.
    destruct (Py.endswith root "/") eqn:He; simpl.
    - apply endswith_sep in He as [r ->]. exists r.
      by rewrite str_app_assoc.
    - exists root. done. }
  apply valid_name_spec in Hn as (_ & _ & _ & Hs).
  unfold basename, Py.slice_from. rewrite rfind_sep_under_dir by done.
  replace (Z.to_nat (Py.len r0 + 1)) with (String.length r0 + 1)%nat
    by (unfold Py.len; lia).
  by rewrite drop_app_length.
Qed.

Lemma startswith_app_self s t : Py.startswith (s +:+ t) s = true.
Proof.
  induction s as [|c s IH]; [by destruct t|].
  rewrite str_app_cons. simpl. by rewrite Ascii.eqb_refl, IH.
Qed.

Lemma remove_go_skip old s t :
  Py.remove_go old (String.length s) (s +:+ t) = Py.remove_go old 0 t.
Proof.
  induction s as [|c s IH]; [by destruct t|].
  rewrite str_app_cons. exact IH.
Qed.

Lemma remove_prefix old t :
  old <> "" -> Py.remove old (old +:+ t) = Py.remove_go old 0 t.
Proof.
  intros Ho. unfold Py.remove. apply String.eqb_neq in Ho. rewrite Ho.
  destruct old as [|a o]; [done|].
  rewrite str_app_cons. cbn [Py.remove_go].
  rewrite <- str_app_cons, startswith_app_self.
  cbn [String.length]. rewrite Nat.sub_succ, Nat.sub_0_r.
  apply remove_go_skip.
Qed.

Lemma remove_go_absent old t :
  occurs_in old t = false -> Py.remove_go old 0 t = t.
Proof.
  induction t as [|a t IH]; [done|].
  cbn [occurs_in Py.remove_go]. intros [H1 H2]%orb_false_iff.
  by rewrite H1, IH.
Qed.

Lemma remove_self top : top <> "" -> Py.remove top top = "".
Proof.
  intros Ht. rewrite <- (str_app_nil_r top) at 2.
  by rewrite remove_prefix.
Qed.

(** The label of the start directory. *)
Lemma dir_label_root top :
  top <> "" ->
  dir_label cwd top top = basename (abspath cwd top) +:+ "/".
Proof.
  intros Ht. unfold dir_label, rel_path.
  by rewrite remove_self, relpath_self.
Qed.

End below_facts.

(** ** [normpath] returns normal forms *)

Section normal_form_facts.
Import posixpath.

Lemma normal_comps_nil k : normal_comps k [].
Proof.
  split; [constructor|]. intros l1 l2 H. by destruct l1.
Qed.

Lemma snoc_split (l : list string) x l1 y l2 :
  l ++ [x] = l1 ++ y :: l2 ->
  (l2 = [] /\ l = l1 /\ x = y) \/
  exists l2', l2 = l2' ++ [x] /\ l = l1 ++ y :: l2'.
Proof.
  destruct l2 as [|z l2 _] using rev_ind.
  - intros [-> ->]%(app_inj_tail l l1 x y). by left.
  - intros H. right. exists l2.
    change (l ++ [x] = l1 ++ (y :: l2 ++ [z])) in H.
    rewrite List.app_comm_cons, List.app_assoc in H.
    by apply app_inj_tail in H as [-> ->].
Qed.

Lemma last_Some_snoc (l : list string) x :
  last l = Some x -> exists l0, l = l0 ++ [x].
Proof.
  destruct l as [|y l _] using rev_ind; [done|].
  rewrite last_snoc. intros [= ->]. by exists l.
Qed.

Lemma removelast_snoc (l : list string) x : removelast (l ++ [x]) = l.
Proof. apply List.removelast_last. Qed.

Lemma normpath_step_normal k l comp :
  Py.count "/" comp = 0%nat ->
  normal_comps k l -> normal_comps k (normpath_step k l comp).
Proof.
  intros Hs [Hg Hd]. unfold normpath_step.
  destruct (bool_decide (comp = "" \/ comp = ".")) eqn:E1; [done|].
  apply bool_decide_eq_false in E1.
  assert (plain_comp comp) as Hc by (unfold plain_comp; tauto).
  destruct (bool_decide (comp <> "..")) eqn:E2.
  { apply bool_decide_eq_true in E2. simpl. split.
    - apply Forall_app. split; [done|by constructor].
    - intros l1 l2 [(_ & _ & ?)|(l2' & -> & ->)]%snoc_split; [done|].
      by apply (Hd l1 l2'). }
  apply bool_decide_eq_false in E2.
  assert (comp = "..") as -> by (by destruct (decide (comp = ".."))).
  simpl.
  destruct (Nat.eqb k 0 && is_nil l) eqn:E3.
  { apply andb_true_iff in E3 as [Hk Hl]. apply Nat.eqb_eq in Hk.
    destruct l; [|done]. simpl. split; [by constructor|].
    intros l1 l2 H. destruct l1 as [|? [|? ?]]; [|done..].
    split; [done|constructor]. }
  simpl.
  destruct (negb (is_nil l) && bool_decide (last l = Some "..")) eqn:E4.
  { apply andb_true_iff in E4 as [_ Hl]. apply bool_decide_eq_true in Hl.
    apply last_Some_snoc in Hl as [l0 ->].
    destruct (Hd l0 [] eq_refl) as [Hk Hl0].
    split; [apply Forall_app; split; [done|by constructor]|].
    intros l1 l2 H. split; [done|].
    assert (Forall (fun c => c = "..") ((l0 ++ [".."]) ++ [".."])) as Hall.
    { repeat (apply Forall_app; split; [|by constructor]). done. }
    rewrite H in Hall. by apply Forall_app in Hall as [? _]. }
  destruct l as [|y l _] using rev_ind; [done|].
  assert (negb (is_nil (l ++ [y])) = true) as -> by (by destruct l).
  rewrite removelast_snoc. split.
  - by apply Forall_app in Hg as [? _].
  - intros l1 l2 ->. apply (Hd l1 (l2 ++ [y])).
    by rewrite <- List.app_assoc.
Qed.

Lemma normpath_fold_normal k comps acc :
  Forall (fun c => Py.count "/" c = 0%nat) comps ->
  normal_comps k acc -> normal_comps k (fold_left (normpath_step k) comps acc).
Proof.
  intros Hc. revert acc. induction Hc as [|c comps Hs _ IH]; intros acc Ha;
    [done|].
  simpl. by apply IH, normpath_step_normal.
Qed.

Lemma normpath_comps_normal p :
  normal_comps (initial_slashes p) (normpath_comps p).
Proof.
  apply normpath_fold_normal; [apply split_no_sep|apply normal_comps_nil].
Qed.

(** On components in normal form the loop of [normpath] changes nothing. *)
Lemma normpath_fold_id k l acc :
  normal_comps k (acc ++ l) ->
  fold_left (normpath_step k) l acc = acc ++ l.
Proof.
  revert acc. induction l as [|c l IH]; intros acc Hn.
  - by rewrite List.app_nil_r.
  - assert (normpath_step k acc c = acc ++ [c]) as Hstep.
    { destruct Hn as [Hg Hd]. unfold normpath_step.
      apply Forall_app in Hg as [_ Hg]. inversion_clear Hg as [|? ? Hc _].
      destruct Hc as (H1 & H2 & _).
      rewrite bool_decide_eq_false_2 by tauto.
      destruct (decide (c = "..")) as [->|Hne].
      - destruct (Hd acc l eq_refl) as [-> Hacc].
        rewrite bool_decide_eq_false_2 by (by intros ?). simpl.
        destruct acc as [|a acc _] using rev_ind; [done|].
        apply Forall_app in Hacc as [_ Ha]. inversion_clear Ha as [|? ? -> _].
        rewrite last_snoc, bool_decide_eq_true_2 by done.
        assert (is_nil (acc ++ [".."]) = false) as -> by (by destruct acc).
        done.
      - by rewrite bool_decide_eq_true_2. }
    simpl. rewrite Hstep, IH; [by rewrite <- List.app_assoc|].
    by rewrite <- List.app_assoc.
Qed.

Lemma normpath_fold_empty k j acc :
  fold_left (normpath_step k) (replicate j "") acc = acc.
Proof.
  induction j as [|j IH]; [done|]. simpl.
  unfold normpath_step at 2. by rewrite bool_decide_eq_true_2 by (by left).
Qed.

Lemma join_head (c : string) (cs : list string) :
  exists rest, Py.join "/" (c :: cs) = c +:+ rest.
Proof.
  destruct cs as [|c' cs].
  - exists "". by rewrite str_app_nil_r.
  - by exists ("/" +:+ Py.join "/" (c' :: cs)).
Qed.

(** The text of components in normal form begins with no separator. *)
Lemma join_plain_head (l : list string) :
  Forall plain_comp l ->
  Py.join "/" l = "" \/
  exists a s, Py.join "/" l = String a s /\ Ascii.eqb a "/" = false.
Proof.
  intros [|c cs (H1 & _ & H3) _]; [by left|]. right.
  destruct (join_head c cs) as [rest ->].
  destruct c as [|a c]; [done|]. exists a, (c +:+ rest).
  split; [done|]. simpl in H3. by destruct (Ascii.eqb a "/").
Qed.

Lemma initial_slashes_cases p :
  initial_slashes p = 0%nat \/ initial_slashes p = 1%nat \/
  initial_slashes p = 2%nat.
Proof.
  unfold initial_slashes. destruct (Py.startswith p "/"); [|by left].
  destruct (_ && _); tauto.
Qed.

Lemma initial_slashes_normal k s :
  (k = 0 \/ k = 1 \/ k = 2)%nat ->
  (s = "" \/ exists a s', s = String a s' /\ Ascii.eqb a "/" = false) ->
  Py.repeat_str "/" k +:+ s <> "" ->
  initial_slashes (Py.repeat_str "/" k +:+ s) = k.
Proof.
  intros Hk Hs Hne. unfold initial_slashes.
  destruct Hk as [->|[->| ->]]; destruct Hs as [->|(a & s' & -> & Ha)];
    try done; simpl; by rewrite ?Ha.
Qed.

Lemma normpath_idem_aux p :
  normpath p = "." \/
  (normpath p
   = Py.repeat_str "/" (initial_slashes p) +:+ Py.join "/" (normpath_comps p)
   /\ normpath p <> "").
Proof.
  unfold normpath. destruct (String.eqb p ""); [by left|].
  destruct (String.eqb _ "") eqn:E; [by left|].
  right. split; [done|]. by apply String.eqb_neq.
Qed.

Lemma normpath_idem p : normpath (normpath p) = normpath p.
Proof.
  destruct (normpath_idem_aux p) as [->|[Hq Hne]]; [done|].
  set (k := initial_slashes p) in *. set (comps := normpath_comps p) in *.
  destruct (normpath_comps_normal p) as [Hg Hd]. fold k comps in Hg, Hd.
  assert (initial_slashes (normpath p) = k) as Hk.
  { rewrite Hq. apply initial_slashes_normal.
    - apply initial_slashes_cases.
    - by apply join_plain_head.
    - by rewrite <- Hq. }
  assert (normpath_comps (normpath p) = comps) as Hc.
  { unfold normpath_comps. rewrite Hk, Hq, split_repeat_sep, fold_left_app.
    rewrite normpath_fold_empty.
    destruct comps as [|c cs] eqn:E; [done|].
    rewrite split_join; [|done|].
    - by apply (normpath_fold_id k (c :: cs) []).
    - eapply Forall_impl; [exact Hg|]. by intros ? (_ & _ & ?). }
  unfold normpath at 1. apply String.eqb_neq in Hne as Hne'. rewrite Hne'.
  rewrite Hk, Hc, <- Hq, Hne'. done.
Qed.

End normal_form_facts.

Section command_line_facts.
Import posixpath.

Lemma normpath_nonempty p : normpath p <> "".
Proof. destruct (normpath_idem_aux p) as [->|[_ ?]]; done. Qed.

Lemma normpath_isabs p : isabs p = true -> isabs (normpath p) = true.
Proof.
  intros Ha. unfold normpath.
  assert (String.eqb p "" = false) as ->.
  { apply String.eqb_neq. by intros ->. }
  assert (exists k, initial_slashes p = S k) as [k ->].
  { unfold initial_slashes. unfold isabs in Ha. rewrite Ha.
    destruct (_ && _); eauto. }
  change (Py.repeat_str "/" (S k)) with ("/" +:+ Py.repeat_str "/" k).
  rewrite !str_app_assoc, str_app_cons, str_app_nil_l.
  change (String.eqb (String "/" ?s) "") with false. cbv iota.
  unfold isabs. cbn [Py.startswith]. by rewrite startswith_nil.
Qed.

Lemma join_last (l : list string) c :
  last l = Some c -> exists pre, Py.join "/" l = pre +:+ c.
Proof.
  induction l as [|x l IH]; [done|]. destruct l as [|y l].
  - intros [= ->]. by exists "".
  - intros H. destruct (IH H) as [pre Hpre].
    exists (x +:+ "/" +:+ pre).
    change (Py.join "/" (x :: y :: l))
      with (x +:+ "/" +:+ Py.join "/" (y :: l)).
    by rewrite Hpre, !str_app_assoc.
Qed.

(** A normal form ends with a separator only when it is the root. *)
Lemma normpath_trailing_sep p :
  Py.endswith (normpath p) "/" = true -> normpath p = "/" \/ normpath p = "//".
Proof.
  destruct (normpath_idem_aux p) as [->|[Hq Hne]]; [done|].
  destruct (normpath_comps_normal p) as [Hg _].
  destruct (normpath_comps p) as [|c cs _] eqn:E using rev_ind.
  - intros _. rewrite Hq in *. rewrite str_app_nil_r in *.
    destruct (initial_slashes_cases p) as [Hk|[Hk|Hk]]; rewrite Hk in *;
      [done|by left|by right].
  - rewrite Hq. destruct (join_last (cs ++ [c]) c) as [pre ->];
      [by rewrite last_snoc|].
    apply Forall_app in Hg as [_ Hc]. inversion_clear Hc as [|? ? (H1 & _ & H3) _].
    rewrite <- str_app_assoc, endswith_app by done.
    by rewrite endswith_no_sep.
Qed.

Lemma abspath_idem cwd p :
  isabs cwd = true -> abspath cwd (abspath cwd p) = abspath cwd p.
Proof.
  intros Hc. unfold abspath at 1.
  change (abspath cwd p) with (normpath (absolute cwd p)).
  by rewrite normpath_isabs, normpath_idem by (by apply absolute_isabs).
Qed.

End command_line_facts.

(** * Further properties *)

(** X1.  [generate_pdf] hands a story to the layout library exactly when
    that library accepts every paragraph of it, and raises when it refuses
    one.  The story is the five blocks of the cover, the structure listing,
    a page break, the blocks of the content pass, a page break and the
    summary, in this order.  It holds one page break for every documented
    file and three more, and sixteen blocks besides one for every visited
    directory and four for every documented file. *)
Theorem generate_pdf_story_layout
    (isfile : string -> bool) (read_text : string -> string + string)
    (parses : string -> style -> bool)
    (cwd cover_date summary_time root_dir : string) (tree : node) :
  let structure :=
    structure_blocks cwd (App.should_include isfile) root_dir tree in
  let contents := content_blocks isfile read_text cwd root_dir tree in
  let file_count := length (content_files isfile root_dir tree) in
  let summary :=
    summary_blocks isfile cwd summary_time root_dir tree file_count in
  let story :=
    [ Paragraph "Project Documentation" Title;
      Spacer 1 5;
      Paragraph
        ("Project: "
         +:+ posixpath.basename (posixpath.abspath cwd root_dir)) Heading2;
      Paragraph ("Generated on: " +:+ cover_date) Heading3;
      PageBreak ]
    ++ structure ++ [PageBreak] ++ contents ++ [PageBreak] ++ summary in
  App.generate_pdf isfile read_text parses cwd cover_date summary_time
    root_dir tree
  = (if forallb (builds parses) story then Some story else None) /\
  (App.generate_pdf isfile read_text parses cwd cover_date summary_time
     root_dir tree = None <->
   exists text st, Paragraph text st ∈ story /\ parses text st = false) /\
  App.generate_directory_structure isfile parses cwd root_dir tree
  = when_built parses structure structure /\
  App.generate_file_contents isfile read_text parses cwd root_dir tree
  = when_built parses contents (contents, file_count) /\
  App.generate_project_summary isfile parses cwd summary_time root_dir tree
    file_count
  = when_built parses summary summary /\
  length (filter (fun b => is_page_break b) story) = (file_count + 3)%nat /\
  length story
  = (16 + App.count_directories isfile root_dir tree + 4 * file_count)%nat.
Proof.
  intros structure contents file_count summary story.
  set (entries := os_walk (prune_dirs (App.should_include isfile)) root_dir tree).
  set (files := content_files isfile root_dir tree).
  assert (App.generate_pdf isfile read_text parses cwd cover_date
            summary_time root_dir tree = when_built parses story story)
    as Hpdf by apply generate_pdf_shape.
  split; [exact Hpdf|]. split; [rewrite Hpdf; apply when_built_refused|].
  split; [apply structure_pass_shape|].
  split; [apply generate_file_contents_shape|].
  split; [apply generate_project_summary_shape|]. split.
  - unfold story, summary, summary_blocks, structure, structure_blocks,
      contents, content_blocks.
    rewrite !filter_app, !length_app.
    repeat (rewrite filter_cons_False by (by intros [])).
    rewrite !filter_cons_True by done.
    repeat (rewrite filter_cons_False by (by intros [])).
    rewrite structure_no_page_break, file_blocks_page_breaks.
    simpl. lia.
  - unfold story, summary, summary_blocks, structure, structure_blocks,
      contents, content_blocks.
    rewrite !length_app. cbn [length]. rewrite structure_blocks_length.
    rewrite file_blocks_length, count_directories_length. fold entries.
    pose proof (Permutation_length (content_files_perm isfile root_dir tree))
      as Hlen.
    unfold kept in Hlen. fold entries files in Hlen. rewrite <- Hlen.
    unfold file_count. fold files. simpl. lia.
Qed.

(** X2.  The structure listing and the content section, each returned
    when the layout library accepts its paragraphs, show the same files,
    each as often in the one as in the other: the listing has as many file
    labels as the content pass counts files.  Both go through the same
    directories in the same order; inside a directory the listing keeps
    the order of the scan and the content section sorts the names. *)
Theorem structure_and_content_show_the_same_files
    (isfile : string -> bool) (read_text : string -> string + string)
    (parses : string -> style -> bool)
    (cwd root_dir : string) (tree : node) :
  let shown := structure_files (App.should_include isfile) root_dir tree in
  let read := content_files isfile root_dir tree in
  let entries :=
    os_walk (prune_dirs (App.should_include isfile)) root_dir tree in
  let structure :=
    structure_blocks cwd (App.should_include isfile) root_dir tree in
  let contents := content_blocks isfile read_text cwd root_dir tree in
  App.generate_directory_structure isfile parses cwd root_dir tree
  = when_built parses structure structure /\
  App.generate_file_contents isfile read_text parses cwd root_dir tree
  = when_built parses contents (contents, length read) /\
  length (filter (fun b => is_file_item b) structure) = length read /\
  length contents = (3 * length read)%nat /\
  read ≡ₚ shown /\
  (forall file, occurrences file read = occurrences file shown) /\
  content_groups isfile root_dir tree
  = (fun e : walk_entry =>
       (e.1.1,
        sorted_names (keep_files (App.should_include isfile) e.1.1 e.2)))
    <$> entries /\
  shown
  = flat_map
      (fun e : walk_entry =>
         pair e.1.1 <$> keep_files (App.should_include isfile) e.1.1 e.2)
      entries.
Proof.
  intros shown read entries structure contents.
  assert (read ≡ₚ shown) as Hperm by apply content_files_perm.
  split; [apply structure_pass_shape|].
  split; [apply generate_file_contents_shape|].
  split; [|split; [apply file_blocks_length|split; [done|split; [|done]]]].
  - unfold structure, structure_blocks.
    rewrite filter_cons_False by (by intros []).
    rewrite structure_file_items. fold shown. by rewrite Hperm.
  - intros file. by rewrite Hperm.
Qed.

(** X3.  When the start path has an excluded name among the components of
    its normal form (a project kept under a directory called [build], say),
    the document is empty: the walk yields the start directory alone, the
    structure listing is its label (the last component of its absolute
    path) under the header, returned when the layout library accepts these
    two paragraphs; the content pass returns no block and counts no file,
    the summary counts one directory, and the table of extensions has its
    header row only. *)
Theorem excluded_start_path_documents_nothing
    (isfile : string -> bool) (read_text : string -> string + string)
    (parses : string -> style -> bool)
    (cwd top name : string) (es : list node) :
  top <> "" ->
  is_excluded top = true ->
  valid_tree (Dir name (Some es)) = true ->
  let tree := Dir name (Some es) in
  let structure :=
    [ Paragraph "Project Directory Structure" StructureHeader;
      Paragraph (posixpath.basename (posixpath.abspath cwd top) +:+ "/")
        DirItem ] in
  os_walk (prune_dirs (App.should_include isfile)) top tree
  = [(top, [], file_names es)] /\
  structure_blocks cwd (App.should_include isfile) top tree = structure /\
  App.generate_directory_structure isfile parses cwd top tree
  = when_built parses structure structure /\
  App.generate_file_contents isfile read_text parses cwd top tree
  = Some ([], 0%nat) /\
  App.count_directories isfile top tree = 1%nat /\
  App.count_extensions isfile top tree = ∅ /\
  App.file_type_data (App.count_extensions isfile top tree)
  = [["File Type"; "Count"]].
Proof.
  intros Ht He Hv tree structure.
  assert (os_walk (prune_dirs (App.should_include isfile)) top tree
          = [(top, [], file_names es)]) as Hw.
  { unfold os_walk. apply String.eqb_neq in Ht. rewrite Ht.
    unfold tree. rewrite walk_dir.
    by rewrite prune_dirs_excluded by (by try apply (valid_tree_dir_names name)). }
  assert (keep_files (App.should_include isfile) top (file_names es) = [])
    as Hk.
  { apply keep_files_excluded; [done|]. apply Forall_forall. intros f Hf.
    by apply (valid_tree_file_names name es). }
  assert (App.count_extensions isfile top tree = ∅) as Hc.
  { apply map_empty. intros ext.
    destruct (App.count_extensions isfile top tree !! ext) as [k|] eqn:Hk';
      [|done].
    apply count_extensions_lookup in Hk' as [-> Hpos].
    rewrite tally_files_eq in Hpos. unfold os_walk, files_with_key in Hpos.
    destruct (String.eqb top ""); [simpl in Hpos; lia|].
    rewrite kept_under_excluded in Hpos by done. simpl in Hpos. lia. }
  assert (structure_blocks cwd (App.should_include isfile) top tree
          = structure) as Hs.
  { unfold structure_blocks. rewrite Hw. simpl. unfold structure_block.
    simpl. by rewrite Hk, dir_label_root. }
  split; [done|]. split; [done|].
  split; [|split; [|split; [|split; [done|]]]].
  - unfold App.generate_directory_structure.
    by rewrite structure_pass_shape, Hs.
  - rewrite generate_file_contents_shape. unfold content_blocks.
    assert (content_files isfile top tree = []) as ->; [|done].
    apply Permutation_nil_r. rewrite content_files_perm, Hw. simpl.
    unfold kept. simpl. by rewrite Hk.
  - by rewrite count_directories_length, Hw.
  - by rewrite Hc.
Qed.

Lemma excluded_start_path_witness :
  App.generate_file_contents example_isfile example_read example_parses
    "/home/u" "/home/u/build/proj" example_tree = Some ([], 0%nat) /\
  App.count_extensions example_isfile "/home/u/build/proj" example_tree = ∅.
Proof.
  destruct (excluded_start_path_documents_nothing example_isfile example_read
    example_parses "/home/u" "/home/u/build/proj" "proj"
    [ Dir "src" (Some [File "styles.css"; File "index.js"]);
      File "README.md";
      Dir "node_modules" (Some [Dir "pkg" (Some [File "index.js"])]);
      Dir "assets" (Some []) ])
    as (_ & _ & _ & H1 & _ & H2 & _); [done | reflexivity | reflexivity |].
  split; [exact H1 | exact H2].
Defined.

(** X4.  The content pass documents files of the tree only, and only kept
    ones: a documented file is listed by the tree, neither its directory
    path nor its name has an excluded component, and if it is a regular
    file its lower-cased extension is in the allowed set.  The pass opens
    no other file: two file systems that agree on what reading the
    documented files gives produce the same section. *)
Theorem content_pass_reads_only_kept_files
    (isfile : string -> bool) (read_text read_text' : string -> string + string)
    (parses : string -> style -> bool)
    (cwd root_dir : string) (tree : node) :
  valid_tree tree = true ->
  (forall r f,
     (r, f) ∈ content_files isfile root_dir tree ->
     read_text (posixpath.join r f) = read_text' (posixpath.join r f)) ->
  (forall r f,
     (r, f) ∈ content_files isfile root_dir tree ->
     (r, f) ∈ tree_files root_dir tree /\
     is_excluded r = false /\ (f ∉ App.EXCLUDE_DIRS) /\
     (isfile (posixpath.join r f) = true ->
      Py.lower (posixpath.splitext f).2 ∈ App.VALID_EXTENSIONS)) /\
  App.generate_file_contents isfile read_text parses cwd root_dir tree
  = App.generate_file_contents isfile read_text' parses cwd root_dir tree.
Proof.
  intros Hv Hread. split.
  - intros r f Hin.
    pose proof (content_files_in_tree _ _ _ _ _ Hin) as Ht.
    split; [done|]. apply should_include_file.
    + by apply (tree_files_valid root_dir tree r f).
    + by apply (content_files_kept isfile root_dir tree).
  - rewrite !generate_file_contents_shape.
    assert (content_blocks isfile read_text cwd root_dir tree
            = content_blocks isfile read_text' cwd root_dir tree) as ->;
      [|done].
    apply flat_map_ext_elem. intros [r f] Hin.
    unfold file_block, App.read_content. simpl. by rewrite Hread.
Qed.

Lemma content_pass_reads_only_kept_files_witness :
  App.generate_file_contents example_isfile example_read example_parses
    "/home/u" "/home/u/proj" example_tree
  = App.generate_file_contents example_isfile
      (fun path =>
         if String.eqb path "/home/u/proj/node_modules/pkg/index.js"
         then inr "Permission denied" else example_read path)
      example_parses "/home/u" "/home/u/proj" example_tree.
Proof.
  apply (content_pass_reads_only_kept_files example_isfile example_read
           (fun path =>
              if String.eqb path "/home/u/proj/node_modules/pkg/index.js"
              then inr "Permission denied" else example_read path)
           example_parses "/home/u" "/home/u/proj" example_tree);
    [reflexivity|].
  intros r f Hin.
  assert ((r, f) ∈ [ ("/home/u/proj", "README.md");
                     ("/home/u/proj/src", "index.js");
                     ("/home/u/proj/src", "styles.css") ]) as Hin'
    by exact Hin.
  repeat (apply elem_of_cons in Hin' as [Hin'|Hin'];
          [injection Hin' as -> ->; reflexivity|]).
  by apply elem_of_nil in Hin'.
Defined.

(** X5.  Every key of the extension table is in lower case and is either
    empty or begins with a dot, so that no two rows differ by case only.  In
    a tree of valid names a key is an allowed extension unless some entry
    that is not a regular file (a broken link, a socket, ...) carries it;
    when every file entry is a regular file, all the keys are allowed
    extensions, there is no row [No Extension], and the table has its header
    and at most ten rows. *)
Theorem frequency_table_keys
    (isfile : string -> bool) (top : string) (tree : node) :
  valid_tree tree = true ->
  let ext_counts := App.count_extensions isfile top tree in
  (forall ext count,
     ext_counts !! ext = Some count ->
     Py.lower ext = ext /\
     (ext = "" \/ Py.startswith ext "." = true) /\
     (ext ∈ App.VALID_EXTENSIONS \/
      exists r f,
        (r, f) ∈ tree_files top tree /\
        isfile (posixpath.join r f) = false /\ ext_key (r, f) = ext)) /\
  ((forall r f,
      (r, f) ∈ tree_files top tree -> isfile (posixpath.join r f) = true) ->
   (forall ext count, ext_counts !! ext = Some count ->
                      ext ∈ App.VALID_EXTENSIONS) /\
   ext_counts !! "" = None /\
   (length (App.file_type_data ext_counts) <= 11)%nat).
Proof.
  intros Hv ext_counts.
  assert (forall ext count,
    ext_counts !! ext = Some count ->
    exists r f, (r, f) ∈ tree_files top tree /\ ext_key (r, f) = ext /\
      (isfile (posixpath.join r f) = true -> ext ∈ App.VALID_EXTENSIONS))
    as Hkey.
  { intros ext count [-> Hpos]%count_extensions_lookup.
    apply files_with_key_pos in Hpos as ([r f] & Hin & Hk).
    exists r, f.
    pose proof (tally_files_in_tree _ _ _ _ _ Hin) as Ht.
    split; [done|]. split; [done|]. intros Hf.
    pose proof (tree_files_valid _ _ _ _ Hv Ht) as Hvf.
    apply (tally_files_kept isfile top tree) in Hin.
    destruct (should_include_file isfile r f Hvf Hin) as (_ & _ & He).
    rewrite <- Hk. by apply He. }
  assert (forall ext count,
    ext_counts !! ext = Some count ->
    Py.lower ext = ext /\
    (ext = "" \/ Py.startswith ext "." = true) /\
    (ext ∈ App.VALID_EXTENSIONS \/
     exists r f,
       (r, f) ∈ tree_files top tree /\
       isfile (posixpath.join r f) = false /\ ext_key (r, f) = ext)) as H1.
  { intros ext count Hl.
    destruct (Hkey ext count Hl) as (r & f & Ht & Hk & He).
    split; [|split].
    - rewrite <- Hk. apply lower_idem.
    - rewrite <- Hk. apply lower_leading_dot, splitext_leading_dot.
    - destruct (isfile (posixpath.join r f)) eqn:Hf; [left; by apply He|].
      right. by exists r, f. }
  split; [done|]. intros Hreg.
  assert (forall ext count, ext_counts !! ext = Some count ->
                            ext ∈ App.VALID_EXTENSIONS) as H2.
  { intros ext count Hl.
    destruct (Hkey ext count Hl) as (r & f & Ht & _ & He).
    apply He, Hreg, Ht. }
  split; [done|]. split.
  - destruct (ext_counts !! "") as [k|] eqn:Hk; [|done].
    apply H2 in Hk. exfalso. revert Hk. by_decide.
  - unfold App.file_type_data. cbn [length].
    rewrite length_fmap, (Permutation_length (sorted_items_perm _)).
    rewrite <- (length_fmap fst).
    assert (length (map_to_list ext_counts).*1
            <= length App.VALID_EXTENSIONS)%nat as Hle.
    { apply NoDup_subset_length; [apply NoDup_fst_map_to_list|].
      intros x ([e k] & -> & Hx)%list_elem_of_fmap.
      apply elem_of_map_to_list in Hx. by apply (H2 e k). }
    simpl in Hle. lia.
Qed.

Lemma frequency_table_keys_witness :
  App.count_extensions example_isfile "/home/u/proj" example_tree !! "" = None /\
  (length
     (App.file_type_data
        (App.count_extensions example_isfile "/home/u/proj" example_tree))
   <= 11)%nat.
Proof.
  destruct (frequency_table_keys example_isfile "/home/u/proj" example_tree)
    as [_ H]; [reflexivity|].
  destruct H as (_ & H1 & H2); [|split; [exact H1 | exact H2]].
  intros r f Hin.
  assert ((r, f) ∈ [ ("/home/u/proj", "README.md");
                     ("/home/u/proj/src", "styles.css");
                     ("/home/u/proj/src", "index.js");
                     ("/home/u/proj/node_modules/pkg", "index.js") ]) as Hin'
    by exact Hin.
  repeat (apply elem_of_cons in Hin' as [Hin'|Hin'];
          [injection Hin' as -> ->; reflexivity|]).
  by apply elem_of_nil in Hin'.
Defined.

(** X6.  For a text of fewer than 10000 lines the numbering can be taken
    off again: dropping the first seven characters of every line of what
    [format_code] returns gives back the lines of the text, so that two
    texts with different lines are never formatted alike. *)
Theorem format_code_round_trip (content filename : string) :
  Z.of_nat (length (Py.splitlines content)) < 10000 ->
  Py.drop 7 <$> Py.splitlines (App.format_code content filename)
  = Py.splitlines content.
Proof.
  intros Hlen.
  assert (Py.splitlines (App.format_code content filename)
          = App.formatted_lines content) as ->
    by apply splitlines_join, formatted_lines_plain.
  unfold App.formatted_lines. apply list_eq. intros i.
  rewrite list_lookup_fmap, list_lookup_imap.
  destruct (Py.splitlines content !! i) as [line|] eqn:Hi; [|done].
  simpl. f_equal. apply drop_numbered_line.
  apply lookup_lt_Some in Hi. lia.
Qed.

Lemma format_code_round_trip_witness :
  Py.drop 7 <$>
    Py.splitlines
      (App.format_code ("a" +:+ String Py.LF ("b" +:+ String Py.LF "")) "f.js")
  = ["a"; "b"].
Proof.
  apply (format_code_round_trip
           ("a" +:+ String Py.LF ("b" +:+ String Py.LF "")) "f.js").
  vm_compute. reflexivity.
Defined.

(** X7.  The line feed that ends the last line of a text counts for no
    line of its own: a text whose last character ends no line is formatted
    as the same text followed by one line feed.  What [format_code] returns
    never ends with a line boundary, and is empty exactly for a text that
    has no line at all. *)
Theorem format_code_final_line_feed (content filename : string) :
  (ends_inside_line content = true ->
   App.format_code (content +:+ String Py.LF "") filename
   = App.format_code content filename) /\
  (Py.splitlines content <> [] ->
   ends_inside_line (App.format_code content filename) = true) /\
  (App.format_code content filename = "" <-> Py.splitlines content = []).
Proof.
  split; [|split].
  - intros H. unfold App.format_code, App.formatted_lines, Py.splitlines.
    by rewrite splitlines_go_final_lf.
  - intros Hne. apply ends_inside_line_join; [|apply formatted_lines_plain].
    unfold App.formatted_lines. intros E. apply Hne.
    apply (f_equal length) in E. rewrite length_imap in E.
    by apply nil_length_inv.
  - unfold App.format_code, App.formatted_lines. split.
    + intros E. destruct (Py.splitlines content) as [|l ls] eqn:El; [done|].
      exfalso. revert E. apply join_nonempty; [|done].
      rewrite <- El. fold (App.formatted_lines content).
      eapply Forall_impl; [apply formatted_lines_plain|]. by intros ? [_ ?].
    + by intros ->.
Qed.

Lemma format_code_final_line_feed_witness :
  App.format_code ("a" +:+ String Py.LF "") "f.js" = App.format_code "a" "f.js".
Proof.
  apply (format_code_final_line_feed "a" "f.js"). reflexivity.
Defined.

(** X8.  Which regular files the filters keep, by their names.  In a
    directory without excluded component, a regular file whose name is made
    of leading dots and of a text without dot ([Makefile], [.gitignore],
    [.env]) has no extension and is dropped by both filters.  A name with
    a dot after a stem that is not made of dots only is judged by what
    follows its last dot, in lower case: [.eslintrc.json] and [app.min.JS]
    are kept, [archive.tar.gz] is not. *)
Theorem regular_files_are_judged_by_the_last_suffix
    (isfile : string -> bool) (root name : string) :
  valid_name name = true ->
  isfile (posixpath.join root name) = true ->
  let path := posixpath.join root name in
  (forall dots rest,
     name = dots +:+ rest ->
     posixpath.all_dots dots = true -> Py.count "." rest = 0%nat ->
     (posixpath.splitext path).2 = "" /\
     App.should_include isfile path = false /\
     AppStructure.should_include isfile path = false) /\
  (forall stem e,
     name = stem +:+ String "." e ->
     posixpath.all_dots stem = false -> Py.count "." e = 0%nat ->
     (posixpath.splitext path).2 = String "." e /\
     (is_excluded path = false ->
      App.should_include isfile path
      = bool_decide (String "." (Py.lower e) ∈ App.VALID_EXTENSIONS)) /\
     (is_excluded_raw path = false ->
      AppStructure.should_include isfile path
      = bool_decide (String "." (Py.lower e)
                     ∈ AppStructure.VALID_EXTENSIONS))).
Proof.
  intros Hv Hf path.
  pose proof (proj1 (valid_name_spec name) Hv) as (_ & _ & _ & Hs).
  split.
  - intros dots rest Hn Hd Hr.
    assert ((posixpath.splitext path).2 = "") as He.
    { unfold path. rewrite splitext_join by done. rewrite Hn.
      apply splitext_dotfile; [done..|by rewrite <- Hn]. }
    split; [done|].
    rewrite app_should_include_eq, structure_should_include_eq.
    fold path in Hf. rewrite Hf, He.
    split; [by destruct (is_excluded path)|by destruct (is_excluded_raw path)].
  - intros stem e Hn Hd He.
    assert ((posixpath.splitext path).2 = String "." e) as Hx.
    { unfold path. rewrite splitext_join by done. rewrite Hn.
      rewrite splitext_suffix; [done..|by rewrite <- Hn]. }
    split; [done|].
    rewrite app_should_include_eq, structure_should_include_eq.
    fold path in Hf. rewrite Hf, Hx.
    split; by intros ->.
Qed.

Lemma regular_files_are_judged_by_the_last_suffix_witness :
  App.should_include (fun _ => true) "proj/.gitignore" = false /\
  App.should_include (fun _ => true) "proj/.eslintrc.json" = true /\
  App.should_include (fun _ => true) "proj/archive.tar.gz" = false.
Proof.
  split; [|split].
  - destruct (regular_files_are_judged_by_the_last_suffix (fun _ => true)
                "proj" ".gitignore") as [H _]; [reflexivity..|].
    apply (H "." "gitignore"); reflexivity.
  - destruct (regular_files_are_judged_by_the_last_suffix (fun _ => true)
                "proj" ".eslintrc.json") as [_ H]; [reflexivity..|].
    destruct (H ".eslintrc" "json") as (_ & H1 & _); [reflexivity..|].
    exact (eq_trans (H1 eq_refl) eq_refl).
  - destruct (regular_files_are_judged_by_the_last_suffix (fun _ => true)
                "proj" "archive.tar.gz") as [_ H]; [reflexivity..|].
    destruct (H "archive.tar" "gz") as (_ & H1 & _); [reflexivity..|].
    exact (eq_trans (H1 eq_refl) eq_refl).
Defined.

(** X9.  The listing of [appStructure.py] against that of [app.py].  For
    a tree of valid names whose directories are no regular files, and a
    start path on which the two tests of the components agree (one that is
    its own normal form, for instance), both programs walk the same
    directories in the same order, and [appStructure.py] shows the files
    [app.py] shows except the regular files with the extension [.geojson].
    When the tree has no such file the two listings are the same blocks. *)
Theorem structure_listings_differ_by_geojson
    (isfile : string -> bool) (parses : string -> style -> bool)
    (cwd top : string) (tree : node) :
  valid_tree tree = true ->
  dirs_not_files isfile top tree = true ->
  is_excluded top = is_excluded_raw top ->
  os_walk (prune_dirs (AppStructure.should_include isfile)) top tree
  = os_walk (prune_dirs (App.should_include isfile)) top tree /\
  structure_files (AppStructure.should_include isfile) top tree
  = filter (fun file => regular_geojson isfile file = false)
      (structure_files (App.should_include isfile) top tree) /\
  ((forall file,
      file ∈ tree_files top tree -> regular_geojson isfile file = false) ->
   AppStructure.generate_directory_structure isfile parses cwd top tree
   = App.generate_directory_structure isfile parses cwd top tree).
Proof.
  intros Hv Hc Ht.
  assert (os_walk (prune_dirs (AppStructure.should_include isfile)) top tree
          = os_walk (prune_dirs (App.should_include isfile)) top tree) as Hw.
  { unfold os_walk. destruct (String.eqb top ""); [done|].
    by apply walks_agree. }
  assert (forall e : walk_entry,
    e ∈ os_walk (prune_dirs (App.should_include isfile)) top tree ->
    keep_files (AppStructure.should_include isfile) e.1.1 e.2
    = filter (fun f => regular_geojson isfile (e.1.1, f) = false)
        (keep_files (App.should_include isfile) e.1.1 e.2)) as Hk.
  { intros e He. unfold os_walk in He.
    destruct (String.eqb top ""); [by apply elem_of_nil in He|].
    apply keep_files_structure.
    - by apply (walk_files_valid
                  (prune_dirs (App.should_include isfile)) top tree).
    - by apply (walk_roots_agree
                  (prune_dirs (App.should_include isfile)) top tree). }
  split; [done|]. split.
  - unfold structure_files. rewrite Hw, filter_flat_map.
    apply flat_map_ext_elem. intros e He.
    by rewrite Hk, filter_pair_fmap.
  - intros Hg. unfold AppStructure.generate_directory_structure,
      App.generate_directory_structure.
    rewrite !structure_pass_shape.
    assert (structure_blocks cwd (AppStructure.should_include isfile) top tree
            = structure_blocks cwd (App.should_include isfile) top tree)
      as ->; [|done].
    unfold structure_blocks. rewrite Hw. f_equal.
    apply flat_map_ext_elem. intros e He. unfold structure_block.
    rewrite (Hk e He). do 2 f_equal.
    set (l := keep_files (App.should_include isfile) e.1.1 e.2).
    assert (forall f, f ∈ l -> regular_geojson isfile (e.1.1, f) = false)
      as Hl.
    { intros f Hf. apply Hg.
      apply (content_files_in_tree isfile).
      rewrite content_files_perm. apply elem_of_flat_map. exists e.
      split; [done|]. unfold kept. apply list_elem_of_fmap. by exists f. }
    clearbody l. induction l as [|f l IH]; [done|].
    rewrite filter_cons_True by (apply Hl; left).
    f_equal. apply IH. intros f' Hf'. apply Hl. by right.
Qed.

Lemma structure_listings_differ_by_geojson_witness :
  structure_files (AppStructure.should_include geojson_isfile) "/p"
    geojson_tree
  = filter (fun file => regular_geojson geojson_isfile file = false)
      (structure_files (App.should_include geojson_isfile) "/p" geojson_tree)
  /\
  structure_files (App.should_include geojson_isfile) "/p" geojson_tree
  = [("/p", "a.js"); ("/p/d", "m.geojson")].
Proof.
  split; [|reflexivity].
  apply (structure_listings_differ_by_geojson geojson_isfile example_parses
           "/" "/p" geojson_tree); reflexivity.
Defined.

(** X10.  The labels of the structure listing.  The start directory is
    shown at level 0 under the last component of its absolute path; a
    directory below it is shown under its own name, the last of the names
    that lead to it, after four spaces for every level, and its files four
    spaces further.  The level is the number of separators left in the
    directory path once every occurrence of the text of the start path is
    taken out of it: it is the depth of the directory when the start path
    ends with no separator and its text does not occur again in what the
    descent appends. *)
Theorem directory_labels_show_name_and_depth
    (cwd top : string) (tree : node) (names : list string)
    (p : string) (es : list node) :
  posixpath.isabs cwd = true ->
  top <> "" ->
  valid_tree tree = true ->
  locate top tree names = Some (p, es) ->
  let level := Py.count "/" (Py.remove top p) in
  let indent k := Py.repeat_str "    " k in
  dir_label cwd top p
  = indent level
    +:+ match last names with
        | None => posixpath.basename (posixpath.abspath cwd top)
        | Some d => d
        end +:+ "/" /\
  (forall f, file_label top p f = indent (level + 1)%nat +:+ f) /\
  (names = [] -> level = 0%nat) /\
  (Py.endswith top "/" = false ->
   occurs_in top (path_below names) = false ->
   p = top +:+ path_below names /\ level = length names).
Proof.
  intros Hc Ht Hv Hl level indent.
  destruct (locate_names_valid _ _ _ _ _ Hv Hl) as [Hvn _].
  pose proof (locate_path _ _ _ _ _ Hl) as Hp.
  split; [|split; [done|split]].
  - unfold dir_label, rel_path. fold level.
    change (Py.repeat_str (Py.repeat_str " " 4) level) with (indent level).
    f_equal.
    destruct names as [|x xs _] using rev_ind.
    + simpl in Hp. subst p. by rewrite relpath_self.
    + rewrite last_snoc.
      destruct (xs ++ [x]) as [|y ys] eqn:E;
        [by apply app_nil in E as [_ ?]|].
      rewrite Hp, relpath_below by done.
      change (default "" (Some (Py.join "/" (y :: ys))))
        with (Py.join "/" (y :: ys)).
      assert (String.eqb (Py.join "/" (y :: ys)) "." = false) as ->.
      { apply String.eqb_neq, py_join_not_dot. by inversion Hvn. }
      rewrite <- E, join_all_snoc, basename_join; [done| |].
      * by apply join_all_nonempty.
      * rewrite <- E in Hvn. apply Forall_app in Hvn as [_ Hx].
        by inversion Hx.
  - intros ->. simpl in Hp. subst p. unfold level.
    by rewrite remove_self.
  - intros He Ho.
    assert (p = top +:+ path_below names) as Hp'
      by (by rewrite Hp, join_all_below).
    split; [done|]. unfold level.
    by rewrite Hp', remove_prefix, remove_go_absent, count_below.
Qed.

Lemma directory_labels_show_name_and_depth_witness :
  dir_label "/home/u" "/home/u/proj" "/home/u/proj/node_modules/pkg"
  = "        pkg/" /\
  Py.count "/" (Py.remove "/home/u/proj" "/home/u/proj/node_modules/pkg")
  = 2%nat.
Proof.
  destruct (directory_labels_show_name_and_depth "/home/u" "/home/u/proj"
    example_tree ["node_modules"; "pkg"] "/home/u/proj/node_modules/pkg"
    [File "index.js"]) as (H1 & _ & _ & H2); [reflexivity | done | reflexivity..|].
  split; [exact H1|]. by destruct H2.
Defined.

(** The two hypotheses of the depth are needed: after a start path that
    ends with a separator every level is one short, below the root
    directory every level is 0, and a directory whose path repeats the
    start path loses a level. *)
Example levels_off_depth :
  App.generate_directory_structure (fun _ => false) example_parses "/home/u"
    "proj/" (Dir "proj" (Some [Dir "src" (Some [File "a.js"])]))
  = Some [ Paragraph "Project Directory Structure" StructureHeader;
           Paragraph "proj/" DirItem;
           Paragraph "src/" DirItem;
           Paragraph "    a.js" FileItem ] /\
  dir_label "/" "/" "/usr/lib" = "lib/" /\
  dir_label "/" "my/app" "my/app/src/my/app" = "        app/".
Proof. vm_compute. repeat split; reflexivity. Qed.

(** X11.  The header of a documented file shows its path relative to the
    start path: the names of the directories that lead to it and its own
    name, joined by separators.  The file that is read is the one at that
    path under the start path. *)
Theorem file_headers_show_relative_paths
    (isfile : string -> bool) (read_text : string -> string + string)
    (cwd top : string) (tree : node) (r f : string) :
  posixpath.isabs cwd = true ->
  top <> "" ->
  valid_tree tree = true ->
  (r, f) ∈ content_files isfile top tree ->
  exists names es,
    locate top tree names = Some (r, es) /\
    f ∈ file_names es /\
    rel_path cwd (posixpath.join r f) top = Py.join "/" (names ++ [f]) /\
    file_block read_text cwd top (r, f)
    = [ PageBreak;
        Paragraph ("File: " +:+ Py.join "/" (names ++ [f])) CodeHeader;
        Preformatted
          (App.format_code
             (App.read_content read_text (posixpath.join r f)) f) Code ] /\
    (Py.endswith top "/" = false ->
     posixpath.join r f = top +:+ "/" +:+ Py.join "/" (names ++ [f])).
Proof.
  intros Hc Ht Hv Hin.
  apply (content_files_in_tree isfile) in Hin.
  unfold tree_files, listed_files, os_walk in Hin.
  apply String.eqb_neq in Ht as Ht'. rewrite Ht' in Hin.
  apply elem_of_flat_map in Hin as (e & He & Hf).
  apply list_elem_of_fmap in Hf as (f' & Heq & Hf). injection Heq as Hr Hf'. subst r f'.
  destruct (walk_full_located _ _ _ He) as (names & es & Hl & _ & Hfs).
  rewrite Hfs in Hf. exists names, es.
  destruct (locate_names_valid _ _ _ _ _ Hv Hl) as [Hvn Hvf].
  rewrite Forall_forall in Hvf. specialize (Hvf _ Hf).
  pose proof (locate_path _ _ _ _ _ Hl) as Hp.
  assert (Forall (fun n => valid_name n = true) (names ++ [f])) as Hall
    by (apply Forall_app; split; [done|by constructor]).
  assert (posixpath.join e.1.1 f = posixpath.join_all top (names ++ [f]))
    as Hj by (by rewrite join_all_snoc, Hp).
  assert (rel_path cwd (posixpath.join e.1.1 f) top
          = Py.join "/" (names ++ [f])) as Hrel.
  { unfold rel_path. rewrite Hj.
    destruct (names ++ [f]) as [|y ys] eqn:E;
      [by apply app_nil in E as [_ ?]|].
    by rewrite relpath_below. }
  split; [done|]. split; [done|]. split; [done|]. split.
  - unfold file_block. simpl. by rewrite Hrel.
  - intros He'. rewrite Hj, join_all_below by done.
    destruct (names ++ [f]) as [|y ys] eqn:E;
      [by apply app_nil in E as [_ ?]|].
    by rewrite py_join_below.
Qed.

Lemma file_headers_show_relative_paths_witness :
  exists names es,
    locate "/home/u/proj" example_tree names
    = Some ("/home/u/proj/src", es) /\
    "index.js" ∈ file_names es /\
    rel_path "/home/u" (posixpath.join "/home/u/proj/src" "index.js")
      "/home/u/proj"
    = Py.join "/" (names ++ ["index.js"]).
Proof.
  destruct (file_headers_show_relative_paths example_isfile example_read
    "/home/u" "/home/u/proj" example_tree "/home/u/proj/src" "index.js")
    as (names & es & H1 & H2 & H3 & _);
    [reflexivity | done | reflexivity | by_decide |].
  exists names, es. split; [exact H1|]. split; [exact H2 | exact H3].
Defined.

(** X12.  Both programs turn the directory they are given into an
    absolute path before they walk it.  Such a start path is never empty,
    is its own normal form and its own absolute path, begins with a
    separator (the working directory being absolute) and ends with one
    only if it is the root directory.  On every path the walk builds from
    it by appending names, normalising changes nothing in the test of the
    components: that test fails, in [app.py] as in [appStructure.py],
    exactly when one of the components of the path, as written, is an
    excluded name.  Each filter keeps such a path exactly when none of its
    components is an excluded name and, if it is a regular file, its
    lower-cased extension is in the allowed set of that filter. *)
Theorem command_line_start_path_is_normal
    (isfile : string -> bool) (cwd arg : string) (names : list string) :
  Forall (fun n => valid_name n = true) names ->
  let root_dir := posixpath.abspath cwd arg in
  let path := posixpath.join_all root_dir names in
  let clean :=
    forall part, part ∈ Py.split "/" path -> part ∉ App.EXCLUDE_DIRS in
  root_dir <> "" /\
  posixpath.normpath root_dir = root_dir /\
  (posixpath.isabs cwd = true ->
   posixpath.isabs root_dir = true /\
   posixpath.abspath cwd root_dir = root_dir) /\
  (Py.endswith root_dir "/" = true -> root_dir = "/" \/ root_dir = "//") /\
  is_excluded path = is_excluded_raw path /\
  (is_excluded path = true <->
   exists excl, excl ∈ App.EXCLUDE_DIRS /\ excl ∈ Py.split "/" path) /\
  (forall excl,
     excl ∈ App.EXCLUDE_DIRS -> excl ∈ Py.split "/" path ->
     App.should_include isfile path = false /\
     AppStructure.should_include isfile path = false) /\
  (App.should_include isfile path = true <->
   clean /\
   (isfile path = true ->
    Py.lower (posixpath.splitext path).2 ∈ App.VALID_EXTENSIONS)) /\
  (AppStructure.should_include isfile path = true <->
   clean /\
   (isfile path = true ->
    Py.lower (posixpath.splitext path).2 ∈ AppStructure.VALID_EXTENSIONS)).
Proof.
  intros Hv root_dir path clean.
  assert (posixpath.normpath root_dir = root_dir) as Hn
    by apply normpath_idem.
  assert (is_excluded path = is_excluded_raw path) as He.
  { unfold path.
    rewrite is_excluded_join_all, is_excluded_raw_join_all by done.
    by rewrite (is_excluded_normalised _ Hn). }
  assert (is_excluded_raw path = false <-> clean) as Hclean.
  { unfold clean. split.
    - intros Hr part Hin Hx.
      assert (is_excluded_raw path = true)
        by (apply is_excluded_raw_spec; eauto).
      congruence.
    - intros Hc. by apply raw_clean_not_excluded. }
  split; [apply normpath_nonempty|]. split; [done|].
  split; [|split; [|split; [done|split; [|split; [|split]]]]].
  - intros Hc. split; [by apply normpath_isabs, absolute_isabs|].
    by apply abspath_idem.
  - apply normpath_trailing_sep.
  - rewrite He. apply is_excluded_raw_spec.
  - intros excl Hx Hin.
    assert (is_excluded_raw path = true) as Hr
      by (apply is_excluded_raw_spec; eauto).
    by rewrite app_should_include_eq, structure_should_include_eq, He, Hr.
  - rewrite app_should_include_eq, He, <- Hclean.
    destruct (is_excluded_raw path); [by split; [|intros [? _]]|].
    destruct (isfile path).
    + rewrite bool_decide_eq_true. split; [by split|by intros [_ H]; apply H].
    + split; [by split|done].
  - rewrite structure_should_include_eq, <- Hclean.
    destruct (is_excluded_raw path); [by split; [|intros [? _]]|].
    destruct (isfile path).
    + rewrite bool_decide_eq_true. split; [by split|by intros [_ H]; apply H].
    + split; [by split|done].
Qed.

Lemma command_line_start_path_is_normal_witness :
  posixpath.abspath "/home/u" "build/../proj" = "/home/u/proj" /\
  is_excluded (posixpath.join_all (posixpath.abspath "/home/u" "build/../proj")
                 ["src"])
  = is_excluded_raw
      (posixpath.join_all (posixpath.abspath "/home/u" "build/../proj")
         ["src"]).
Proof.
  split; [reflexivity|].
  apply (command_line_start_path_is_normal (fun _ => false) "/home/u"
           "build/../proj" ["src"]).
  repeat constructor.
Defined.

(** X13.  A start path that cannot be listed (the empty path, a path that
    is no directory, a directory that cannot be read) makes no pass raise
    by itself: the walk yields nothing and the content pass returns no
    block and no file.  The structure listing is its header, the summary
    counts zero directories and zero files and its table has its header
    row only, and the story is the cover, that header and that summary;
    each is returned when the layout library accepts its paragraphs. *)
Theorem unlistable_start_path_gives_empty_document
    (isfile : string -> bool) (read_text : string -> string + string)
    (parses : string -> style -> bool)
    (cwd cover_date summary_time top : string) (tree : node) :
  top = "" \/ (exists n, tree = File n) \/ (exists n, tree = Dir n None) ->
  let header := Paragraph "Project Directory Structure" StructureHeader in
  let summary :=
    [ Paragraph "Project Documentation Summary" StructureHeader;
      Spacer 1 3;
      Paragraph ("Project Root: " +:+ posixpath.abspath cwd top) SummaryItem;
      Paragraph ("Generated on: " +:+ summary_time) SummaryItem;
      Paragraph "Total Directories: 0" SummaryItem;
      Paragraph "Total Files Documented: 0" SummaryItem;
      Spacer 1 2;
      Table [["File Type"; "Count"]] App.file_type_style ] in
  let story :=
    [ Paragraph "Project Documentation" Title;
      Spacer 1 5;
      Paragraph
        ("Project: " +:+ posixpath.basename (posixpath.abspath cwd top))
        Heading2;
      Paragraph ("Generated on: " +:+ cover_date) Heading3;
      PageBreak;
      header;
      PageBreak;
      PageBreak ]
    ++ summary in
  (forall prune, os_walk prune top tree = []) /\
  App.generate_directory_structure isfile parses cwd top tree
  = when_built parses [header] [header] /\
  AppStructure.generate_directory_structure isfile parses cwd top tree
  = when_built parses [header] [header] /\
  App.generate_file_contents isfile read_text parses cwd top tree
  = Some ([], 0%nat) /\
  App.generate_project_summary isfile parses cwd summary_time top tree 0
  = when_built parses summary summary /\
  App.generate_pdf isfile read_text parses cwd cover_date summary_time top
    tree
  = when_built parses story story.
Proof.
  intros H header summary story.
  assert (forall prune, os_walk prune top tree = []) as Hw.
  { intros prune. unfold os_walk.
    destruct H as [->|[[n ->]|[n ->]]]; [done|by destruct (String.eqb _ _)..]. }
  assert (forall si, structure_blocks cwd si top tree = [header]) as Hs.
  { intros si. unfold structure_blocks. by rewrite Hw. }
  assert (content_files isfile top tree = []) as Hf.
  { unfold content_files, content_groups. by rewrite Hw. }
  assert (summary_blocks isfile cwd summary_time top tree 0 = summary) as Hsum.
  { unfold summary_blocks, App.count_directories, App.count_extensions.
    by rewrite !Hw. }
  split; [done|]. split; [|split; [|split; [|split]]].
  - unfold App.generate_directory_structure.
    by rewrite structure_pass_shape, Hs.
  - unfold AppStructure.generate_directory_structure.
    by rewrite structure_pass_shape, Hs.
  - rewrite generate_file_contents_shape. unfold content_blocks.
    by rewrite Hf.
  - by rewrite generate_project_summary_shape, Hsum.
  - rewrite generate_pdf_shape.
    assert (story_blocks isfile read_text cwd cover_date summary_time top tree
            = story) as ->; [|done].
    unfold story_blocks, content_blocks. rewrite Hs, Hf. cbn [length].
    by rewrite Hsum.
Qed.

Lemma unlistable_start_path_gives_empty_document_witness :
  App.generate_file_contents example_isfile example_read example_parses
    "/home/u" "/home/u/proj/README.md" (File "README.md") = Some ([], 0%nat).
Proof.
  apply (unlistable_start_path_gives_empty_document example_isfile
           example_read example_parses "/home/u" "2026-01-01"
           "2026-01-01 10:00:00" "/home/u/proj/README.md" (File "README.md")).
  right. left. by exists "README.md".
Defined.
